(** * Document_Classifier: the orchestration core, embedded in Rocq

    A shallow embedding of the agents ([src/agents]), the domain catalog
    ([src/config/settings.py]) and the LangGraph workflow
    ([src/workflow/graph.py]), followed by the properties of the
    specification that concern them.

    Conventions of the embedding.
    - A Python [str] is a [string] whose characters are the code points
      below 256; [lower], [strip] and [in] are written out for that range.
    - A Python [float] is an exact rational ([Q]); the comparisons,
      products and quotients of the source are the rational ones, IEEE
      rounding is not represented.
    - A Python [dict] with a fixed set of possible keys is a record of
      [option]s ([None]: the key is absent), so that [d.get(k, default)]
      and the truth value of a dict can be written as the source has them.
    - Everything outside the process (clock, language models, file system,
      MCP server) is answered by a [World]; calls are recorded in a trace.
    - [except Exception] handlers are [catch]; the type [exn] stands for
      the instances of [Exception]. *)

From Stdlib Require Import String Ascii List Bool Arith ZArith QArith Lia Lqa.
From Stdlib Require Import Permutation Sorted.
Import ListNotations.

Set Implicit Arguments.
Close Scope Q_scope.
Open Scope string_scope.
Open Scope nat_scope.

(** ** Python strings *)

Module PyStr.

(** [str.lower()] on one character: A-Z, and the upper-case letters of
    the Latin-1 block (U+00C0-U+00DE without the multiplication sign). *)
Definition lower_char (c : ascii) : ascii :=
  let n := nat_of_ascii c in
  if ((65 <=? n) && (n <=? 90))
     || ((192 <=? n) && (n <=? 222) && negb (n =? 215))
  then ascii_of_nat (n + 32) else c.

Fixpoint lower (s : string) : string :=
  match s with
  | EmptyString => EmptyString
  | String c s' => String (lower_char c) (lower s')
  end.

(** [needle in hay] for two strings. *)
Fixpoint contains (needle hay : string) : bool :=
  if prefix needle hay then true
  else match hay with
       | EmptyString => false
       | String _ hay' => contains needle hay'
       end.

(** [x in xs] for a list of strings. *)
Definition mem (x : string) (xs : list string) : bool :=
  existsb (String.eqb x) xs.

(** [any(w in text for w in words)] *)
Definition any_in (words : list string) (text : string) : bool :=
  existsb (fun w => contains w text) words.

(** Characters removed by [str.strip()]. *)
Definition is_space (c : ascii) : bool :=
  let n := nat_of_ascii c in
  ((9 <=? n) && (n <=? 13)) || ((28 <=? n) && (n <=? 32))
  || (n =? 133) || (n =? 160).

Fixpoint lstrip (s : string) : string :=
  match s with
  | String c s' => if is_space c then lstrip s' else s
  | EmptyString => EmptyString
  end.

Definition reverse (s : string) : string :=
  string_of_list_ascii (rev (list_ascii_of_string s)).

Definition strip (s : string) : string :=
  reverse (lstrip (reverse (lstrip s))).

(** [s[:n]] *)
Definition take (n : nat) (s : string) : string := substring 0 n s.

(** [s[:k]] for an integer [k]: a negative [k] counts from the end. *)
Definition slice_to (k : Z) (s : string) : string :=
  if (0 <=? k)%Z then take (Z.to_nat k) s
  else take (Z.to_nat (Z.of_nat (String.length s) + k)) s.

(** [sep.join(xs)] *)
Fixpoint join (sep : string) (xs : list string) : string :=
  match xs with
  | [] => ""
  | [x] => x
  | x :: rest => x ++ sep ++ join sep rest
  end.

(** The number of positions of [hay] at which [needle] starts. *)
Fixpoint occurrences (needle hay : string) : nat :=
  (if prefix needle hay then 1 else 0)
  + match hay with
    | EmptyString => 0
    | String _ hay' => occurrences needle hay'
    end.

(** [s.split()]: the maximal runs of characters that are not whitespace. *)
Fixpoint split (s : string) : list string :=
  match s with
  | EmptyString => []
  | String c rest =>
      if is_space c then split rest
      else
        match rest with
        | EmptyString => [String c EmptyString]
        | String c' _ =>
            if is_space c' then String c EmptyString :: split rest
            else match split rest with
                 | word :: words => String c word :: words
                 | [] => [String c EmptyString]
                 end
        end
  end.

(** [s.replace(old, new)] for a character [old]. *)
Fixpoint replace_char (old : ascii) (new : string) (s : string) : string :=
  match s with
  | EmptyString => EmptyString
  | String c rest =>
      if Ascii.eqb c old then new ++ replace_char old new rest
      else String c (replace_char old new rest)
  end.

End PyStr.

(** An f-string, kept as its pieces: the literal parts and the formatted
    values. *)
Inductive piece : Type :=
| Lit (s : string)
| Str (v : option string)      (* {v} for a str, or None *)
| Int (n : nat)                (* {n} for an int *)
| Float (q : Q)                (* {q} for a float *)
| Float2f (q : Q).             (* {q:.2f} *)

Definition fstring := list piece.

(** ** Python floats *)

Module PyNum.

Definition ltb (x y : Q) : bool :=
  match (x ?= y)%Q with Lt => true | _ => false end.

(** [x > y] *)
Definition gtb (x y : Q) : bool := ltb y x.

(** [min(x, y)]: the first argument unless the second is smaller. *)
Definition min (x y : Q) : Q := if ltb y x then y else x.

(** [max(x, y)]: the first argument unless the second is larger. *)
Definition max (x y : Q) : Q := if ltb x y then y else x.

Definition of_nat (n : nat) : Q := inject_Z (Z.of_nat n).

(** [0.0 <= x <= 1.0] *)
Definition unit_interval (x : Q) : Prop := (0 <= x /\ x <= 1)%Q.

Arguments unit_interval x : simpl never.

End PyNum.

(** ** Exceptions and results *)

Record exn : Type := Exception { exn_class : string; exn_message : string }.

(** [str(e)] *)
Definition str_of_exn (e : exn) : string := exn_message e.

Inductive outcome (A : Type) : Type :=
| Returned (a : A)
| Raised (e : exn).

Arguments Returned {A} a.
Arguments Raised {A} e.

(** ** The records exchanged by the agents *)

(** The dict built by [VisionAnalysisAgent] (and by [_vision_node] when the
    agent fails). *)
Record VisionAnalysis : Type := {
  visual_domain_hints : option (list string);
  document_type : option string;
  has_tables : option bool;
  has_charts : option bool;
  layout_type : option string;
  va_confidence : option Q;
  raw_analysis : option string;
  va_error : option string
}.

(** The dict built by [TextClassificationAgent]; the JSON object answered by
    its chain has the same keys. *)
Record TextAnalysis : Type := {
  primary_domain : option string;
  ta_confidence : option Q;
  ta_reasoning : option fstring;
  keywords : option (list string);
  alternative_domains : option (list string);
  ta_method : option string;
  ta_error : option string
}.

(** The dict built by [DomainRouterAgent]; the JSON object answered by its
    chain has the same keys. *)
Record Decision : Type := {
  final_domain : option string;
  dec_confidence : option Q;
  dec_reasoning : option fstring;
  agreement_level : option string;
  primary_evidence : option fstring;
  dec_method : option string;
  dec_error : option string
}.

(** PDF metadata, as keys and rendered values. *)
Definition Metadata := list (string * string).

Record IntakeResult : Type := {
  in_file_path : string;
  in_filename : string;
  in_metadata : Metadata;
  in_text_content : string;
  in_text_preview : string;
  in_preview_images : list string;
  in_processing_stage : string
}.

(** A reply of the MCP file server. *)
Record McpReply : Type := {
  mcp_success : option bool;
  mcp_message : option string;
  mcp_destination : option string
}.

Record OrganizationResult : Type := {
  org_success : option bool;
  org_operation : option string;
  org_domain : option string;
  org_source : option string;
  org_destination : option (option string);   (* the value may be None *)
  org_message : option fstring;
  org_error : option string;
  org_details : option McpReply
}.

(** The truth value of a dict: false exactly when it has no key. *)
Definition vision_truthy (v : VisionAnalysis) : bool :=
  match v with
  | Build_VisionAnalysis None None None None None None None None => false
  | _ => true
  end.

Definition text_truthy (t : TextAnalysis) : bool :=
  match t with
  | Build_TextAnalysis None None None None None None None => false
  | _ => true
  end.

Definition empty_vision : VisionAnalysis :=
  Build_VisionAnalysis None None None None None None None None.

Definition empty_text : TextAnalysis :=
  Build_TextAnalysis None None None None None None None.

Definition empty_decision : Decision :=
  Build_Decision None None None None None None None.

(** [d.get(key, default)] *)
Definition get {A : Type} (field : option A) (default : A) : A :=
  match field with
  | Some v => v
  | None => default
  end.

(** ** Agents, their inputs, and the outside world *)

Inductive agent_id : Type :=
| DocumentIntakeAgent
| VisionAnalysisAgent
| TextClassificationAgent
| DomainRouterAgent
| FileOrganizationAgent.

(** [self.name] *)
Definition name (a : agent_id) : string :=
  match a with
  | DocumentIntakeAgent => "DocumentIntakeAgent"
  | VisionAnalysisAgent => "VisionAnalysisAgent"
  | TextClassificationAgent => "TextClassificationAgent"
  | DomainRouterAgent => "DomainRouterAgent"
  | FileOrganizationAgent => "FileOrganizationAgent"
  end.

Definition agent_id_eqb (a b : agent_id) : bool :=
  match a, b with
  | DocumentIntakeAgent, DocumentIntakeAgent
  | VisionAnalysisAgent, VisionAnalysisAgent
  | TextClassificationAgent, TextClassificationAgent
  | DomainRouterAgent, DomainRouterAgent
  | FileOrganizationAgent, FileOrganizationAgent => true
  | _, _ => false
  end.

(** The [input_data] dicts the workflow nodes build. *)
Record IntakeInput : Type := { ii_file_path : string }.

Record VisionInput : Type := {
  vi_preview_images : list string;
  vi_filename : option string;
  vi_metadata : Metadata
}.

Record TextInput : Type := {
  ti_text_content : string;
  ti_filename : option string;
  ti_metadata : Metadata
}.

Record RouterInput : Type := {
  ri_filename : option string;
  ri_vision_analysis : VisionAnalysis;
  ri_text_analysis : TextAnalysis;
  ri_metadata : Metadata
}.

Record OrganizationInput : Type := {
  oi_file_path : string;
  oi_filename : string;
  oi_domain : string;
  oi_operation : string
}.

Inductive agent_input : Type :=
| IntakeIn (i : IntakeInput)
| VisionIn (i : VisionInput)
| TextIn (i : TextInput)
| RouterIn (i : RouterInput)
| OrganizationIn (i : OrganizationInput).

(** The variables handed to the router chain. *)
Record RouterChainArgs : Type := {
  rc_filename : option string;
  rc_vision_domains : string;
  rc_doc_type : string;
  rc_has_tables : bool;
  rc_has_charts : bool;
  rc_vision_confidence : Q;
  rc_text_domain : string;
  rc_text_confidence : Q;
  rc_keywords : string;
  rc_text_reasoning : fstring
}.

(** What a run does that can be observed from outside, in order. *)
Inductive event : Type :=
| Execute (a : agent_id) (count : nat) (input : agent_input)
    (* BaseAgent.execute: "Agent {name} starting execution #{count}" *)
| VisionLLM (image : string)                 (* self.vision_llm.ainvoke *)
| TextChain (text : string) (filename : option string)
                                             (* text agent: self.chain.ainvoke *)
| RouterChain (args : RouterChainArgs)       (* router agent: self.chain.ainvoke *)
| PathExists (path : string)
| ExtractMetadata (path : string)
| ExtractText (path : string)
| GeneratePreviewImages (path : string)
| McpCreateDomainFolder (domain : string)
| McpCopyFile (source domain filename : string)
| McpMoveFile (source domain filename : string).

(** The answers of everything outside the process. Each answer may depend on
    what happened before. An answer of a chain that is not a JSON object
    makes the code that reads it raise inside the same [try] as the call,
    and is represented by [Raised]. *)
Record World : Type := {
  time_time : list event -> Q;
  datetime_now_isoformat : list event -> string;
  vision_llm_ainvoke : list event -> string -> outcome string;
  text_chain_ainvoke :
    list event -> string -> option string -> outcome TextAnalysis;
  router_chain_ainvoke : list event -> RouterChainArgs -> outcome Decision;
  os_path_exists : list event -> string -> bool;
  pdf_extract_metadata : list event -> string -> Metadata;
  pdf_extract_text : list event -> string -> string;
  pdf_generate_preview_images : list event -> string -> list string;
  mcp_create_domain_folder : list event -> string -> McpReply;
  mcp_copy_file : list event -> string -> string -> string -> McpReply;
  mcp_move_file : list event -> string -> string -> string -> McpReply
}.

(** The part of the process state the agents change. *)
Record St : Type := {
  trace : list event;
  execution_count : agent_id -> nat
}.

(** ** Computations with effects *)

Definition M (A : Type) : Type := World -> St -> outcome A * St.

Definition ret {A} (a : A) : M A := fun _ s => (Returned a, s).

Definition raise {A} (e : exn) : M A := fun _ s => (Raised e, s).

Definition bind {A B} (m : M A) (k : A -> M B) : M B :=
  fun w s =>
    match m w s with
    | (Returned a, s') => k a w s'
    | (Raised e, s') => (Raised e, s')
    end.

(** [try: m  except Exception as e: handler e] *)
Definition catch {A} (m : M A) (handler : exn -> M A) : M A :=
  fun w s =>
    match m w s with
    | (Returned a, s') => (Returned a, s')
    | (Raised e, s') => handler e w s'
    end.

Notation "x <- m ;; k" := (bind m (fun x => k))
  (at level 61, m at next level, right associativity).
Notation "m ;;; k" := (bind m (fun _ => k))
  (at level 61, right associativity).
Notation "'try' m 'except' h" := (catch m h)
  (at level 61, m at next level, h at next level).

Definition emit (e : event) : M unit :=
  fun _ s =>
    (Returned tt,
     {| trace := trace s ++ [e]; execution_count := execution_count s |}).

(** An external call: the world answers from what happened so far, and the
    call is recorded. *)
Definition call {A} (answer : World -> list event -> A) (e : event) : M A :=
  fun w s =>
    (Returned (answer w (trace s)),
     {| trace := trace s ++ [e]; execution_count := execution_count s |}).

(** An external call that may raise. *)
Definition call_raising {A} (answer : World -> list event -> outcome A)
    (e : event) : M A :=
  fun w s =>
    (answer w (trace s),
     {| trace := trace s ++ [e]; execution_count := execution_count s |}).

(** Reading a clock. *)
Definition read {A} (clock : World -> list event -> A) : M A :=
  fun w s => (Returned (clock w (trace s)), s).

(** [self.execution_count += 1], giving the new value. *)
Definition incr_execution_count (self : agent_id) : M nat :=
  fun _ s =>
    let n := execution_count s self + 1 in
    (Returned n,
     {| trace := trace s;
        execution_count :=
          fun a => if agent_id_eqb a self then n else execution_count s a |}).

(** The events a computation adds to the trace. *)
Definition new_events (before after : St) : list event :=
  skipn (List.length (trace before)) (trace after).

(** ** [config/settings.py] *)

Module settings.

Definition DOMAIN_KEYWORDS : list (string * list string) :=
  [ ("finance",
     [ "financial"; "banking"; "investment"; "stock"; "bond"; "portfolio";
       "accounting"; "audit"; "revenue"; "profit"; "loss"; "balance sheet";
       "income statement"; "cash flow"; "equity"; "asset"; "liability";
       "fiscal"; "monetary"; "securities"; "derivatives"; "hedge fund" ]);
    ("law",
     [ "legal"; "court"; "judge"; "attorney"; "lawsuit"; "plaintiff";
       "defendant"; "verdict"; "statute"; "regulation"; "compliance";
       "contract"; "agreement"; "litigation"; "jurisdiction"; "appeal";
       "prosecution"; "defense"; "testimony"; "evidence"; "judicial" ]);
    ("science",
     [ "research"; "experiment"; "hypothesis"; "theory"; "methodology";
       "analysis"; "data"; "results"; "conclusion"; "abstract"; "publication";
       "peer review"; "scientific"; "laboratory"; "variable"; "control";
       "observation"; "phenomenon"; "empirical"; "quantitative" ]);
    ("technology",
     [ "software"; "hardware"; "algorithm"; "programming"; "code";
       "system"; "application"; "platform"; "network"; "database";
       "cloud"; "artificial intelligence"; "machine learning"; "cybersecurity";
       "blockchain"; "api"; "framework"; "architecture"; "deployment" ]);
    ("healthcare",
     [ "medical"; "patient"; "diagnosis"; "treatment"; "clinical";
       "hospital"; "physician"; "nurse"; "therapy"; "medication";
       "disease"; "symptom"; "health"; "care"; "surgical"; "pharmaceutical";
       "radiology"; "pathology"; "anatomy"; "physiology" ]);
    ("education",
     [ "teaching"; "learning"; "student"; "curriculum"; "course";
       "pedagogy"; "instruction"; "assessment"; "academic"; "university";
       "school"; "education"; "training"; "classroom"; "textbook";
       "syllabus"; "enrollment"; "degree"; "diploma"; "scholarship" ]);
    ("business",
     [ "management"; "strategy"; "marketing"; "sales"; "customer";
       "product"; "service"; "business plan"; "entrepreneurship"; "startup";
       "operations"; "supply chain"; "vendor"; "procurement"; "logistics";
       "human resources"; "employee"; "organizational"; "corporate" ]);
    ("engineering",
     [ "design"; "construction"; "structural"; "mechanical"; "electrical";
       "civil"; "chemical"; "aerospace"; "manufacturing"; "CAD";
       "blueprint"; "specifications"; "materials"; "testing"; "prototype";
       "maintenance"; "installation"; "inspection"; "quality control" ]);
    ("arts",
     [ "creative"; "artistic"; "design"; "visual"; "performance";
       "music"; "theater"; "literature"; "painting"; "sculpture";
       "photography"; "film"; "media"; "aesthetic"; "exhibition";
       "gallery"; "composition"; "choreography"; "narrative" ]) ].

End settings.

(** The ten domain tags of the system: the catalog's nine and "general"
    (the folders [setup_directories] creates). *)
Definition declared_domains : list string :=
  map fst settings.DOMAIN_KEYWORDS ++ ["general"].

Definition is_declared (d : string) : bool := PyStr.mem d declared_domains.

(** ** [agents/base.py] *)

(** The dict [BaseAgent.execute] returns ([AgentResult] of
    [workflow/states.py]). *)
Record AgentResult (O : Type) : Type := {
  ar_agent_name : string;
  ar_success : bool;
  ar_result : option O;
  ar_error : option string;
  ar_execution_time : Q;
  ar_timestamp : string
}.

(** The dict [BaseAgent.get_stats] returns. *)
Record AgentStats : Type := {
  stats_name : string;
  stats_model : string;
  stats_execution_count : nat
}.

Module base.

Definition execute {I O : Type} (self : agent_id)
    (as_input : I -> agent_input) (process : I -> M O) (input_data : I)
    : M (AgentResult O) :=
  start_time <- read time_time ;;
  count <- incr_execution_count self ;;
  try (emit (Execute self count (as_input input_data)) ;;;
       result <- process input_data ;;
       now <- read time_time ;;
       stamp <- read datetime_now_isoformat ;;
       ret {| ar_agent_name := name self;
              ar_success := true;
              ar_result := Some result;
              ar_error := None;
              ar_execution_time := (now - start_time)%Q;
              ar_timestamp := stamp |})
  except (fun e =>
       now <- read time_time ;;
       stamp <- read datetime_now_isoformat ;;
       ret {| ar_agent_name := name self;
              ar_success := false;
              ar_result := None;
              ar_error := Some (str_of_exn e);
              ar_execution_time := (now - start_time)%Q;
              ar_timestamp := stamp |}).

(** [get_stats]; [model_name] is the attribute [self.model_name], set from
    the settings when the agent is built. *)
Definition get_stats (self : agent_id) (model_name : string) : M AgentStats :=
  fun _ s =>
    (Returned {| stats_name := name self;
                 stats_model := model_name;
                 stats_execution_count := execution_count s self |},
     s).

End base.

(** ** [agents/vision_analysis.py] *)

Module vision_analysis.

Definition domains_map : list (string * list string) :=
  [ ("finance", ["financial"; "banking"; "investment"; "stock"; "revenue";
                 "accounting"]);
    ("law", ["legal"; "court"; "contract"; "attorney"; "lawsuit"; "statute"]);
    ("science", ["research"; "experiment"; "hypothesis"; "scientific";
                 "study"]);
    ("technology", ["software"; "code"; "algorithm"; "system"; "technical";
                    "api"]);
    ("healthcare", ["medical"; "patient"; "clinical"; "diagnosis"; "health";
                    "pharmaceutical"]);
    ("education", ["academic"; "university"; "course"; "student";
                   "curriculum"]);
    ("business", ["business"; "management"; "strategy"; "corporate";
                  "marketing"]);
    ("engineering", ["engineering"; "design"; "construction"; "structural";
                     "mechanical"]) ].

Definition doc_types : list (string * list string) :=
  [ ("report", ["report"; "annual report"; "quarterly report"]);
    ("contract", ["contract"; "agreement"]);
    ("research_paper", ["research paper"; "academic paper";
                        "journal article"]);
    ("presentation", ["presentation"; "slides"; "powerpoint"]);
    ("invoice", ["invoice"; "bill"; "receipt"]);
    ("manual", ["manual"; "guide"; "handbook"]);
    ("specification", ["specification"; "spec sheet"; "datasheet"]) ].

Definition _extract_document_type (text : string) : string :=
  match find (fun entry => PyStr.any_in (snd entry) text) doc_types with
  | Some (doc_type, _) => doc_type
  | None => "document"
  end.

(** The domains of [domains_map] one of whose words occurs in the
    response, in the order of the map: the list [domain_hints] after the
    loop. *)
Definition detect_domain_hints (response_lower : string) : list string :=
  map fst
    (filter (fun entry => PyStr.any_in (snd entry) response_lower)
       domains_map).

Definition _parse_vision_response (response_text : string)
    : VisionAnalysis :=
  let response_lower := PyStr.lower response_text in
  let domain_hints := detect_domain_hints response_lower in
  let has_tables :=
    PyStr.any_in ["table"; "tabular"; "grid"] response_lower in
  let has_charts :=
    PyStr.any_in ["chart"; "graph"; "diagram"; "visualization"]
      response_lower in
  let layout_type :=
    if has_tables || has_charts then "visual-heavy"
    else if PyStr.contains "text" response_lower
            && PyStr.contains "heavy" response_lower
         then "text-heavy"
         else "mixed" in
  let confidence :=
    PyNum.min (PyNum.of_nat (List.length domain_hints) * 0.25)%Q 1.0%Q in
  {| visual_domain_hints := Some (firstn 3 domain_hints);
     document_type := Some (_extract_document_type response_lower);
     has_tables := Some has_tables;
     has_charts := Some has_charts;
     layout_type := Some layout_type;
     va_confidence := Some confidence;
     raw_analysis := Some (PyStr.take 500 response_text);
     va_error := None |}.

(** The record returned when the analysis of the image raises. *)
Definition analysis_failed (e : exn) : VisionAnalysis :=
  {| visual_domain_hints := Some [];
     document_type := Some "unknown";
     has_tables := Some false;
     has_charts := Some false;
     layout_type := Some "text-heavy";
     va_confidence := Some 0.0%Q;
     raw_analysis := None;
     va_error := Some (str_of_exn e) |}.

Definition _analyze_image (image_base64 : string) (filename : option string)
    : M VisionAnalysis :=
  try (analysis_text <-
         call_raising (fun w h => vision_llm_ainvoke w h image_base64)
           (VisionLLM image_base64) ;;
       ret (_parse_vision_response analysis_text))
  except (fun e => ret (analysis_failed e)).

(** The record returned when there is no preview image. *)
Definition no_preview : VisionAnalysis :=
  {| visual_domain_hints := Some [];
     document_type := Some "unknown";
     has_tables := Some false;
     has_charts := Some false;
     layout_type := Some "unknown";
     va_confidence := Some 0.0%Q;
     raw_analysis := None;
     va_error := None |}.

Definition process (input_data : VisionInput) : M VisionAnalysis :=
  let preview_images := vi_preview_images input_data in
  let filename := vi_filename input_data in
  match preview_images with
  | [] => ret no_preview
  | first_page :: _ => _analyze_image first_page filename
  end.

End vision_analysis.

(** ** Python's [sorted(..., key=..., reverse=True)] *)

Module PyList.

Section Sorted.

Variable A : Type.
Variable key : A -> nat.

(** [x] goes in front of the first element whose key is not larger. *)
Fixpoint insert_desc (x : A) (l : list A) : list A :=
  match l with
  | [] => [x]
  | y :: l' => if key x <? key y then y :: insert_desc x l' else x :: l
  end.

(** A stable sort by decreasing key: elements with equal keys keep their
    order. The elements are inserted from the last to the first. *)
Fixpoint sorted_desc (l : list A) : list A :=
  match l with
  | [] => []
  | x :: l' => insert_desc x (sorted_desc l')
  end.

End Sorted.

(** [d[k]] for a dict given as its items. *)
Fixpoint lookup {V : Type} (k : string) (items : list (string * V))
    : option V :=
  match items with
  | [] => None
  | (k', v) :: rest => if String.eqb k k' then Some v else lookup k rest
  end.

(** The position of a key among the items of a dict. *)
Fixpoint index_of {V : Type} (k : string) (items : list (string * V))
    : nat :=
  match items with
  | [] => 0
  | (k', _) :: rest => if String.eqb k k' then 0 else S (index_of k rest)
  end.

(** [counter[x] += 1] on the items of a [collections.Counter]: a key met
    for the first time goes last. *)
Fixpoint count_into (x : string) (items : list (string * nat))
    : list (string * nat) :=
  match items with
  | [] => [(x, 1)]
  | (k, n) :: rest =>
      if String.eqb x k then (k, n + 1) :: rest
      else (k, n) :: count_into x rest
  end.

(** The items of [Counter(xs)]. *)
Definition Counter (xs : list string) : list (string * nat) :=
  fold_left (fun items x => count_into x items) xs [].

(** [counter.most_common(n)]: [heapq.nlargest(n, items, key=count)], which
    is [sorted(items, key=count, reverse=True)[:n]], and nothing for
    [n <= 0]. *)
Definition most_common (n : Z) (items : list (string * nat))
    : list (string * nat) :=
  firstn (Z.to_nat n) (sorted_desc snd items).

End PyList.

(** ** [agents/text_classification.py] *)

Module text_classification.

(** [sum(1 for keyword in keywords if keyword.lower() in text_lower)] *)
Definition keyword_score (text_lower : string) (keywords : list string)
    : nat :=
  list_sum
    (map (fun _ => 1)
       (filter (fun keyword => PyStr.contains (PyStr.lower keyword) text_lower)
          keywords)).

(** The items of [domain_scores], in insertion order. *)
Definition domain_scores (domain_keywords : list (string * list string))
    (text_lower : string) : list (string * nat) :=
  map (fun entry => (fst entry, keyword_score text_lower (snd entry)))
    domain_keywords.

Definition sorted_domains (domain_keywords : list (string * list string))
    (text_lower : string) : list (string * nat) :=
  PyList.sorted_desc snd (domain_scores domain_keywords text_lower).

Definition no_matches : TextAnalysis :=
  {| primary_domain := Some "general";
     ta_confidence := Some 0.3%Q;
     ta_reasoning := Some [Lit "No domain-specific keywords found"];
     keywords := Some [];
     alternative_domains := Some [];
     ta_method := Some "keyword_fallback";
     ta_error := None |}.

Definition _keyword_based_classification
    (domain_keywords : list (string * list string))
    (text : string) (filename : option string) : outcome TextAnalysis :=
  let text_lower := PyStr.lower text in
  let sorted_domains := sorted_domains domain_keywords text_lower in
  match sorted_domains with
  | [] => Raised (Exception "IndexError" "list index out of range")
  | (primary_domain, primary_score) :: _ =>
      if primary_score =? 0 then Returned no_matches
      else
        let total_score := list_sum (map snd sorted_domains) in
        let confidence :=
          if 0 <? total_score
          then (PyNum.of_nat primary_score / PyNum.of_nat total_score)%Q
          else 0.3%Q in
        let confidence := PyNum.min confidence 0.85%Q in
        match PyList.lookup primary_domain domain_keywords with
        | None => Raised (Exception "KeyError" primary_domain)
        | Some primary_keywords =>
            let matched_keywords :=
              firstn 10
                (filter
                   (fun keyword =>
                      PyStr.contains (PyStr.lower keyword) text_lower)
                   primary_keywords) in
            Returned
              {| primary_domain := Some primary_domain;
                 ta_confidence := Some confidence;
                 ta_reasoning :=
                   Some [Lit "Found "; Int primary_score;
                         Lit " domain-specific keywords"];
                 keywords := Some matched_keywords;
                 alternative_domains :=
                   Some (map fst (firstn 2 (skipn 1 sorted_domains)));
                 ta_method := Some "keyword_fallback";
                 ta_error := None |}
        end
  end.

Definition lift {A} (o : outcome A) : M A := fun _ s => (o, s).

(** The record built from the JSON object the chain answers. *)
Definition llm_record (result : TextAnalysis) : TextAnalysis :=
  {| primary_domain := Some (get (primary_domain result) "general");
     ta_confidence := Some (get (ta_confidence result) 0.5%Q);
     ta_reasoning := Some (get (ta_reasoning result) [Lit ""]);
     keywords := Some (get (keywords result) []);
     alternative_domains := Some (get (alternative_domains result) []);
     ta_method := Some "llm";
     ta_error := None |}.

Definition _llm_classification (text : string) (filename : option string)
    : M TextAnalysis :=
  try (result <-
         call_raising (fun w h => text_chain_ainvoke w h text filename)
           (TextChain text filename) ;;
       ret (llm_record result))
  except (fun e => raise e).

Definition process (input_data : TextInput) : M TextAnalysis :=
  let text_content := ti_text_content input_data in
  let filename := ti_filename input_data in
  if String.eqb text_content ""
     || (String.length (PyStr.strip text_content) <? 50)
  then lift (_keyword_based_classification settings.DOMAIN_KEYWORDS
               text_content filename)
  else
    let text_sample := PyStr.take (8 * 1000) text_content in
    try (_llm_classification text_sample filename)
    except (fun e =>
         lift (_keyword_based_classification settings.DOMAIN_KEYWORDS
                 text_content filename)).

(** The set [common_words] of [_extract_key_phrases]. *)
Definition common_words : list string :=
  ["the"; "a"; "an"; "and"; "or"; "but"; "in"; "on"; "at"; "to"; "for"].

Definition _extract_key_phrases (text : string) (top_n : Z) : list string :=
  let words := PyStr.split (PyStr.lower text) in
  let filtered_words :=
    filter (fun w => negb (PyStr.mem w common_words)
                     && (3 <? String.length w))
      words in
  let word_freq := PyList.Counter filtered_words in
  map fst (PyList.most_common top_n word_freq).

End text_classification.

(** ** [agents/domain_router.py] *)

Module domain_router.

Definition _fallback_decision (vision_analysis : VisionAnalysis)
    (text_analysis : TextAnalysis) : Decision :=
  let text_domain := get (primary_domain text_analysis) "general" in
  let text_confidence := get (ta_confidence text_analysis) 0.0%Q in
  let vision_domains := get (visual_domain_hints vision_analysis) [] in
  let vision_confidence := get (va_confidence vision_analysis) 0.0%Q in
  let '(final_domain, confidence, agreement) :=
    if PyNum.gtb text_confidence 0.6%Q then
      (text_domain,
       (text_confidence * 0.8)%Q,
       if PyStr.mem text_domain vision_domains then "medium" else "low")
    else
      match vision_domains with
      | first_hint :: _ => (first_hint, (vision_confidence * 0.7)%Q, "low")
      | [] => ("general", 0.4%Q, "none")
      end in
  {| final_domain := Some final_domain;
     dec_confidence := Some confidence;
     dec_reasoning :=
       Some [Lit "Fallback decision based on text analysis (";
             Float text_confidence; Lit ") and vision hints"];
     agreement_level := Some agreement;
     primary_evidence := Some [Lit "Text content analysis weighted higher"];
     dec_method := Some "fallback_weighted";
     dec_error := None |}.

(** The record returned on quick agreement. *)
Definition quick_agreement (text_domain : string)
    (text_confidence vision_confidence : Q) : Decision :=
  {| final_domain := Some text_domain;
     dec_confidence := Some ((text_confidence + vision_confidence) / 2)%Q;
     dec_reasoning :=
       Some [Lit "Strong agreement between vision and text analysis on ";
             Str (Some text_domain); Lit " domain"];
     agreement_level := Some "high";
     primary_evidence :=
       Some [Lit "Both analyses indicated "; Str (Some text_domain)];
     dec_method := Some "quick_agreement";
     dec_error := None |}.

(** [result["method"] = m] *)
Definition set_method (m : string) (result : Decision) : Decision :=
  {| final_domain := final_domain result;
     dec_confidence := dec_confidence result;
     dec_reasoning := dec_reasoning result;
     agreement_level := agreement_level result;
     primary_evidence := primary_evidence result;
     dec_method := Some m;
     dec_error := dec_error result |}.

(** The variables [process] hands to the chain. *)
Definition chain_args (input_data : RouterInput) : RouterChainArgs :=
  let vision_analysis := ri_vision_analysis input_data in
  let text_analysis := ri_text_analysis input_data in
  let vision_domains := get (visual_domain_hints vision_analysis) [] in
  {| rc_filename := ri_filename input_data;
     rc_vision_domains :=
       match vision_domains with
       | [] => "none detected"
       | _ => PyStr.join ", " vision_domains
       end;
     rc_doc_type := get (document_type vision_analysis) "unknown";
     rc_has_tables := get (has_tables vision_analysis) false;
     rc_has_charts := get (has_charts vision_analysis) false;
     rc_vision_confidence := get (va_confidence vision_analysis) 0.0%Q;
     rc_text_domain := get (primary_domain text_analysis) "general";
     rc_text_confidence := get (ta_confidence text_analysis) 0.0%Q;
     rc_keywords := PyStr.join ", " (firstn 10 (get (keywords text_analysis) []));
     rc_text_reasoning := get (ta_reasoning text_analysis) [Lit ""] |}.

Definition process (input_data : RouterInput) : M Decision :=
  let vision_analysis := ri_vision_analysis input_data in
  let text_analysis := ri_text_analysis input_data in
  let vision_domains := get (visual_domain_hints vision_analysis) [] in
  let vision_confidence := get (va_confidence vision_analysis) 0.0%Q in
  let text_domain := get (primary_domain text_analysis) "general" in
  let text_confidence := get (ta_confidence text_analysis) 0.0%Q in
  if PyStr.mem text_domain vision_domains
     && PyNum.gtb text_confidence 0.7%Q
  then ret (quick_agreement text_domain text_confidence vision_confidence)
  else
    try (result <-
           call_raising
             (fun w h => router_chain_ainvoke w h (chain_args input_data))
             (RouterChain (chain_args input_data)) ;;
         ret (set_method "llm_decision" result))
    except (fun e => ret (_fallback_decision vision_analysis text_analysis)).

End domain_router.

(** ** [agents/document_intake.py] *)


Module document_intake.

(** [os.path.basename]: what follows the last slash. *)
Fixpoint basename (path : string) : string :=
  match path with
  | EmptyString => EmptyString
  | String c rest =>
      if PyStr.contains "/" rest then basename rest
      else if Ascii.eqb c "/" then rest else path
  end.

(** [_extract_metadata], [_extract_text] and [_generate_preview_images]
    read the PDF through PyPDF2 and pdf2image and return a default value on
    any exception: what they return is an answer of the world. *)
Definition process (input_data : IntakeInput) : M IntakeResult :=
  let file_path := ii_file_path input_data in
  if String.eqb file_path "" then
    raise (Exception "ValueError" ("Invalid file path: " ++ file_path))
  else
    found <- call (fun w h => os_path_exists w h file_path)
               (PathExists file_path) ;;
    if negb found then
      raise (Exception "ValueError" ("Invalid file path: " ++ file_path))
    else
      metadata <- call (fun w h => pdf_extract_metadata w h file_path)
                    (ExtractMetadata file_path) ;;
      text_content <- call (fun w h => pdf_extract_text w h file_path)
                        (ExtractText file_path) ;;
      preview_images <-
        call (fun w h => pdf_generate_preview_images w h file_path)
          (GeneratePreviewImages file_path) ;;
      ret {| in_file_path := file_path;
             in_filename := basename file_path;
             in_metadata := metadata;
             in_text_content := text_content;
             in_text_preview :=
               if String.eqb text_content "" then ""
               else PyStr.take 2000 text_content;
             in_preview_images := preview_images;
             in_processing_stage := "intake_complete" |}.


End document_intake.

(** ** [agents/file_organization.py] *)

Module file_organization.

Definition process (input_data : OrganizationInput) : M OrganizationResult :=
  let file_path := oi_file_path input_data in
  let filename := oi_filename input_data in
  let domain := oi_domain input_data in
  let operation := oi_operation input_data in
  if String.eqb file_path "" || String.eqb filename "" then
    raise (Exception "ValueError" "file_path and filename are required")
  else
    found <- call (fun w h => os_path_exists w h file_path)
               (PathExists file_path) ;;
    if negb found then
      raise (Exception "FileNotFoundError" ("File not found: " ++ file_path))
    else
      folder_result <-
        call (fun w h => mcp_create_domain_folder w h domain)
          (McpCreateDomainFolder domain) ;;
      if negb (get (mcp_success folder_result) false) then
        ret {| org_success := Some false;
               org_operation := None;
               org_domain := None;
               org_source := None;
               org_destination := None;
               org_message := None;
               org_error := Some "Failed to create domain folder";
               org_details := Some folder_result |}
      else
        result <-
          (if String.eqb operation "move"
           then call (fun w h => mcp_move_file w h file_path domain filename)
                  (McpMoveFile file_path domain filename)
           else call (fun w h => mcp_copy_file w h file_path domain filename)
                  (McpCopyFile file_path domain filename)) ;;
        if get (mcp_success result) false then
          ret {| org_success := Some true;
                 org_operation := Some operation;
                 org_domain := Some domain;
                 org_source := Some file_path;
                 org_destination := Some (mcp_destination result);
                 org_message :=
                   Some [Lit "File "; Str (Some operation);
                         Lit "d successfully"];
                 org_error := None;
                 org_details := None |}
        else
          ret {| org_success := Some false;
                 org_operation := None;
                 org_domain := None;
                 org_source := None;
                 org_destination := None;
                 org_message := None;
                 org_error := mcp_message result;
                 org_details := Some result |}.

End file_organization.

(** ** [workflow/graph.py] *)

(** [DocumentState]: a dict in which every key may be absent. The value a
    node returns is a dict of the same shape, holding the keys it writes. *)
Record DocumentState : Type := {
  s_file_path : option string;
  s_filename : option string;
  s_metadata : option Metadata;
  s_text_content : option string;
  s_text_preview : option string;
  s_preview_images : option (list string);
  s_vision_analysis : option VisionAnalysis;
  s_text_analysis : option TextAnalysis;
  s_final_decision : option Decision;
  s_final_domain : option string;
  s_confidence : option Q;
  s_organization_result : option OrganizationResult;
  s_output_path : option string;
  s_processing_stage : option string;
  s_error : option string;
  s_messages : list fstring
}.

(** The dict [process_document] returns. *)
Record PipelineResult : Type := {
  pr_success : bool;
  pr_filename : option string;
  pr_domain : option string;
  pr_confidence : option Q;
  pr_output_path : option string;
  pr_final_decision : option Decision;
  pr_messages : option (list fstring);
  pr_error : option string
}.

Module graph.

(** The dict [{}]. *)
Definition no_update : DocumentState :=
  {| s_file_path := None; s_filename := None; s_metadata := None;
     s_text_content := None; s_text_preview := None;
     s_preview_images := None; s_vision_analysis := None;
     s_text_analysis := None; s_final_decision := None;
     s_final_domain := None; s_confidence := None;
     s_organization_result := None; s_output_path := None;
     s_processing_stage := None; s_error := None; s_messages := [] |}.

(** [state[key]] *)
Definition item {A} (key : string) (field : option A) : M A :=
  match field with
  | Some v => ret v
  | None => raise (Exception "KeyError" key)
  end.

Definition _intake_node (state : DocumentState) : M DocumentState :=
  try (file_path <- item "file_path" (s_file_path state) ;;
       result <- base.execute DocumentIntakeAgent IntakeIn
                   document_intake.process {| ii_file_path := file_path |} ;;
       if ar_success result then
         data <- item "result" (ar_result result) ;;
         filename <- item "filename" (s_filename state) ;;
         ret {| s_file_path := None; s_filename := None;
                s_metadata := Some (in_metadata data);
                s_text_content := Some (in_text_content data);
                s_text_preview := Some (in_text_preview data);
                s_preview_images := Some (in_preview_images data);
                s_vision_analysis := None; s_text_analysis := None;
                s_final_decision := None; s_final_domain := None;
                s_confidence := None; s_organization_result := None;
                s_output_path := None;
                s_processing_stage := Some "intake_complete";
                s_error := None;
                s_messages :=
                  [[Lit "Intake completed for "; Str (Some filename)]] |}
       else
         ret {| s_file_path := None; s_filename := None; s_metadata := None;
                s_text_content := None; s_text_preview := None;
                s_preview_images := None; s_vision_analysis := None;
                s_text_analysis := None; s_final_decision := None;
                s_final_domain := None; s_confidence := None;
                s_organization_result := None; s_output_path := None;
                s_processing_stage := Some "intake_failed";
                s_error := Some (get (ar_error result) "Intake failed");
                s_messages := [] |})
  except (fun e =>
       ret {| s_file_path := None; s_filename := None; s_metadata := None;
              s_text_content := None; s_text_preview := None;
              s_preview_images := None; s_vision_analysis := None;
              s_text_analysis := None; s_final_decision := None;
              s_final_domain := None; s_confidence := None;
              s_organization_result := None; s_output_path := None;
              s_processing_stage := Some "intake_failed";
              s_error := Some (str_of_exn e);
              s_messages := [] |}).

(** An update that writes [vision_analysis] and one message. *)
Definition vision_update (v : VisionAnalysis) (message : fstring)
    : DocumentState :=
  {| s_file_path := None; s_filename := None; s_metadata := None;
     s_text_content := None; s_text_preview := None;
     s_preview_images := None; s_vision_analysis := Some v;
     s_text_analysis := None; s_final_decision := None;
     s_final_domain := None; s_confidence := None;
     s_organization_result := None; s_output_path := None;
     s_processing_stage := None; s_error := None;
     s_messages := [message] |}.

(** The dict [{"visual_domain_hints": [], "confidence": 0.0, "error": e}]. *)
Definition vision_failed (e : option string) : VisionAnalysis :=
  {| visual_domain_hints := Some [];
     document_type := None; has_tables := None;
     has_charts := None; layout_type := None;
     va_confidence := Some 0.0%Q;
     raw_analysis := None;
     va_error := e |}.

(** The dict [{"error": e}] as a vision result. *)
Definition vision_error (e : string) : VisionAnalysis :=
  {| visual_domain_hints := None; document_type := None;
     has_tables := None; has_charts := None;
     layout_type := None; va_confidence := None;
     raw_analysis := None;
     va_error := Some e |}.

Definition _vision_node (state : DocumentState) : M DocumentState :=
  try (result <- base.execute VisionAnalysisAgent VisionIn
                   vision_analysis.process
                   {| vi_preview_images := get (s_preview_images state) [];
                      vi_filename := s_filename state;
                      vi_metadata := get (s_metadata state) [] |} ;;
       if ar_success result then
         analysis <- item "result" (ar_result result) ;;
         ret (vision_update analysis [Lit "Vision analysis completed"])
       else
         ret (vision_update (vision_failed (ar_error result))
                [Lit "Vision analysis failed, continuing with text only"]))
  except (fun e =>
       ret (vision_update (vision_error (str_of_exn e))
              [Lit "Vision analysis error: "; Str (Some (str_of_exn e))])).

(** An update that writes [text_analysis] and one message. *)
Definition text_update (t : TextAnalysis) (message : fstring)
    : DocumentState :=
  {| s_file_path := None; s_filename := None; s_metadata := None;
     s_text_content := None; s_text_preview := None;
     s_preview_images := None; s_vision_analysis := None;
     s_text_analysis := Some t; s_final_decision := None;
     s_final_domain := None; s_confidence := None;
     s_organization_result := None; s_output_path := None;
     s_processing_stage := None; s_error := None;
     s_messages := [message] |}.

(** The dict [{"primary_domain": "general", "confidence": 0.3, "error": e}]. *)
Definition text_failed (e : option string) : TextAnalysis :=
  {| primary_domain := Some "general";
     ta_confidence := Some 0.3%Q;
     ta_reasoning := None; keywords := None; alternative_domains := None;
     ta_method := None;
     ta_error := e |}.

Definition _text_node (state : DocumentState) : M DocumentState :=
  try (result <- base.execute TextClassificationAgent TextIn
                   text_classification.process
                   {| ti_text_content := get (s_text_content state) "";
                      ti_filename := s_filename state;
                      ti_metadata := get (s_metadata state) [] |} ;;
       if ar_success result then
         analysis <- item "result" (ar_result result) ;;
         ret (text_update analysis [Lit "Text classification completed"])
       else
         ret (text_update (text_failed (ar_error result))
                [Lit "Text classification failed"]))
  except (fun e =>
       ret (text_update (text_failed (Some (str_of_exn e)))
              [Lit "Text classification error: ";
               Str (Some (str_of_exn e))])).

(** An update that writes [final_decision], [final_domain], [confidence]
    and one message. *)
Definition router_update (decision : Decision) (domain : string)
    (confidence : Q) (message : fstring) : DocumentState :=
  {| s_file_path := None; s_filename := None; s_metadata := None;
     s_text_content := None; s_text_preview := None;
     s_preview_images := None; s_vision_analysis := None;
     s_text_analysis := None; s_final_decision := Some decision;
     s_final_domain := Some domain; s_confidence := Some confidence;
     s_organization_result := None; s_output_path := None;
     s_processing_stage := None; s_error := None;
     s_messages := [message] |}.

(** The dict [{"error": e}] as a decision. *)
Definition decision_error (e : option string) : Decision :=
  {| final_domain := None; dec_confidence := None; dec_reasoning := None;
     agreement_level := None; primary_evidence := None; dec_method := None;
     dec_error := e |}.

Definition _router_node (state : DocumentState) : M DocumentState :=
  let vision_analysis := get (s_vision_analysis state) empty_vision in
  let text_analysis := get (s_text_analysis state) empty_text in
  if negb (vision_truthy vision_analysis) || negb (text_truthy text_analysis)
  then ret no_update
  else
    try (result <- base.execute DomainRouterAgent RouterIn
                     domain_router.process
                     {| ri_filename := s_filename state;
                        ri_vision_analysis := vision_analysis;
                        ri_text_analysis := text_analysis;
                        ri_metadata := get (s_metadata state) [] |} ;;
         if ar_success result then
           decision <- item "result" (ar_result result) ;;
           match dec_confidence decision with
           | None =>
               (* format(None, ".2f") *)
               raise (Exception "TypeError"
                        "unsupported format string passed to NoneType.__format__")
           | Some confidence =>
               ret (router_update decision
                      (get (final_domain decision) "general")
                      confidence
                      [Lit "Classified as "; Str (final_domain decision);
                       Lit " with "; Float2f confidence; Lit " confidence"])
           end
         else
           ret (router_update (decision_error (ar_error result))
                  (get (primary_domain text_analysis) "general")
                  0.5%Q
                  [Lit "Router failed, using text classification"]))
    except (fun e =>
         ret (router_update (decision_error (Some (str_of_exn e)))
                "general" 0.3%Q
                [Lit "Router error: "; Str (Some (str_of_exn e))])).

Definition _organization_node (state : DocumentState) : M DocumentState :=
  try (file_path <- item "file_path" (s_file_path state) ;;
       filename <- item "filename" (s_filename state) ;;
       result <- base.execute FileOrganizationAgent OrganizationIn
                   file_organization.process
                   {| oi_file_path := file_path;
                      oi_filename := filename;
                      oi_domain := get (s_final_domain state) "general";
                      oi_operation := "copy" |} ;;
       if ar_success result then
         org_result <- item "result" (ar_result result) ;;
         ret {| s_file_path := None; s_filename := None; s_metadata := None;
                s_text_content := None; s_text_preview := None;
                s_preview_images := None; s_vision_analysis := None;
                s_text_analysis := None; s_final_decision := None;
                s_final_domain := None; s_confidence := None;
                s_organization_result := Some org_result;
                s_output_path := get (org_destination org_result) (Some "");
                s_processing_stage := Some "completed";
                s_error := None;
                s_messages :=
                  [[Lit "File organized to "; Str (s_final_domain state);
                    Lit " folder"]] |}
       else
         ret {| s_file_path := None; s_filename := None; s_metadata := None;
                s_text_content := None; s_text_preview := None;
                s_preview_images := None; s_vision_analysis := None;
                s_text_analysis := None; s_final_decision := None;
                s_final_domain := None; s_confidence := None;
                s_organization_result :=
                  Some {| org_success := None; org_operation := None;
                          org_domain := None; org_source := None;
                          org_destination := None; org_message := None;
                          org_error := ar_error result;
                          org_details := None |};
                s_output_path := None;
                s_processing_stage := Some "organization_failed";
                s_error := Some (get (ar_error result) "Organization failed");
                s_messages := [] |})
  except (fun e =>
       ret {| s_file_path := None; s_filename := None; s_metadata := None;
              s_text_content := None; s_text_preview := None;
              s_preview_images := None; s_vision_analysis := None;
              s_text_analysis := None; s_final_decision := None;
              s_final_domain := None; s_confidence := None;
              s_organization_result :=
                Some {| org_success := None; org_operation := None;
                        org_domain := None; org_source := None;
                        org_destination := None; org_message := None;
                        org_error := Some (str_of_exn e);
                        org_details := None |};
              s_output_path := None;
              s_processing_stage := Some "organization_failed";
              s_error := Some (str_of_exn e);
              s_messages := [] |}).

Definition _error_node (state : DocumentState) : M DocumentState :=
  ret {| s_file_path := None; s_filename := None; s_metadata := None;
         s_text_content := None; s_text_preview := None;
         s_preview_images := None; s_vision_analysis := None;
         s_text_analysis := None; s_final_decision := None;
         s_final_domain := None; s_confidence := None;
         s_organization_result := None; s_output_path := None;
         s_processing_stage := Some "failed";
         s_error := None;
         s_messages := [[Lit "Processing failed: "; Str (s_error state)]] |}.

(** The truth value of [state.get("error")]. *)
Definition _check_intake_success (state : DocumentState) : string :=
  match s_error state with
  | Some msg => if String.eqb msg "" then "success" else "error"
  | None => "success"
  end.

(** *** The graph of [_build_graph] and its execution

    The graph is executed by LangGraph, in supersteps: the nodes triggered
    by the previous superstep all read the same state, and what they return
    is written to the state when all of them have finished. A node triggers
    the targets of its edges, and the target its conditional edge selects on
    the state as the node leaves it. Within a superstep the nodes run
    concurrently; their effects are recorded here in the order the nodes
    were added. *)

Inductive node : Type :=
| n_intake
| n_vision_analysis
| n_text_classification
| n_domain_router
| n_file_organization
| n_error_handler.

Definition node_eqb (a b : node) : bool :=
  match a, b with
  | n_intake, n_intake
  | n_vision_analysis, n_vision_analysis
  | n_text_classification, n_text_classification
  | n_domain_router, n_domain_router
  | n_file_organization, n_file_organization
  | n_error_handler, n_error_handler => true
  | _, _ => false
  end.

(** [workflow.add_node] *)
Definition nodes : list node :=
  [n_intake; n_vision_analysis; n_text_classification; n_domain_router;
   n_file_organization; n_error_handler].

Definition action (n : node) : DocumentState -> M DocumentState :=
  match n with
  | n_intake => _intake_node
  | n_vision_analysis => _vision_node
  | n_text_classification => _text_node
  | n_domain_router => _router_node
  | n_file_organization => _organization_node
  | n_error_handler => _error_node
  end.

Definition entry_point : node := n_intake.

(** [workflow.add_edge]; the edge from "file_organization" to [END] has no
    target node. *)
Definition edges : list (node * node) :=
  [ (n_intake, n_vision_analysis);
    (n_intake, n_text_classification);
    (n_vision_analysis, n_domain_router);
    (n_text_classification, n_domain_router);
    (n_domain_router, n_file_organization) ].

(** [workflow.add_conditional_edges] *)
Definition conditional_edges
    : list (node * ((DocumentState -> string) * list (string * node))) :=
  [ (n_intake,
     (_check_intake_success,
      [("success", n_vision_analysis); ("error", n_error_handler)])) ].

(** Writing a returned dict to the state: a key that is returned replaces
    the value of the state; "messages" is declared with the reducer
    [add_messages], which appends. *)
Definition write {A} (old new : option A) : option A :=
  match new with
  | Some v => Some v
  | None => old
  end.

Definition apply_update (state update : DocumentState) : DocumentState :=
  {| s_file_path := write (s_file_path state) (s_file_path update);
     s_filename := write (s_filename state) (s_filename update);
     s_metadata := write (s_metadata state) (s_metadata update);
     s_text_content := write (s_text_content state) (s_text_content update);
     s_text_preview := write (s_text_preview state) (s_text_preview update);
     s_preview_images :=
       write (s_preview_images state) (s_preview_images update);
     s_vision_analysis :=
       write (s_vision_analysis state) (s_vision_analysis update);
     s_text_analysis := write (s_text_analysis state) (s_text_analysis update);
     s_final_decision :=
       write (s_final_decision state) (s_final_decision update);
     s_final_domain := write (s_final_domain state) (s_final_domain update);
     s_confidence := write (s_confidence state) (s_confidence update);
     s_organization_result :=
       write (s_organization_result state) (s_organization_result update);
     s_output_path := write (s_output_path state) (s_output_path update);
     s_processing_stage :=
       write (s_processing_stage state) (s_processing_stage update);
     s_error := write (s_error state) (s_error update);
     s_messages := (s_messages state ++ s_messages update)%list |}.

(** The nodes a node triggers, given the state as the node leaves it. *)
Definition triggered_by (n : node) (state_after : DocumentState)
    : list node :=
  (map snd (filter (fun e => node_eqb (fst e) n) edges)
   ++ flat_map
        (fun branch =>
           if node_eqb (fst branch) n then
             match PyList.lookup (fst (snd branch) state_after)
                     (snd (snd branch)) with
             | Some target => [target]
             | None => []
             end
           else [])
        conditional_edges)%list.

(** The nodes of one superstep, all on the same state. *)
Fixpoint run_tasks (active : list node) (state : DocumentState)
    : M (list (node * DocumentState)) :=
  match active with
  | [] => ret []
  | n :: rest =>
      update <- action n state ;;
      updates <- run_tasks rest state ;;
      ret ((n, update) :: updates)
  end.

(** The nodes of the next superstep: those some node of this one has
    triggered. *)
Definition next_nodes (state : DocumentState)
    (updates : list (node * DocumentState)) : list node :=
  let triggered :=
    flat_map
      (fun task => triggered_by (fst task) (apply_update state (snd task)))
      updates in
  filter (fun n => existsb (node_eqb n) triggered) nodes.

Definition superstep (active : list node) (state : DocumentState)
    : M (DocumentState * list node) :=
  updates <- run_tasks active state ;;
  let state' := fold_left apply_update (map snd updates) state in
  ret (state', next_nodes state updates).

(** Supersteps until no node is triggered, at most [limit] of them. *)
Fixpoint pregel_loop (limit : nat) (active : list node)
    (state : DocumentState) : M DocumentState :=
  match active with
  | [] => ret state
  | _ :: _ =>
      match limit with
      | 0 =>
          raise (Exception "GraphRecursionError"
                   "Recursion limit reached without hitting a stop condition")
      | S limit' =>
          step <- superstep active state ;;
          pregel_loop limit' (snd step) (fst step)
      end
  end.

(** LangGraph's default [recursion_limit]. *)
Definition recursion_limit : nat := 25.

(** [self.app.ainvoke(initial_state)] *)
Definition ainvoke (initial_state : DocumentState) : M DocumentState :=
  pregel_loop recursion_limit [entry_point] initial_state.

(** [Path(file_path).name]: the last component of the path, where empty
    components and "." do not count. *)
Fixpoint split_on (sep : ascii) (s : string) : list string :=
  match s with
  | EmptyString => [EmptyString]
  | String c rest =>
      if Ascii.eqb c sep then EmptyString :: split_on sep rest
      else match split_on sep rest with
           | [] => [String c EmptyString]
           | w :: ws => String c w :: ws
           end
  end.

Definition path_name (file_path : string) : string :=
  last
    (filter (fun part => negb (String.eqb part "" || String.eqb part "."))
       (split_on "/" file_path))
    "".

Definition initial_state (file_path : string) : DocumentState :=
  {| s_file_path := Some file_path;
     s_filename := Some (path_name file_path);
     s_metadata := None; s_text_content := None; s_text_preview := None;
     s_preview_images := None; s_vision_analysis := None;
     s_text_analysis := None; s_final_decision := None;
     s_final_domain := None; s_confidence := None;
     s_organization_result := None; s_output_path := None;
     s_processing_stage := None; s_error := None; s_messages := [] |}.

(** [final_state.get("processing_stage") == "completed"] *)
Definition stage_is (state : DocumentState) (stage : string) : bool :=
  match s_processing_stage state with
  | Some s => String.eqb s stage
  | None => false
  end.

(** The dict returned when the workflow has returned its final state. *)
Definition pipeline_result (final_state : DocumentState) : PipelineResult :=
  {| pr_success := stage_is final_state "completed";
     pr_filename := s_filename final_state;
     pr_domain := s_final_domain final_state;
     pr_confidence := s_confidence final_state;
     pr_output_path := s_output_path final_state;
     pr_final_decision := s_final_decision final_state;
     pr_messages := Some (s_messages final_state);
     pr_error := None |}.

(** The dict returned when the workflow has raised. *)
Definition pipeline_failure (file_path : string) (e : exn) : PipelineResult :=
  {| pr_success := false;
     pr_filename := Some (path_name file_path);
     pr_domain := None;
     pr_confidence := None;
     pr_output_path := None;
     pr_final_decision := None;
     pr_messages := None;
     pr_error := Some (str_of_exn e) |}.

Definition process_document (file_path : string) : M PipelineResult :=
  try (final_state <- ainvoke (initial_state file_path) ;;
       ret (pipeline_result final_state))
  except (fun e => ret (pipeline_failure file_path e)).

End graph.

(** A state in which nothing has happened yet. *)
Definition fresh : St := {| trace := []; execution_count := fun _ => 0 |}.

(** ** Notions used to state the properties *)

(** [needle] is a substring of [hay]. *)
Definition occurs (needle hay : string) : Prop :=
  exists before after, hay = before ++ needle ++ after.

(** The state in which [BaseAgent.execute] calls [process]: the execution
    has been counted and announced. *)
Definition started (self : agent_id) (input : agent_input) (s : St) : St :=
  {| trace :=
       (trace s ++ [Execute self (execution_count s self + 1) input])%list;
     execution_count :=
       fun a =>
         if agent_id_eqb a self then execution_count s self + 1
         else execution_count s a |}.

(** What is known of a computation in a given world: the events it adds to
    the trace all satisfy [E], and a value it returns satisfies [Q]. *)
Definition hoare {A} (w : World) (E : event -> Prop) (m : M A)
    (Q : A -> Prop) : Prop :=
  forall s, exists evs,
    trace (snd (m w s)) = (trace s ++ evs)%list
    /\ Forall E evs
    /\ match fst (m w s) with
       | Returned a => Q a
       | Raised _ => True
       end.

(** A predicate on a key that may be absent. *)
Definition when_set {A} (P : A -> Prop) (field : option A) : Prop :=
  match field with
  | Some v => P v
  | None => True
  end.

(** The score the specification describes: for every keyword, the number of
    its occurrences in the lower-cased text. *)
Definition spec_occurrence_score (text : string) (keywords : list string)
    : nat :=
  list_sum
    (map (fun keyword =>
            PyStr.occurrences (PyStr.lower keyword) (PyStr.lower text))
       keywords).

(** The order of a ranking: a higher score first, and for equal scores the
    domain declared first in the catalog. *)
Definition ranks_before (catalog : list (string * list string))
    (a b : string * nat) : Prop :=
  snd b < snd a
  \/ (snd a = snd b
      /\ PyList.index_of (fst a) catalog < PyList.index_of (fst b) catalog).

(** The order in which the domains are enumerated by a table. *)
Definition enumerated_before (table : list (string * list string))
    (a b : string) : Prop :=
  PyList.index_of a table < PyList.index_of b table.

(** ** Sample data *)

(** A world in which no backend answers and no file exists. *)
Definition offline : World :=
  {| time_time := fun h => PyNum.of_nat (List.length h);
     datetime_now_isoformat := fun _ => "2024-01-01T00:00:00";
     vision_llm_ainvoke :=
       fun _ _ => Raised (Exception "BackendError" "vision backend down");
     text_chain_ainvoke :=
       fun _ _ _ => Raised (Exception "BackendError" "text backend down");
     router_chain_ainvoke :=
       fun _ _ => Raised (Exception "BackendError" "arbiter down");
     os_path_exists := fun _ _ => false;
     pdf_extract_metadata := fun _ _ => [];
     pdf_extract_text := fun _ _ => "";
     pdf_generate_preview_images := fun _ _ => [];
     mcp_create_domain_folder :=
       fun _ _ =>
         {| mcp_success := Some false;
            mcp_message := Some "connection refused";
            mcp_destination := None |};
     mcp_copy_file :=
       fun _ _ _ _ =>
         {| mcp_success := Some false;
            mcp_message := Some "connection refused";
            mcp_destination := None |};
     mcp_move_file :=
       fun _ _ _ _ =>
         {| mcp_success := Some false;
            mcp_message := Some "connection refused";
            mcp_destination := None |} |}.

(** The vision result and the text result of the specification's example of
    a quick agreement. *)
Definition sample_vision : VisionAnalysis :=
  {| visual_domain_hints := Some ["finance"; "law"];
     document_type := Some "report";
     has_tables := Some true;
     has_charts := Some false;
     layout_type := Some "visual-heavy";
     va_confidence := Some 0.5%Q;
     raw_analysis := None;
     va_error := None |}.

Definition sample_text : TextAnalysis :=
  {| primary_domain := Some "finance";
     ta_confidence := Some 0.85%Q;
     ta_reasoning := None;
     keywords := Some ["revenue"];
     alternative_domains := Some [];
     ta_method := Some "llm";
     ta_error := None |}.

(** A text result with a low confidence, in a domain the vision hints do
    not name. *)
Definition unsure_text : TextAnalysis :=
  {| primary_domain := Some "arts";
     ta_confidence := Some 0.3%Q;
     ta_reasoning := None;
     keywords := Some [];
     alternative_domains := Some [];
     ta_method := Some "llm";
     ta_error := None |}.

(** The vision result of [_vision_node] when the agent has failed. *)
Definition degraded_vision : VisionAnalysis :=
  {| visual_domain_hints := Some [];
     document_type := None;
     has_tables := None;
     has_charts := None;
     layout_type := None;
     va_confidence := Some 0.0%Q;
     raw_analysis := None;
     va_error := Some "vision backend down" |}.

Definition router_input (v : VisionAnalysis) (t : TextAnalysis)
    : RouterInput :=
  {| ri_filename := Some "report.pdf";
     ri_vision_analysis := v;
     ri_text_analysis := t;
     ri_metadata := [] |}.

(** ** Summaries of the workflow nodes *)

(** The event is the start of the Reconciler. *)
Definition starts_router (e : event) : bool :=
  match e with
  | Execute DomainRouterAgent _ _ => true
  | _ => false
  end.

(** A predicate on events that holds of every event but, possibly, a start
    of the Reconciler. *)
Definition admits_calls (E : event -> Prop) : Prop :=
  forall e, starts_router e = false -> E e.

(** The vision results [_vision_node] can write. *)
Inductive vision_node_outcome : VisionAnalysis -> Prop :=
| vision_no_preview :
    vision_node_outcome vision_analysis.no_preview
| vision_parsed (response_text : string) :
    vision_node_outcome (vision_analysis._parse_vision_response response_text)
| vision_backend_failed (e : exn) :
    vision_node_outcome (vision_analysis.analysis_failed e)
| vision_agent_failed (e : option string) :
    vision_node_outcome (graph.vision_failed e)
| vision_node_failed (e : string) :
    vision_node_outcome (graph.vision_error e).

(** The text results [_text_node] can write. *)
Inductive text_node_outcome (w : World) : TextAnalysis -> Prop :=
| text_keyword_fallback (text : string) (filename : option string)
    (record : TextAnalysis) :
    text_classification._keyword_based_classification
      settings.DOMAIN_KEYWORDS text filename = Returned record ->
    text_node_outcome w record
| text_llm (h : list event) (text : string) (filename : option string)
    (answer : TextAnalysis) :
    text_chain_ainvoke w h text filename = Returned answer ->
    text_node_outcome w (text_classification.llm_record answer)
| text_agent_failed (e : option string) :
    text_node_outcome w (graph.text_failed e).

(** The decisions [DomainRouterAgent.process] can return on a vision result
    and a text result. *)
Inductive router_process_outcome (w : World) (v : VisionAnalysis)
    (t : TextAnalysis) : Decision -> Prop :=
| router_quick :
    In (get (primary_domain t) "general") (get (visual_domain_hints v) []) ->
    (0.7 < get (ta_confidence t) 0.0)%Q ->
    router_process_outcome w v t
      (domain_router.quick_agreement (get (primary_domain t) "general")
         (get (ta_confidence t) 0.0%Q) (get (va_confidence v) 0.0%Q))
| router_arbitrated (h : list event) (args : RouterChainArgs)
    (answer : Decision) :
    router_chain_ainvoke w h args = Returned answer ->
    router_process_outcome w v t
      (domain_router.set_method "llm_decision" answer)
| router_fallback :
    router_process_outcome w v t (domain_router._fallback_decision v t).

(** What [_router_node] can write as [final_decision], [final_domain] and
    [confidence]. *)
Inductive router_node_outcome (w : World) (v : VisionAnalysis)
    (t : TextAnalysis) : Decision -> string -> Q -> Prop :=
| router_decided (decision : Decision) (confidence : Q) :
    router_process_outcome w v t decision ->
    dec_confidence decision = Some confidence ->
    router_node_outcome w v t decision
      (get (final_domain decision) "general") confidence
| router_agent_failed (e : option string) :
    router_node_outcome w v t (graph.decision_error e)
      (get (primary_domain t) "general") 0.5%Q
| router_node_failed (e : option string) :
    router_node_outcome w v t (graph.decision_error e) "general" 0.3%Q.

(** What holds of the five keys the classifiers and the Reconciler write. *)
Record field_invariant : Type := {
  ok_vision : VisionAnalysis -> Prop;
  ok_text : TextAnalysis -> Prop;
  ok_decision : Decision -> Prop;
  ok_domain : string -> Prop;
  ok_confidence : Q -> Prop
}.

Definition state_ok (G : field_invariant) (state : DocumentState) : Prop :=
  when_set (ok_vision G) (s_vision_analysis state)
  /\ when_set (ok_text G) (s_text_analysis state)
  /\ when_set (ok_decision G) (s_final_decision state)
  /\ when_set (ok_domain G) (s_final_domain state)
  /\ when_set (ok_confidence G) (s_confidence state).

(** If the event is a start of the Reconciler, the vision result and the
    text result it is given are both set, and satisfy the invariant. *)
Definition router_started_on (G : field_invariant) (e : event) : Prop :=
  match e with
  | Execute DomainRouterAgent _ (RouterIn input) =>
      vision_truthy (ri_vision_analysis input) = true
      /\ text_truthy (ri_text_analysis input) = true
      /\ ok_vision G (ri_vision_analysis input)
      /\ ok_text G (ri_text_analysis input)
  | Execute DomainRouterAgent _ _ => False
  | _ => True
  end.

(** The invariant holds of whatever the nodes can write. *)
Definition kept_by_nodes (w : World) (G : field_invariant) : Prop :=
  (forall v, vision_node_outcome v -> ok_vision G v)
  /\ (forall t, text_node_outcome w t -> ok_text G t)
  /\ (forall v t decision domain confidence,
         ok_vision G v -> ok_text G t ->
         router_node_outcome w v t decision domain confidence ->
         ok_decision G decision /\ ok_domain G domain
         /\ ok_confidence G confidence).

(** A node writes none of the five keys. *)
Definition writes_no_result (update : DocumentState) : Prop :=
  s_vision_analysis update = None
  /\ s_text_analysis update = None
  /\ s_final_decision update = None
  /\ s_final_domain update = None
  /\ s_confidence update = None.

(** What each node returns. *)
Definition node_summary (w : World) (n : graph.node) (state : DocumentState)
    (update : DocumentState) : Prop :=
  match n with
  | graph.n_vision_analysis =>
      exists v message,
        update = graph.vision_update v message /\ vision_node_outcome v
  | graph.n_text_classification =>
      exists t message,
        update = graph.text_update t message /\ text_node_outcome w t
  | graph.n_domain_router =>
      update = graph.no_update
      \/ exists v t decision domain confidence message,
           s_vision_analysis state = Some v
           /\ s_text_analysis state = Some t
           /\ update = graph.router_update decision domain confidence message
           /\ router_node_outcome w v t decision domain confidence
  | _ => writes_no_result update
  end.

(** ** The invariants of the closed-world domain and of the confidences *)

(** One of the ten declared tags. *)
Definition declared (d : string) : Prop := In d declared_domains.

Arguments declared d : simpl never.

(** The vision result and the text result in the state are ones the two
    classifier nodes write: the record of the agent, or the placeholder of
    a degraded branch. *)
Definition classifier_results (w : World) : field_invariant :=
  {| ok_vision := vision_node_outcome;
     ok_text := text_node_outcome w;
     ok_decision := fun _ => True;
     ok_domain := fun _ => True;
     ok_confidence := fun _ => True |}.

(** Every domain tag in the state is a declared one. *)
Definition domains_declared : field_invariant :=
  {| ok_vision := fun v => Forall declared (get (visual_domain_hints v) []);
     ok_text := fun t => declared (get (primary_domain t) "general");
     ok_decision := fun d => when_set declared (final_domain d);
     ok_domain := declared;
     ok_confidence := fun _ => True |}.

(** The language models answer declared tags only (or none). *)
Definition llm_tags_declared (w : World) : Prop :=
  (forall h text filename answer,
      text_chain_ainvoke w h text filename = Returned answer ->
      when_set declared (primary_domain answer))
  /\ (forall h args answer,
         router_chain_ainvoke w h args = Returned answer ->
         when_set declared (final_domain answer)).

(** Every confidence in the state lies in [0, 1]. *)
Definition confidences_bounded : field_invariant :=
  {| ok_vision := fun v => PyNum.unit_interval (get (va_confidence v) 0.0%Q);
     ok_text := fun t => PyNum.unit_interval (get (ta_confidence t) 0.0%Q);
     ok_decision := fun d => when_set PyNum.unit_interval (dec_confidence d);
     ok_domain := fun _ => True;
     ok_confidence := PyNum.unit_interval |}.

(** The language models answer confidences in [0, 1] only (or none). *)
Definition llm_confidences_bounded (w : World) : Prop :=
  (forall h text filename answer,
      text_chain_ainvoke w h text filename = Returned answer ->
      when_set PyNum.unit_interval (ta_confidence answer))
  /\ (forall h args answer,
         router_chain_ainvoke w h args = Returned answer ->
         when_set PyNum.unit_interval (dec_confidence answer)).

(** A text long enough for the text chain to be invoked. *)
Definition long_text : string :=
  "Quarterly statement of the cardiology ward, with the list of admissions.".

(** A world in which the document exists, the vision backend and the
    arbiter are down, the file server works, and the text chain answers the
    given JSON object. *)
Definition text_only_world (answer : TextAnalysis) : World :=
  {| time_time := fun h => PyNum.of_nat (List.length h);
     datetime_now_isoformat := fun _ => "2024-01-01T00:00:00";
     vision_llm_ainvoke :=
       fun _ _ => Raised (Exception "BackendError" "vision backend down");
     text_chain_ainvoke := fun _ _ _ => Returned answer;
     router_chain_ainvoke :=
       fun _ _ => Raised (Exception "BackendError" "arbiter down");
     os_path_exists := fun _ _ => true;
     pdf_extract_metadata := fun _ _ => [("page_count", "1")];
     pdf_extract_text := fun _ _ => long_text;
     pdf_generate_preview_images := fun _ _ => ["/9j/4AAQSkZJRg=="];
     mcp_create_domain_folder :=
       fun _ domain =>
         {| mcp_success := Some true;
            mcp_message := None;
            mcp_destination := None |};
     mcp_copy_file :=
       fun _ _ domain filename =>
         {| mcp_success := Some true;
            mcp_message := None;
            mcp_destination := Some ("./output/" ++ domain ++ "/" ++ filename) |};
     mcp_move_file :=
       fun _ _ domain filename =>
         {| mcp_success := Some true;
            mcp_message := None;
            mcp_destination := Some ("./output/" ++ domain ++ "/" ++ filename) |} |}.

(** The text chain answers a tag outside the catalog. *)
Definition undeclared_tag_answer : TextAnalysis :=
  {| primary_domain := Some "medicine";
     ta_confidence := Some 0.9%Q;
     ta_reasoning := Some [Lit "Hospital vocabulary"];
     keywords := Some ["ward"; "admissions"];
     alternative_domains := Some ["healthcare"];
     ta_method := None;
     ta_error := None |}.

(** The text chain answers a confidence above 1. *)
Definition overconfident_answer : TextAnalysis :=
  {| primary_domain := Some "healthcare";
     ta_confidence := Some 1.5%Q;
     ta_reasoning := Some [Lit "Hospital vocabulary"];
     keywords := Some ["ward"; "admissions"];
     alternative_domains := Some [];
     ta_method := None;
     ta_error := None |}.

(** The text chain answers within the catalog and within [0, 1]. *)
Definition sound_answer : TextAnalysis :=
  {| primary_domain := Some "healthcare";
     ta_confidence := Some 0.9%Q;
     ta_reasoning := Some [Lit "Hospital vocabulary"];
     keywords := Some ["ward"; "admissions"];
     alternative_domains := Some [];
     ta_method := None;
     ta_error := None |}.

(** A world in which the document exists and is classified, and the file
    server refuses to create the folder. *)
Definition filing_refused : World :=
  {| time_time := fun h => PyNum.of_nat (List.length h);
     datetime_now_isoformat := fun _ => "2024-01-01T00:00:00";
     vision_llm_ainvoke :=
       fun _ _ => Raised (Exception "BackendError" "vision backend down");
     text_chain_ainvoke := fun _ _ _ => Returned sound_answer;
     router_chain_ainvoke :=
       fun _ _ => Raised (Exception "BackendError" "arbiter down");
     os_path_exists := fun _ _ => true;
     pdf_extract_metadata := fun _ _ => [("page_count", "1")];
     pdf_extract_text := fun _ _ => long_text;
     pdf_generate_preview_images := fun _ _ => ["/9j/4AAQSkZJRg=="];
     mcp_create_domain_folder :=
       fun _ _ =>
         {| mcp_success := Some false;
            mcp_message := Some "Permission denied";
            mcp_destination := None |};
     mcp_copy_file :=
       fun _ _ _ _ =>
         {| mcp_success := Some false;
            mcp_message := Some "Permission denied";
            mcp_destination := None |};
     mcp_move_file :=
       fun _ _ _ _ =>
         {| mcp_success := Some false;
            mcp_message := Some "Permission denied";
            mcp_destination := None |} |}.

(** A world in which the document exists and is classified, and has been
    removed by the time it is to be filed. *)
Definition removed_before_filing : World :=
  {| time_time := fun h => PyNum.of_nat (List.length h);
     datetime_now_isoformat := fun _ => "2024-01-01T00:00:00";
     vision_llm_ainvoke :=
       fun _ _ => Raised (Exception "BackendError" "vision backend down");
     text_chain_ainvoke := fun _ _ _ => Returned sound_answer;
     router_chain_ainvoke :=
       fun _ _ => Raised (Exception "BackendError" "arbiter down");
     os_path_exists := fun h _ => negb (existsb starts_router h);
     pdf_extract_metadata := fun _ _ => [("page_count", "1")];
     pdf_extract_text := fun _ _ => long_text;
     pdf_generate_preview_images := fun _ _ => ["/9j/4AAQSkZJRg=="];
     mcp_create_domain_folder :=
       fun _ _ =>
         {| mcp_success := Some true;
            mcp_message := None;
            mcp_destination := None |};
     mcp_copy_file :=
       fun _ _ _ _ =>
         {| mcp_success := Some false;
            mcp_message := Some "Source file not found";
            mcp_destination := None |};
     mcp_move_file :=
       fun _ _ _ _ =>
         {| mcp_success := Some false;
            mcp_message := Some "Source file not found";
            mcp_destination := None |} |}.

(** ** The run of the graph, node after node *)

(** The error handler runs beside the classifiers when the intake has left
    an error. *)
Definition error_branch (state : DocumentState) : M (list DocumentState) :=
  if String.eqb (graph._check_intake_success state) "error"
  then update <- graph._error_node state ;; ret [update]
  else ret [].

Definition straight_line (state0 : DocumentState) : M DocumentState :=
  intake <- graph._intake_node state0 ;;
  let state1 := graph.apply_update state0 intake in
  vision <- graph._vision_node state1 ;;
  text <- graph._text_node state1 ;;
  handled <- error_branch state1 ;;
  let state2 :=
    fold_left graph.apply_update (vision :: text :: handled) state1 in
  routed <- graph._router_node state2 ;;
  let state3 := graph.apply_update state2 routed in
  filed <- graph._organization_node state3 ;;
  ret (graph.apply_update state3 filed).

(** The start of an agent. *)
Definition starts (a : agent_id) (e : event) : bool :=
  match e with
  | Execute a' _ _ => agent_id_eqb a a'
  | _ => false
  end.

(** The event is not a start of the Reconciler. *)
Definition not_router (e : event) : Prop := starts_router e = false.

(** In a sequence of events, every start of the Reconciler comes after a
    start of the vision agent and a start of the text agent. *)
Definition joined (evs : list event) : Prop :=
  forall before e after,
    evs = (before ++ e :: after)%list ->
    starts_router e = true ->
    existsb (starts VisionAnalysisAgent) before = true
    /\ existsb (starts TextClassificationAgent) before = true.

(** ** Notions used to state what a run does *)

(** The execution counts after one more execution of [self]. *)
Definition counted (self : agent_id) (count : agent_id -> nat)
    : agent_id -> nat :=
  fun a => if agent_id_eqb a self then count self + 1 else count a.

(** A computation that leaves the execution counts as they are. *)
Definition keeps_counts {A} (m : M A) : Prop :=
  forall w s, execution_count (snd (m w s)) = execution_count s.

(** A computation that leaves the process state as it is; [Q] holds of the
    value it returns. *)
Definition pure {A} (w : World) (m : M A) (Q : A -> Prop) : Prop :=
  forall s,
    snd (m w s) = s
    /\ match fst (m w s) with
       | Returned a => Q a
       | Raised _ => True
       end.

(** A computation that returns, in every state: [E] holds of the events it
    adds to the trace, [f] gives the execution counts it leaves, and [Q]
    holds of the value it returns. *)
Definition runs {A} (w : World) (E : event -> Prop)
    (f : (agent_id -> nat) -> agent_id -> nat) (m : M A) (Q : A -> Prop)
    : Prop :=
  forall s, exists a evs,
    m w s
    = (Returned a,
       {| trace := (trace s ++ evs)%list;
          execution_count := f (execution_count s) |})
    /\ Forall E evs
    /\ Q a.

(** The event is not a request on another file than the document
    [file_path], filed under the name [filename], and is not a request to
    move a file. *)
Definition concerns (file_path filename : string) (e : event) : Prop :=
  match e with
  | PathExists path | ExtractMetadata path | ExtractText path
  | GeneratePreviewImages path => path = file_path
  | McpCopyFile source _ target => source = file_path /\ target = filename
  | McpMoveFile _ _ _ => False
  | _ => True
  end.

(** An update that writes neither [file_path] nor [filename]. *)
Definition keeps_input (update : DocumentState) : Prop :=
  s_file_path update = None /\ s_filename update = None.

(** The stages in which a run can end. *)
Definition filing_stage (stage : option string) : Prop :=
  stage = Some "completed" \/ stage = Some "organization_failed".

(** ** [utils/helpers.py] *)

Module helpers.

(** [range(start, stop, step)] for a positive [step], of at most [fuel]
    elements. *)
Fixpoint range_from (fuel start stop step : nat) : list nat :=
  match fuel with
  | 0 => []
  | S fuel' =>
      if start <? stop then start :: range_from fuel' (start + step) stop step
      else []
  end.

(** [range(0, stop, step)]: [ValueError] for the step 0, empty for a
    negative step. With a step of at least 1 the range has at most [stop]
    elements. *)
Definition range (stop : nat) (step : Z) : outcome (list nat) :=
  if (step =? 0)%Z then
    Raised (Exception "ValueError" "range() arg 3 must not be zero")
  else if (step <? 0)%Z then Returned []
  else Returned (range_from stop 0 stop (Z.to_nat step)).

(** [items[i:i + batch_size]] for [i] and [batch_size] not negative. *)
Definition slice {A} (i size : nat) (items : list A) : list A :=
  firstn size (skipn i items).

Definition batch_items {A} (items : list A) (batch_size : Z)
    : outcome (list (list A)) :=
  match range (List.length items) batch_size with
  | Returned starts =>
      Returned (map (fun i => slice i (Z.to_nat batch_size) items) starts)
  | Raised e => Raised e
  end.

Definition truncate_text (text : string) (max_length : Z) (suffix : string)
    : string :=
  if (Z.of_nat (String.length text) <=? max_length)%Z then text
  else
    PyStr.slice_to (max_length - Z.of_nat (String.length suffix)) text
    ++ suffix.

Definition validate_confidence (confidence : Q) : Q :=
  PyNum.max 0.0%Q (PyNum.min 1.0%Q confidence).

Definition normalize_domain_name (domain : string) : string :=
  PyStr.replace_char " " "_" (PyStr.strip (PyStr.lower domain)).

End helpers.

(** ** [database/models.py] *)

Module models.

Inductive ProcessingStatus : Type :=
| PENDING
| PROCESSING
| COMPLETED
| FAILED.

Inductive DocumentDomain : Type :=
| FINANCE
| LAW
| SCIENCE
| TECHNOLOGY
| HEALTHCARE
| EDUCATION
| BUSINESS
| ENGINEERING
| ARTS
| GENERAL.

(** [member.value] *)
Definition value (member : DocumentDomain) : string :=
  match member with
  | FINANCE => "finance"
  | LAW => "law"
  | SCIENCE => "science"
  | TECHNOLOGY => "technology"
  | HEALTHCARE => "healthcare"
  | EDUCATION => "education"
  | BUSINESS => "business"
  | ENGINEERING => "engineering"
  | ARTS => "arts"
  | GENERAL => "general"
  end.

(** The members of [DocumentDomain], in the order of the class. *)
Definition members : list DocumentDomain :=
  [FINANCE; LAW; SCIENCE; TECHNOLOGY; HEALTHCARE; EDUCATION; BUSINESS;
   ENGINEERING; ARTS; GENERAL].

(** [DocumentDomain(v)]: the member whose value is [v]; [ValueError] when
    there is none, as for [None]. *)
Definition DocumentDomain_of (v : option string) : outcome DocumentDomain :=
  match v with
  | Some tag =>
      match find (fun member => String.eqb (value member) tag) members with
      | Some member => Returned member
      | None =>
          Raised (Exception "ValueError"
                    ("'" ++ tag ++ "' is not a valid DocumentDomain"))
      end
  | None =>
      Raised (Exception "ValueError" "None is not a valid DocumentDomain")
  end.

(** A row of the table [documents]. *)
Record Document : Type := {
  doc_id : Z;
  doc_filename : string;
  doc_original_path : string;
  doc_file_size : option Z;
  doc_page_count : option Z;
  doc_predicted_domain : option DocumentDomain;
  doc_confidence_score : option Q;
  doc_status : ProcessingStatus;
  doc_vision_analysis : option VisionAnalysis;
  doc_text_analysis : option TextAnalysis;
  doc_final_decision : option Decision;
  doc_output_path : option string;
  doc_output_folder : option string;
  doc_extracted_text_preview : option string;
  doc_keywords : option (list string);
  doc_created_at : string;
  doc_updated_at : option string;
  doc_processing_started_at : option string;
  doc_processing_completed_at : option string;
  doc_error_message : option string;
  doc_retry_count : Z
}.

End models.

(** ** Computations on a database session *)

(** The table [documents] as the session reads it and commits it. *)
Definition Session := list models.Document.

(** A computation that uses a session beside the process state: the
    session is shared, so that what has been committed stays committed when
    the computation raises. *)
Definition D (A : Type) : Type :=
  World -> Session * St -> outcome A * (Session * St).

Definition dret {A} (a : A) : D A := fun _ state => (Returned a, state).

Definition draise {A} (e : exn) : D A := fun _ state => (Raised e, state).

Definition dbind {A B} (m : D A) (k : A -> D B) : D B :=
  fun w state =>
    match m w state with
    | (Returned a, state') => k a w state'
    | (Raised e, state') => (Raised e, state')
    end.

Definition dcatch {A} (m : D A) (handler : exn -> D A) : D A :=
  fun w state =>
    match m w state with
    | (Returned a, state') => (Returned a, state')
    | (Raised e, state') => handler e w state'
    end.

(** A computation that does not use the session. *)
Definition session_free {A} (m : M A) : D A :=
  fun w state =>
    let (o, s') := m w (snd state) in (o, (fst state, s')).

Notation "x <~ m ;; k" := (dbind m (fun x => k))
  (at level 61, m at next level, right associativity).
Notation "m ;;~ k" := (dbind m (fun _ => k))
  (at level 61, right associativity).

(** ** [database/crud.py] *)

Module crud.

(** [db.query(Document).filter(Document.id == document_id).first()] *)
Definition get_document (document_id : Z) : D (option models.Document) :=
  fun _ state =>
    (Returned
       (find (fun row => (models.doc_id row =? document_id)%Z) (fst state)),
     state).

(** The table after the changed attributes of [doc] have been written back
    to its row. *)
Fixpoint write_row (doc : models.Document) (table : Session) : Session :=
  match table with
  | [] => []
  | row :: rest =>
      if (models.doc_id row =? models.doc_id doc)%Z then doc :: rest
      else row :: write_row doc rest
  end.

(** [db.commit()] after changes of attributes of [doc], and
    [db.refresh(doc)]. *)
Definition commit (doc : models.Document) : D unit :=
  fun _ state => (Returned tt, (write_row doc (fst state), snd state)).

(** [datetime.now()] *)
Definition now : D string := session_free (read datetime_now_isoformat).

(** The truth value of an optional string. *)
Definition truthy (text : option string) : bool :=
  match text with
  | Some msg => negb (String.eqb msg "")
  | None => false
  end.

Definition update_document_status (document_id : Z)
    (status : models.ProcessingStatus) (error_message : option string)
    : D (option models.Document) :=
  found <~ get_document document_id ;;
  match found with
  | Some doc =>
      updated_at <~ now ;;
      stamps <~
        match status with
        | models.PROCESSING =>
            started <~ now ;;
            dret (Some started, models.doc_processing_completed_at doc)
        | models.COMPLETED | models.FAILED =>
            completed <~ now ;;
            dret (models.doc_processing_started_at doc, Some completed)
        | models.PENDING =>
            dret (models.doc_processing_started_at doc,
                  models.doc_processing_completed_at doc)
        end ;;
      let doc' :=
        {| models.doc_id := models.doc_id doc;
           models.doc_filename := models.doc_filename doc;
           models.doc_original_path := models.doc_original_path doc;
           models.doc_file_size := models.doc_file_size doc;
           models.doc_page_count := models.doc_page_count doc;
           models.doc_predicted_domain := models.doc_predicted_domain doc;
           models.doc_confidence_score := models.doc_confidence_score doc;
           models.doc_status := status;
           models.doc_vision_analysis := models.doc_vision_analysis doc;
           models.doc_text_analysis := models.doc_text_analysis doc;
           models.doc_final_decision := models.doc_final_decision doc;
           models.doc_output_path := models.doc_output_path doc;
           models.doc_output_folder := models.doc_output_folder doc;
           models.doc_extracted_text_preview :=
             models.doc_extracted_text_preview doc;
           models.doc_keywords := models.doc_keywords doc;
           models.doc_created_at := models.doc_created_at doc;
           models.doc_updated_at := Some updated_at;
           models.doc_processing_started_at := fst stamps;
           models.doc_processing_completed_at := snd stamps;
           models.doc_error_message :=
             if truthy error_message then error_message
             else models.doc_error_message doc;
           models.doc_retry_count := models.doc_retry_count doc |} in
      commit doc' ;;~
      dret (Some doc')
  | None => dret None
  end.

Definition update_document_classification (document_id : Z)
    (domain : option string) (confidence : option Q)
    (output_path : option string) (final_decision : option Decision)
    (vision_analysis : option VisionAnalysis)
    (text_analysis : option TextAnalysis) : D (option models.Document) :=
  found <~ get_document document_id ;;
  match found with
  | Some doc =>
      let predicted_domain :=
        match models.DocumentDomain_of domain with
        | Returned member => member
        | Raised _ => models.GENERAL          (* except ValueError *)
        end in
      updated_at <~ now ;;
      let doc' :=
        {| models.doc_id := models.doc_id doc;
           models.doc_filename := models.doc_filename doc;
           models.doc_original_path := models.doc_original_path doc;
           models.doc_file_size := models.doc_file_size doc;
           models.doc_page_count := models.doc_page_count doc;
           models.doc_predicted_domain := Some predicted_domain;
           models.doc_confidence_score := confidence;
           models.doc_status := models.doc_status doc;
           models.doc_vision_analysis := vision_analysis;
           models.doc_text_analysis := text_analysis;
           models.doc_final_decision := final_decision;
           models.doc_output_path := output_path;
           models.doc_output_folder := models.doc_output_folder doc;
           models.doc_extracted_text_preview :=
             models.doc_extracted_text_preview doc;
           models.doc_keywords := models.doc_keywords doc;
           models.doc_created_at := models.doc_created_at doc;
           models.doc_updated_at := Some updated_at;
           models.doc_processing_started_at :=
             models.doc_processing_started_at doc;
           models.doc_processing_completed_at :=
             models.doc_processing_completed_at doc;
           models.doc_error_message := models.doc_error_message doc;
           models.doc_retry_count := models.doc_retry_count doc |} in
      commit doc' ;;~
      dret (Some doc')
  | None => dret None
  end.

End crud.

(** ** [api/routes/documents.py] *)

(** The dict [process_document_sync] returns. *)
Record SyncResponse : Type := {
  sr_success : bool;
  sr_document_id : Z;
  sr_filename : option string;
  sr_domain : option string;
  sr_confidence : option Q;
  sr_output_path : option string
}.

Module documents.

(** [HTTPException(status_code, detail)], with the status code in decimal;
    its [str] is ["{status_code}: {detail}"]. *)
Definition HTTPException (status_code detail : string) : exn :=
  Exception "HTTPException" (status_code ++ ": " ++ detail).

Definition process_document_sync (document_id : Z) : D SyncResponse :=
  found <~ crud.get_document document_id ;;
  match found with
  | None => draise (HTTPException "404" "Document not found")
  | Some doc =>
      crud.update_document_status document_id models.PROCESSING None ;;~
      dcatch
        (result <~ session_free
                     (graph.process_document (models.doc_original_path doc)) ;;
         (if pr_success result then
            crud.update_document_classification document_id
              (pr_domain result) (pr_confidence result)
              (pr_output_path result) (pr_final_decision result) None None ;;~
            crud.update_document_status document_id models.COMPLETED None
          else
            crud.update_document_status document_id models.FAILED
              (pr_error result)) ;;~
         dret {| sr_success := pr_success result;
                 sr_document_id := document_id;
                 sr_filename := pr_filename result;
                 sr_domain := pr_domain result;
                 sr_confidence := pr_confidence result;
                 sr_output_path := pr_output_path result |})
        (fun e =>
           crud.update_document_status document_id models.FAILED
             (Some (str_of_exn e)) ;;~
           draise (HTTPException "500" (str_of_exn e)))
  end.

End documents.

(** ** Notions used to state what the helpers and the database do *)

(** The row of a table with a given id, as [get_document] finds it. *)
Definition row_of (table : Session) (id : Z) : option models.Document :=
  find (fun row => (models.doc_id row =? id)%Z) table.

(** [lstrip], read on the list of the characters of a string. *)
Fixpoint drop_spaces (l : list ascii) : list ascii :=
  match l with
  | c :: rest => if PyStr.is_space c then drop_spaces rest else l
  | [] => []
  end.

(** [replace(' ', '_')] on one character. *)
Definition underscore (c : ascii) : ascii :=
  if Ascii.eqb c " " then "_"%char else c.

(** A list of characters that does not begin with whitespace. *)
Definition begins (l : list ascii) : Prop :=
  match l with
  | c :: _ => PyStr.is_space c = false
  | [] => True
  end.

(** * Properties *)

(** ** Computations *)

Lemma hoare_ret {A} w E (a : A) (Q : A -> Prop) : Q a -> hoare w E (ret a) Q.
Proof.
  intros HQ s. exists []. cbn. rewrite app_nil_r. auto.
Qed.

Lemma hoare_raise {A} w E e (Q : A -> Prop) : hoare w E (raise e) Q.
Proof.
  intros s. exists []. cbn. rewrite app_nil_r. auto.
Qed.

Lemma hoare_bind {A B} w E (m : M A) (k : A -> M B) (P : A -> Prop)
    (Q : B -> Prop) :
  hoare w E m P -> (forall a, P a -> hoare w E (k a) Q) ->
  hoare w E (bind m k) Q.
Proof.
  intros Hm Hk s. unfold bind.
  destruct (Hm s) as (evs & Htr & Hev & Hres).
  destruct (m w s) as [[a | e] s1]; cbn in *.
  - destruct (Hk a Hres s1) as (evs' & Htr' & Hev' & Hres').
    exists (evs ++ evs')%list. rewrite Htr', Htr, app_assoc.
    split; [reflexivity | split; [apply Forall_app; auto | exact Hres']].
  - exists evs. auto.
Qed.

Lemma hoare_catch {A} w E (m : M A) (h : exn -> M A) (Q : A -> Prop) :
  hoare w E m Q -> (forall e, hoare w E (h e) Q) -> hoare w E (catch m h) Q.
Proof.
  intros Hm Hh s. unfold catch.
  destruct (Hm s) as (evs & Htr & Hev & Hres).
  destruct (m w s) as [[a | e] s1]; cbn in *.
  - exists evs. auto.
  - destruct (Hh e s1) as (evs' & Htr' & Hev' & Hres').
    exists (evs ++ evs')%list. rewrite Htr', Htr, app_assoc.
    split; [reflexivity | split; [apply Forall_app; auto | exact Hres']].
Qed.

Lemma hoare_weaken {A} w E (m : M A) (P Q : A -> Prop) :
  hoare w E m P -> (forall a, P a -> Q a) -> hoare w E m Q.
Proof.
  intros Hm HPQ s. destruct (Hm s) as (evs & Htr & Hev & Hres).
  exists evs. repeat split; auto.
  destruct (fst (m w s)); auto.
Qed.

Lemma hoare_emit w E e (Q : unit -> Prop) :
  E e -> Q tt -> hoare w E (emit e) Q.
Proof.
  intros He HQ s. exists [e]. cbn. auto.
Qed.

Lemma hoare_call {A} w E (answer : World -> list event -> A) e
    (Q : A -> Prop) :
  E e -> (forall h, Q (answer w h)) -> hoare w E (call answer e) Q.
Proof.
  intros He HQ s. exists [e]. cbn. auto.
Qed.

Lemma hoare_call_raising {A} w E (answer : World -> list event -> outcome A)
    e (Q : A -> Prop) :
  E e -> (forall h a, answer w h = Returned a -> Q a) ->
  hoare w E (call_raising answer e) Q.
Proof.
  intros He HQ s. exists [e]. cbn. repeat split; auto.
  destruct (answer w (trace s)) eqn:Heq; eauto.
Qed.

Lemma hoare_read {A} w E (clock : World -> list event -> A) (Q : A -> Prop) :
  (forall h, Q (clock w h)) -> hoare w E (read clock) Q.
Proof.
  intros HQ s. exists []. cbn. rewrite app_nil_r. auto.
Qed.

Lemma hoare_incr w E self (Q : nat -> Prop) :
  (forall n, Q n) -> hoare w E (incr_execution_count self) Q.
Proof.
  intros HQ s. exists []. cbn. rewrite app_nil_r. auto.
Qed.

Lemma hoare_lift {A} w E (o : outcome A) (Q : A -> Prop) :
  (forall a, o = Returned a -> Q a) -> hoare w E (text_classification.lift o) Q.
Proof.
  intros HQ s. exists []. cbn. rewrite app_nil_r. repeat split; auto.
  destruct o; auto.
Qed.

Lemma hoare_item {A} w E key (field : option A) (Q : A -> Prop) :
  when_set Q field -> hoare w E (graph.item key field) Q.
Proof.
  intros H. destruct field; cbn in *.
  - now apply hoare_ret.
  - apply hoare_raise.
Qed.

(** ** [BaseAgent.execute] *)

(** What the envelope says of a result that satisfies [P]. *)
Lemma hoare_execute {Inp Out} w E self as_input (process : Inp -> M Out)
    input (P : Out -> Prop) :
  (forall n, E (Execute self n (as_input input))) ->
  hoare w E (process input) P ->
  hoare w E (base.execute self as_input process input)
    (fun r => when_set P (ar_result r)
              /\ (ar_success r = true -> exists v, ar_result r = Some v)).
Proof.
  intros HE Hp. unfold base.execute.
  eapply hoare_bind; [apply hoare_read with (Q := fun _ => True); auto |].
  intros start_time _.
  eapply hoare_bind; [apply hoare_incr with (Q := fun _ => True); auto |].
  intros count _.
  apply hoare_catch.
  - eapply hoare_bind; [apply hoare_emit with (Q := fun _ => True); auto |].
    intros _ _.
    eapply hoare_bind; [exact Hp |].
    intros v Hv.
    eapply hoare_bind; [apply hoare_read with (Q := fun _ => True); auto |].
    intros now _.
    eapply hoare_bind; [apply hoare_read with (Q := fun _ => True); auto |].
    intros stamp _.
    apply hoare_ret. cbn. split; [exact Hv | eauto].
  - intros e.
    eapply hoare_bind; [apply hoare_read with (Q := fun _ => True); auto |].
    intros now _.
    eapply hoare_bind; [apply hoare_read with (Q := fun _ => True); auto |].
    intros stamp _.
    apply hoare_ret. cbn. split; [exact I | discriminate].
Qed.

(** [execute] counts and announces the execution, runs [process], and
    wraps what it returns or raises. *)
Lemma execute_runs {Inp Out} (self : agent_id)
    (as_input : Inp -> agent_input) (process : Inp -> M Out)
    (input_data : Inp) (w : World) (s : St) :
  let s0 := started self (as_input input_data) s in
  let s' := snd (process input_data w s0) in
  base.execute self as_input process input_data w s
  = (Returned
       {| ar_agent_name := name self;
          ar_success :=
            match fst (process input_data w s0) with
            | Returned _ => true
            | Raised _ => false
            end;
          ar_result :=
            match fst (process input_data w s0) with
            | Returned value => Some value
            | Raised _ => None
            end;
          ar_error :=
            match fst (process input_data w s0) with
            | Returned _ => None
            | Raised e => Some (str_of_exn e)
            end;
          ar_execution_time :=
            (time_time w (trace s') - time_time w (trace s))%Q;
          ar_timestamp := datetime_now_isoformat w (trace s') |},
     s').
Proof.
  intros s0 s'.
  unfold base.execute, bind, catch, read, incr_execution_count, emit, ret.
  cbn. fold s0. unfold started in s0. cbn in s0. fold s0. subst s'.
  now destruct (process input_data w s0) as [[value | e] s1].
Qed.

(** C10. [BaseAgent.execute] always returns an envelope and never raises:
    when [process] returns, the envelope has [success = True] and the
    returned value as [result]; when [process] raises, it has
    [success = False] and the message of the exception as [error]. In both
    cases it carries the agent's name, an execution time and a timestamp. *)
Theorem execute_total :
  forall (Inp Out : Type) (self : agent_id) (as_input : Inp -> agent_input)
         (process : Inp -> M Out) (input_data : Inp) (w : World) (s : St),
    let s0 := started self (as_input input_data) s in
    exists (envelope : AgentResult Out) (s' : St),
      base.execute self as_input process input_data w s
      = (Returned envelope, s')
      /\ s' = snd (process input_data w s0)
      /\ ar_agent_name envelope = name self
      /\ ar_execution_time envelope
         = (time_time w (trace s') - time_time w (trace s))%Q
      /\ ar_timestamp envelope = datetime_now_isoformat w (trace s')
      /\ match fst (process input_data w s0) with
         | Returned value =>
             ar_success envelope = true
             /\ ar_result envelope = Some value
             /\ ar_error envelope = None
         | Raised e =>
             ar_success envelope = false
             /\ ar_result envelope = None
             /\ ar_error envelope = Some (str_of_exn e)
         end.
Proof.
  intros Inp Out self as_input process input_data w s s0.
  rewrite execute_runs. fold s0.
  eexists. eexists. split; [reflexivity |].
  cbn. repeat (split; [reflexivity |]).
  now destruct (fst (process input_data w s0)).
Qed.

(** ** Membership and comparisons *)

Lemma mem_In (x : string) (xs : list string) :
  PyStr.mem x xs = true <-> In x xs.
Proof.
  unfold PyStr.mem. rewrite existsb_exists. split.
  - intros (y & Hy & Heq). apply String.eqb_eq in Heq. now subst.
  - intros Hin. exists x. split; [exact Hin | apply String.eqb_refl].
Qed.

Lemma mem_not_In (x : string) (xs : list string) :
  PyStr.mem x xs = false <-> ~ In x xs.
Proof.
  rewrite <- mem_In. destruct (PyStr.mem x xs); split; congruence.
Qed.

Lemma ltb_lt (x y : Q) : PyNum.ltb x y = true <-> (x < y)%Q.
Proof.
  unfold PyNum.ltb. rewrite Qlt_alt.
  destruct (x ?= y)%Q; split; congruence.
Qed.

Lemma gtb_lt (x y : Q) : PyNum.gtb x y = true <-> (y < x)%Q.
Proof. apply ltb_lt. Qed.

Lemma gtb_not_lt (x y : Q) : PyNum.gtb x y = false <-> ~ (y < x)%Q.
Proof.
  rewrite <- gtb_lt. destruct (PyNum.gtb x y); split; congruence.
Qed.

(** [min] is the smaller of its arguments. *)
Lemma min_spec (x y : Q) :
  ((y < x)%Q /\ PyNum.min x y = y) \/ ((x <= y)%Q /\ PyNum.min x y = x).
Proof.
  unfold PyNum.min. destruct (PyNum.ltb y x) eqn:H.
  - left. split; [now apply ltb_lt | reflexivity].
  - right. split; [| reflexivity].
    apply Qnot_lt_le. intros Hlt. apply ltb_lt in Hlt. congruence.
Qed.

(** ** The Reconciler: [DomainRouterAgent] *)

(** C1. Quick agreement: when the text classifier's primary domain is among
    the vision hints and the text confidence is above 0.7, [process] returns
    at once the text domain, the mean of the two confidences, agreement
    "high" and method "quick_agreement". The state is left as it was: the
    chain of the arbiter is not invoked. *)
Theorem quick_agreement_short_circuit :
  forall (input_data : RouterInput) (w : World) (s : St),
    let vision_hints :=
      get (visual_domain_hints (ri_vision_analysis input_data)) [] in
    let vision_confidence :=
      get (va_confidence (ri_vision_analysis input_data)) 0.0%Q in
    let text_domain :=
      get (primary_domain (ri_text_analysis input_data)) "general" in
    let text_confidence :=
      get (ta_confidence (ri_text_analysis input_data)) 0.0%Q in
    In text_domain vision_hints ->
    (0.7 < text_confidence)%Q ->
    exists decision : Decision,
      domain_router.process input_data w s = (Returned decision, s)
      /\ final_domain decision = Some text_domain
      /\ dec_confidence decision
         = Some ((text_confidence + vision_confidence) / 2)%Q
      /\ agreement_level decision = Some "high"
      /\ dec_method decision = Some "quick_agreement".
Proof.
  intros input_data w s hints vc td tc Hin Hconf.
  unfold domain_router.process. fold hints vc td tc.
  apply mem_In in Hin. apply gtb_lt in Hconf.
  rewrite Hin, Hconf. cbn.
  eexists. split; [reflexivity |]. cbn. auto.
Qed.

(** When the quick test fails and the chain of the arbiter raises,
    [process] returns the fallback decision. *)
Lemma process_falls_back :
  forall (input_data : RouterInput) (w : World) (s : St) (e : exn),
    let va := ri_vision_analysis input_data in
    let ta := ri_text_analysis input_data in
    PyStr.mem (get (primary_domain ta) "general")
      (get (visual_domain_hints va) [])
    && PyNum.gtb (get (ta_confidence ta) 0.0%Q) 0.7%Q = false ->
    router_chain_ainvoke w (trace s) (domain_router.chain_args input_data)
    = Raised e ->
    fst (domain_router.process input_data w s)
    = Returned (domain_router._fallback_decision va ta).
Proof.
  intros input_data w s e va ta Hquick Hraise.
  unfold domain_router.process. fold va ta. rewrite Hquick.
  unfold catch, bind, call_raising. rewrite Hraise. reflexivity.
Qed.

(** C2. The deterministic fallback of the Reconciler, returned when the
    arbitration raises: with a text confidence above 0.6 the text domain,
    0.8 times the text confidence, and agreement "medium" or "low" as the
    text domain is or is not among the vision hints; otherwise, with some
    vision hint, the first hint, 0.7 times the vision confidence and
    agreement "low"; otherwise "general", 0.4 and agreement "none"; always
    with method "fallback_weighted". *)
Theorem fallback_decision_table :
  forall (va : VisionAnalysis) (ta : TextAnalysis),
    let vision_hints := get (visual_domain_hints va) [] in
    let vision_confidence := get (va_confidence va) 0.0%Q in
    let text_domain := get (primary_domain ta) "general" in
    let text_confidence := get (ta_confidence ta) 0.0%Q in
    let decision := domain_router._fallback_decision va ta in
    dec_method decision = Some "fallback_weighted"
    /\ ((0.6 < text_confidence)%Q ->
        final_domain decision = Some text_domain
        /\ dec_confidence decision = Some (text_confidence * 0.8)%Q
        /\ (In text_domain vision_hints ->
            agreement_level decision = Some "medium")
        /\ (~ In text_domain vision_hints ->
            agreement_level decision = Some "low"))
    /\ (~ (0.6 < text_confidence)%Q ->
        forall first_hint others, vision_hints = first_hint :: others ->
        final_domain decision = Some first_hint
        /\ dec_confidence decision = Some (vision_confidence * 0.7)%Q
        /\ agreement_level decision = Some "low")
    /\ (~ (0.6 < text_confidence)%Q ->
        vision_hints = [] ->
        final_domain decision = Some "general"
        /\ dec_confidence decision = Some 0.4%Q
        /\ agreement_level decision = Some "none")
    /\ (forall (input_data : RouterInput) (w : World) (s : St) (e : exn),
        ri_vision_analysis input_data = va ->
        ri_text_analysis input_data = ta ->
        ~ (In text_domain vision_hints /\ (0.7 < text_confidence)%Q) ->
        router_chain_ainvoke w (trace s)
          (domain_router.chain_args input_data) = Raised e ->
        fst (domain_router.process input_data w s) = Returned decision).
Proof.
  intros va ta hints vc td tc decision.
  subst decision. unfold domain_router._fallback_decision.
  fold hints vc td tc.
  split; [| split; [| split; [| split]]].
  - destruct (PyNum.gtb tc 0.6%Q); [reflexivity |].
    destruct hints; reflexivity.
  - intros Hconf. apply gtb_lt in Hconf. rewrite Hconf. cbn.
    repeat split.
    + intros Hin. apply mem_In in Hin. now rewrite Hin.
    + intros Hnin. apply mem_not_In in Hnin. now rewrite Hnin.
  - intros Hconf first_hint others Hhints. apply gtb_not_lt in Hconf.
    rewrite Hconf, Hhints. cbn. auto.
  - intros Hconf Hhints. apply gtb_not_lt in Hconf.
    rewrite Hconf, Hhints. cbn. auto.
  - intros input_data w s e Hva Hta Hquick Hraise.
    rewrite (@process_falls_back input_data w s e).
    + rewrite Hva, Hta. unfold domain_router._fallback_decision.
      fold hints vc td tc. reflexivity.
    + rewrite Hva, Hta. fold hints td tc.
      destruct (PyStr.mem td hints) eqn:Hmem; [| reflexivity].
      destruct (PyNum.gtb tc 0.7%Q) eqn:Hgt; [| reflexivity].
      exfalso. apply Hquick. split; [now apply mem_In | now apply gtb_lt].
    + exact Hraise.
Qed.

(** ** Strings *)

Lemma prefix_app (needle hay : string) :
  prefix needle hay = true <-> exists rest, hay = needle ++ rest.
Proof.
  revert hay. induction needle as [| c needle IH]; intros hay; cbn.
  - split; [intros _; now exists hay | intros _; now destruct hay].
  - destruct hay as [| c' hay].
    + split; [discriminate | intros (rest & Hrest); discriminate].
    + cbn. destruct (Ascii.ascii_dec c c') as [-> | Hne].
      * rewrite IH. split; intros (rest & Hrest); exists rest.
        -- now rewrite Hrest.
        -- now injection Hrest.
      * split; [discriminate |].
        intros (rest & Hrest). injection Hrest as Hc _. congruence.
Qed.

Lemma contains_nil (needle : string) :
  PyStr.contains needle "" = prefix needle "".
Proof. cbv [PyStr.contains]. now destruct (prefix needle ""). Qed.

Lemma contains_cons (needle : string) (c : ascii) (hay : string) :
  PyStr.contains needle (String c hay)
  = prefix needle (String c hay) || PyStr.contains needle hay.
Proof. reflexivity. Qed.

(** [needle in hay] holds exactly when [needle] is a substring of [hay]. *)
Lemma contains_occurs (needle hay : string) :
  PyStr.contains needle hay = true <-> occurs needle hay.
Proof.
  unfold occurs. induction hay as [| c hay IH].
  - rewrite contains_nil, prefix_app. split.
    + intros (rest & Hrest). now exists "", rest.
    + intros ([| c before] & after & Heq); [now exists after | discriminate].
  - rewrite contains_cons, orb_true_iff, IH, prefix_app. split.
    + intros [(rest & Hrest) | (before & after & Heq)].
      * now exists "", rest.
      * exists (String c before), after. cbn. now rewrite Heq.
    + intros ([| c' before] & after & Heq).
      * left. now exists after.
      * right. cbn in Heq. injection Heq as _ Heq. now exists before, after.
Qed.

(** ** Sorting by decreasing key *)

Section SortedDesc.

Variable A : Type.
Variable key : A -> nat.
Variable position : A -> nat.

(** Larger key first; for equal keys, smaller position first. *)
Let before (a b : A) : Prop :=
  key b < key a \/ (key a = key b /\ position a < position b).

Lemma insert_desc_perm (x : A) (l : list A) :
  Permutation (PyList.insert_desc key x l) (x :: l).
Proof.
  induction l as [| y l IH]; cbn [PyList.insert_desc PyList.sorted_desc].
  - apply Permutation_refl.
  - destruct (key x <? key y).
    + eapply perm_trans; [apply perm_skip, IH | apply perm_swap].
    + apply Permutation_refl.
Qed.

Lemma sorted_desc_perm (l : list A) :
  Permutation (PyList.sorted_desc key l) l.
Proof.
  induction l as [| x l IH]; cbn [PyList.insert_desc PyList.sorted_desc].
  - constructor.
  - eapply perm_trans; [apply insert_desc_perm | now apply perm_skip].
Qed.

Lemma before_key (a b : A) : before a b -> key b <= key a.
Proof. unfold before. lia. Qed.

Lemma insert_desc_sorted (x : A) (l : list A) :
  StronglySorted before l ->
  Forall (fun y => position x < position y) l ->
  StronglySorted before (PyList.insert_desc key x l).
Proof.
  induction 1 as [| y l Hsorted IH Hy]; intros Hpos; cbn [PyList.insert_desc PyList.sorted_desc].
  - repeat constructor.
  - inversion Hpos as [| ? ? Hxy Hxl]; subst.
    destruct (key x <? key y) eqn:Hlt.
    + apply Nat.ltb_lt in Hlt. constructor; [now apply IH |].
      eapply Permutation_Forall;
        [apply Permutation_sym, insert_desc_perm |].
      constructor; [left; exact Hlt | exact Hy].
    + apply Nat.ltb_ge in Hlt. constructor.
      * now constructor.
      * constructor.
        -- unfold before. lia.
        -- rewrite Forall_forall in *. intros z Hz.
           specialize (Hy z Hz). apply before_key in Hy.
           specialize (Hxl z Hz). unfold before. lia.
Qed.

(** The sort is stable: on a list given by increasing positions, the
    result is ordered by decreasing key and, among equal keys, by
    increasing position. *)
Lemma sorted_desc_sorted (l : list A) :
  StronglySorted (fun a b => position a < position b) l ->
  StronglySorted before (PyList.sorted_desc key l).
Proof.
  induction 1 as [| x l Hsorted IH Hx]; cbn [PyList.insert_desc PyList.sorted_desc].
  - constructor.
  - apply insert_desc_sorted; [exact IH |].
    eapply Permutation_Forall;
      [apply Permutation_sym, sorted_desc_perm | exact Hx].
Qed.

End SortedDesc.

(** ** Lists ordered by the position of their keys in a table *)

Lemma StronglySorted_weaken {A} (R R' : A -> A -> Prop) (l : list A) :
  StronglySorted R l ->
  (forall a b, In a l -> In b l -> R a b -> R' a b) ->
  StronglySorted R' l.
Proof.
  induction 1 as [| x l Hsorted IH Hx]; intros Himpl; constructor.
  - apply IH. intros a b Ha Hb. apply Himpl; now right.
  - rewrite Forall_forall in *. intros b Hb.
    apply Himpl; [now left | now right | now apply Hx].
Qed.

Lemma StronglySorted_map {A B} (f : A -> B) (R : B -> B -> Prop)
    (l : list A) :
  StronglySorted R (map f l) ->
  StronglySorted (fun a b => R (f a) (f b)) l.
Proof.
  induction l as [| x l IH]; cbn; intros H; [constructor |].
  inversion H as [| ? ? Hsorted Hx]; subst. constructor; [now apply IH |].
  rewrite Forall_forall in *. intros b Hb. apply Hx. now apply in_map.
Qed.

Lemma StronglySorted_filter {A} (R : A -> A -> Prop) (p : A -> bool)
    (l : list A) :
  StronglySorted R l -> StronglySorted R (filter p l).
Proof.
  induction 1 as [| x l Hsorted IH Hx]; cbn; [constructor |].
  destruct (p x); [| exact IH]. constructor; [exact IH |].
  rewrite Forall_forall in *. intros b Hb. apply Hx.
  now apply filter_In in Hb.
Qed.

Lemma StronglySorted_firstn {A} (R : A -> A -> Prop) (n : nat)
    (l : list A) :
  StronglySorted R l -> StronglySorted R (firstn n l).
Proof.
  intros H. revert n. induction H as [| x l Hsorted IH Hx]; intros [| n];
    cbn; try constructor.
  - apply IH.
  - rewrite Forall_forall in *. intros b Hb. apply Hx.
    rewrite <- (firstn_skipn n l). apply in_or_app. now left.
Qed.

Lemma In_firstn {A} (n : nat) (l : list A) (x : A) :
  In x (firstn n l) -> In x l.
Proof.
  intros Hin. rewrite <- (firstn_skipn n l). apply in_or_app. now left.
Qed.

Lemma index_of_head {V} (k : string) (v : V) (items : list (string * V)) :
  PyList.index_of k ((k, v) :: items) = 0.
Proof. cbn. now rewrite String.eqb_refl. Qed.

Lemma index_of_tail {V} (k k' : string) (v : V)
    (items : list (string * V)) :
  k <> k' ->
  PyList.index_of k ((k', v) :: items) = S (PyList.index_of k items).
Proof.
  intros Hne. cbn. apply String.eqb_neq in Hne. now rewrite Hne.
Qed.

(** The keys of a dict come in the order of their positions. *)
Lemma keys_sorted {V} (items : list (string * V)) :
  NoDup (map fst items) ->
  StronglySorted
    (fun a b => PyList.index_of a items < PyList.index_of b items)
    (map fst items).
Proof.
  induction items as [| [k v] items IH]; cbn [map fst]; intros Hnd.
  - constructor.
  - inversion Hnd as [| ? ? Hk Hnd']; subst. constructor.
    + apply StronglySorted_weaken with (1 := IH Hnd').
      intros a b Ha Hb Hlt.
      rewrite !index_of_tail; [lia | |]; intros ->; contradiction.
    + rewrite Forall_forall. intros b Hb.
      rewrite index_of_head, index_of_tail; [lia |].
      intros ->. contradiction.
Qed.

Lemma lookup_keys {V} (k : string) (items : list (string * V)) :
  In k (map fst items) ->
  exists v, PyList.lookup k items = Some v /\ In (k, v) items.
Proof.
  induction items as [| [k' v'] items IH]; cbn; [contradiction |].
  intros Hin. destruct (String.eqb k k') eqn:Heq.
  - apply String.eqb_eq in Heq. subst. exists v'. auto.
  - destruct Hin as [-> | Hin]; [now rewrite String.eqb_refl in Heq |].
    destruct (IH Hin) as (v & Hv & Hin'). exists v. auto.
Qed.

Lemma list_sum_ones {A} (l : list A) :
  list_sum (map (fun _ => 1) l) = List.length l.
Proof.
  induction l as [| x l IH]; [reflexivity |].
  cbn. f_equal. exact IH.
Qed.

Lemma list_sum_perm (l l' : list nat) :
  Permutation l l' -> list_sum l = list_sum l'.
Proof. unfold list_sum. induction 1; cbn; lia. Qed.

(** ** The catalog and the tables of Classifier A *)

Ltac distinct_strings :=
  repeat (constructor;
          [ cbn; intros H;
            repeat (destruct H as [H | H]; [discriminate H |]); exact H | ]);
  constructor.

Lemma catalog_keys_distinct : NoDup (map fst settings.DOMAIN_KEYWORDS).
Proof. cbn. distinct_strings. Qed.

Lemma domains_map_keys_distinct :
  NoDup (map fst vision_analysis.domains_map).
Proof. cbn. distinct_strings. Qed.

Lemma declared_domains_are :
  declared_domains
  = ["finance"; "law"; "science"; "technology"; "healthcare"; "education";
     "business"; "engineering"; "arts"; "general"].
Proof. reflexivity. Qed.

(** ** Classifier B: the keyword fallback *)

Lemma keyword_score_length (text_lower : string) (keywords : list string) :
  text_classification.keyword_score text_lower keywords
  = List.length
      (filter (fun keyword => PyStr.contains (PyStr.lower keyword) text_lower)
         keywords).
Proof. apply list_sum_ones. Qed.

Lemma domain_scores_keys catalog text_lower :
  map fst (text_classification.domain_scores catalog text_lower)
  = map fst catalog.
Proof.
  unfold text_classification.domain_scores. rewrite map_map.
  apply map_ext. reflexivity.
Qed.

Lemma sorted_domains_perm catalog text_lower :
  Permutation (text_classification.sorted_domains catalog text_lower)
    (text_classification.domain_scores catalog text_lower).
Proof. apply sorted_desc_perm. Qed.

Lemma sorted_domains_ranked catalog text_lower :
  NoDup (map fst catalog) ->
  StronglySorted (ranks_before catalog)
    (text_classification.sorted_domains catalog text_lower).
Proof.
  intros Hnd. unfold text_classification.sorted_domains, ranks_before.
  apply sorted_desc_sorted
    with (position := fun a => PyList.index_of (fst a) catalog).
  apply StronglySorted_map with (f := fst)
    (R := fun a b => PyList.index_of a catalog < PyList.index_of b catalog).
  rewrite domain_scores_keys. now apply keys_sorted.
Qed.

(** The claim C3 as the specification words it does not hold: a keyword
    that occurs twice counts once. *)
Lemma score_counts_a_keyword_once :
  PyList.lookup "finance"
    (text_classification.domain_scores settings.DOMAIN_KEYWORDS
       (PyStr.lower "stock stock")) = Some 1
  /\ option_map (spec_occurrence_score "stock stock")
       (PyList.lookup "finance" settings.DOMAIN_KEYWORDS) = Some 2.
Proof. split; vm_compute; reflexivity. Qed.

(** C3, amended. In the keyword fallback the score of a domain is the
    number of entries of its keyword list whose lower-cased form occurs in
    the lower-cased text, each entry counting once however often it occurs;
    the ranking holds the same scores, by decreasing score, and for equal
    scores in the order in which the catalog declares the domains. *)
Theorem keyword_scores_and_ranking :
  forall text : string,
    let text_lower := PyStr.lower text in
    let scores :=
      text_classification.domain_scores settings.DOMAIN_KEYWORDS text_lower in
    let ranking :=
      text_classification.sorted_domains settings.DOMAIN_KEYWORDS text_lower in
    (exists matches : string -> bool,
        (forall keyword,
            matches keyword = true <-> occurs (PyStr.lower keyword) text_lower)
        /\ scores
           = map (fun entry =>
                    (fst entry, List.length (filter matches (snd entry))))
               settings.DOMAIN_KEYWORDS)
    /\ Permutation ranking scores
    /\ StronglySorted (ranks_before settings.DOMAIN_KEYWORDS) ranking.
Proof.
  intros text text_lower scores ranking. split; [| split].
  - exists (fun keyword => PyStr.contains (PyStr.lower keyword) text_lower).
    split.
    + intros keyword. apply contains_occurs.
    + subst scores. unfold text_classification.domain_scores.
      apply map_ext. intros entry. now rewrite keyword_score_length.
  - apply sorted_domains_perm.
  - apply sorted_domains_ranked, catalog_keys_distinct.
Qed.

Lemma sorted_domains_keys catalog text_lower domain score :
  In (domain, score) (text_classification.sorted_domains catalog text_lower) ->
  In domain (map fst catalog).
Proof.
  intros Hin. rewrite <- (domain_scores_keys catalog text_lower).
  apply (Permutation_in _ (sorted_domains_perm catalog text_lower)) in Hin.
  now apply (in_map fst) in Hin.
Qed.

Lemma sorted_domains_total catalog text_lower :
  list_sum (map snd (text_classification.sorted_domains catalog text_lower))
  = list_sum (map snd (text_classification.domain_scores catalog text_lower)).
Proof.
  apply list_sum_perm, Permutation_map, sorted_domains_perm.
Qed.

Lemma sorted_domains_length catalog text_lower :
  List.length (text_classification.sorted_domains catalog text_lower)
  = List.length catalog.
Proof.
  rewrite (Permutation_length (sorted_domains_perm catalog text_lower)).
  unfold text_classification.domain_scores. apply length_map.
Qed.

(** The result of the keyword fallback on a catalog with distinct keys, in
    terms of the ranking. *)
Lemma keyword_fallback_on_ranking catalog text filename top top_score others :
  text_classification.sorted_domains catalog (PyStr.lower text)
  = (top, top_score) :: others ->
  let text_lower := PyStr.lower text in
  (top_score = 0 ->
   text_classification._keyword_based_classification catalog text filename
   = Returned text_classification.no_matches)
  /\ (top_score <> 0 ->
      exists top_keywords,
        PyList.lookup top catalog = Some top_keywords
        /\ In (top, top_keywords) catalog
        /\ text_classification._keyword_based_classification catalog text
             filename
           = Returned
               {| primary_domain := Some top;
                  ta_confidence :=
                    Some (PyNum.min
                            (PyNum.of_nat top_score
                             / PyNum.of_nat
                                 (list_sum
                                    (map snd
                                       (text_classification.domain_scores
                                          catalog text_lower))))%Q
                            0.85%Q);
                  ta_reasoning :=
                    Some [Lit "Found "; Int top_score;
                          Lit " domain-specific keywords"];
                  keywords :=
                    Some (firstn 10
                            (filter
                               (fun keyword =>
                                  PyStr.contains (PyStr.lower keyword)
                                    text_lower)
                               top_keywords));
                  alternative_domains := Some (map fst (firstn 2 others));
                  ta_method := Some "keyword_fallback";
                  ta_error := None |}).
Proof.
  intros Hranking text_lower.
  unfold text_classification._keyword_based_classification.
  cbv zeta. fold text_lower. rewrite <- sorted_domains_total.
  fold text_lower in Hranking. rewrite Hranking. split.
  - intros ->. reflexivity.
  - intros Hpos.
    destruct (top_score =? 0) eqn:Hzero;
      [apply Nat.eqb_eq in Hzero; contradiction |].
    assert (Hin : In top (map fst catalog)).
    { apply sorted_domains_keys with (text_lower := text_lower)
        (score := top_score).
      rewrite Hranking. now left. }
    destruct (lookup_keys _ _ Hin) as (top_keywords & Hlookup & Hentry).
    exists top_keywords. rewrite Hlookup.
    split; [reflexivity | split; [exact Hentry |]].
    assert (Htotal : (0 <? list_sum (map snd ((top, top_score) :: others)))
                     = true).
    { apply Nat.ltb_lt. cbn. lia. }
    rewrite Htotal. reflexivity.
Qed.

(** The keywords the fallback reports are entries of the list that occur
    in the text, and at most ten. *)
Lemma matched_keywords_occur (text_lower : string) (entries : list string) :
  let matched :=
    firstn 10
      (filter (fun keyword => PyStr.contains (PyStr.lower keyword) text_lower)
         entries) in
  List.length matched <= 10
  /\ forall keyword,
       In keyword matched ->
       In keyword entries /\ occurs (PyStr.lower keyword) text_lower.
Proof.
  intros matched. split; [apply firstn_le_length |].
  intros keyword Hin. apply In_firstn in Hin. apply filter_In in Hin.
  destruct Hin as [Hin Hocc]. split; [exact Hin | now apply contains_occurs].
Qed.

(** C4. The record the keyword fallback returns: with a top score of 0,
    "general" with confidence 0.3, no keyword and no alternative; otherwise
    the top-ranked domain, the confidence min(top score / sum of all
    scores, 0.85), the domains ranked second and third as alternatives, and
    as keywords the first ten entries of the winning domain's list that
    occur in the text (lower-cased, as in the scoring), in the order of the
    list; the method is "keyword_fallback" in both cases. *)
Theorem keyword_fallback_result :
  forall (text : string) (filename : option string),
    let text_lower := PyStr.lower text in
    let scores :=
      text_classification.domain_scores settings.DOMAIN_KEYWORDS text_lower in
    exists (top : string) (top_score : nat) (second third : string * nat)
           (others : list (string * nat)),
      text_classification.sorted_domains settings.DOMAIN_KEYWORDS text_lower
      = (top, top_score) :: second :: third :: others
      /\ (top_score = 0 ->
          text_classification._keyword_based_classification
            settings.DOMAIN_KEYWORDS text filename
          = Returned
              {| primary_domain := Some "general";
                 ta_confidence := Some 0.3%Q;
                 ta_reasoning := Some [Lit "No domain-specific keywords found"];
                 keywords := Some [];
                 alternative_domains := Some [];
                 ta_method := Some "keyword_fallback";
                 ta_error := None |})
      /\ (top_score <> 0 ->
          exists top_keywords matched : list string,
            In (top, top_keywords) settings.DOMAIN_KEYWORDS
            /\ matched
               = firstn 10
                   (filter
                      (fun keyword =>
                         PyStr.contains (PyStr.lower keyword) text_lower)
                      top_keywords)
            /\ List.length matched <= 10
            /\ (forall keyword,
                   In keyword matched ->
                   In keyword top_keywords
                   /\ occurs (PyStr.lower keyword) text_lower)
            /\ text_classification._keyword_based_classification
                 settings.DOMAIN_KEYWORDS text filename
               = Returned
                   {| primary_domain := Some top;
                      ta_confidence :=
                        Some (PyNum.min
                                (PyNum.of_nat top_score
                                 / PyNum.of_nat (list_sum (map snd scores)))%Q
                                0.85%Q);
                      ta_reasoning :=
                        Some [Lit "Found "; Int top_score;
                              Lit " domain-specific keywords"];
                      keywords := Some matched;
                      alternative_domains := Some [fst second; fst third];
                      ta_method := Some "keyword_fallback";
                      ta_error := None |}).
Proof.
  intros text filename text_lower scores.
  pose proof (sorted_domains_length settings.DOMAIN_KEYWORDS text_lower)
    as Hlen.
  destruct (text_classification.sorted_domains settings.DOMAIN_KEYWORDS
              text_lower)
    as [| [top top_score] [| second [| third others]]] eqn:Hranking;
    try discriminate Hlen.
  exists top, top_score, second, third, others.
  split; [reflexivity |].
  destruct (keyword_fallback_on_ranking settings.DOMAIN_KEYWORDS text
              filename Hranking) as [Hzero Hpos].
  split.
  - intros Htop. now rewrite (Hzero Htop).
  - intros Htop. destruct (Hpos Htop) as (top_keywords & _ & Hin & Hresult).
    exists top_keywords. eexists.
    split; [exact Hin | split; [reflexivity |]].
    destruct (matched_keywords_occur text_lower top_keywords)
      as [Hten Hoccur].
    split; [exact Hten | split; [exact Hoccur | exact Hresult]].
Qed.

Lemma keyword_fallback_result_witness :
  (exists record,
      text_classification._keyword_based_classification
        settings.DOMAIN_KEYWORDS "the patient was given a clinical diagnosis"
        None = Returned record
      /\ primary_domain record = Some "healthcare"
      /\ keywords record = Some ["patient"; "diagnosis"; "clinical"])
  /\ (exists record,
         text_classification._keyword_based_classification
           settings.DOMAIN_KEYWORDS "lorem ipsum" None = Returned record
         /\ primary_domain record = Some "general"
         /\ ta_confidence record = Some 0.3%Q).
Proof.
  split.
  - destruct (keyword_fallback_result
                "the patient was given a clinical diagnosis" None)
      as (top & top_score & second & third & others & Hranking & _ & Hpos).
    vm_compute in Hranking. injection Hranking as <- <- <- <- <-.
    destruct Hpos as (top_keywords & matched & Hin & -> & _ & _ & Hresult);
      [discriminate |].
    rewrite Hresult. eexists. split; [reflexivity |].
    split; [reflexivity |].
    cbn in Hin.
    repeat (destruct Hin as [Hin | Hin];
            [try discriminate Hin | try contradiction]).
    injection Hin as <-. vm_compute. reflexivity.
  - destruct (keyword_fallback_result "lorem ipsum" None)
      as (top & top_score & second & third & others & Hranking & Hzero & _).
    vm_compute in Hranking. injection Hranking as <- <- <- <- <-.
    rewrite (Hzero eq_refl). eexists. repeat split.
Defined.

Lemma quick_agreement_short_circuit_witness :
  exists decision : Decision,
    domain_router.process (router_input sample_vision sample_text) offline
      fresh = (Returned decision, fresh)
    /\ final_domain decision = Some "finance"
    /\ dec_confidence decision = Some ((0.85 + 0.5) / 2)%Q
    /\ agreement_level decision = Some "high"
    /\ dec_method decision = Some "quick_agreement".
Proof.
  apply (quick_agreement_short_circuit
           (router_input sample_vision sample_text) offline fresh).
  - cbn. auto.
  - reflexivity.
Defined.

Lemma fallback_decision_table_witness :
  (final_domain (domain_router._fallback_decision degraded_vision sample_text)
   = Some "finance"
   /\ agreement_level
        (domain_router._fallback_decision degraded_vision sample_text)
      = Some "low")
  /\ agreement_level
       (domain_router._fallback_decision sample_vision sample_text)
     = Some "medium"
  /\ final_domain (domain_router._fallback_decision sample_vision unsure_text)
     = Some "finance"
  /\ final_domain
       (domain_router._fallback_decision degraded_vision unsure_text)
     = Some "general"
  /\ fst (domain_router.process (router_input degraded_vision sample_text)
            offline fresh)
     = Returned (domain_router._fallback_decision degraded_vision sample_text).
Proof.
  destruct (fallback_decision_table degraded_vision sample_text)
    as (_ & Htext & _ & _ & Hprocess).
  destruct (fallback_decision_table sample_vision sample_text)
    as (_ & Hagree & _).
  destruct (fallback_decision_table sample_vision unsure_text)
    as (_ & _ & Hvision & _).
  destruct (fallback_decision_table degraded_vision unsure_text)
    as (_ & _ & _ & Hgeneral & _).
  assert (Hhigh : (0.6 < 0.85)%Q) by reflexivity.
  assert (Hlow : ~ (0.6 < 0.3)%Q) by (intros H; discriminate H).
  split; [split | split; [| split; [| split]]].
  - now apply Htext.
  - apply Htext; [exact Hhigh |]. cbn. tauto.
  - apply Hagree; [exact Hhigh |]. cbn. auto.
  - now apply (Hvision Hlow "finance" ["law"]).
  - now apply Hgeneral.
  - apply Hprocess with (e := Exception "BackendError" "arbiter down");
      try reflexivity.
    cbn. tauto.
Defined.

(** ** Classifier A: [VisionAnalysisAgent] *)

Lemma detect_domain_hints_spec (response_lower domain : string) :
  In domain (vision_analysis.detect_domain_hints response_lower)
  <-> exists words,
        In (domain, words) vision_analysis.domains_map
        /\ exists word, In word words /\ occurs word response_lower.
Proof.
  unfold vision_analysis.detect_domain_hints, PyStr.any_in.
  rewrite in_map_iff. split.
  - intros ([d words] & Hd & Hin). cbn in Hd. subst d.
    apply filter_In in Hin. destruct Hin as [Hin Hany].
    cbn [snd] in Hany. apply existsb_exists in Hany.
    destruct Hany as (word & Hword & Hocc).
    exists words. split; [exact Hin |]. exists word.
    split; [exact Hword | now apply contains_occurs].
  - intros (words & Hin & word & Hword & Hocc).
    exists (domain, words). split; [reflexivity |].
    apply filter_In. split; [exact Hin |].
    cbn [snd]. apply existsb_exists. exists word.
    split; [exact Hword | now apply contains_occurs].
Qed.

Lemma detect_domain_hints_sorted (response_lower : string) :
  StronglySorted (enumerated_before vision_analysis.domains_map)
    (vision_analysis.detect_domain_hints response_lower).
Proof.
  unfold vision_analysis.detect_domain_hints, enumerated_before.
  pose proof (keys_sorted vision_analysis.domains_map
                domains_map_keys_distinct) as Hkeys.
  apply StronglySorted_map in Hkeys.
  apply (StronglySorted_filter
           (fun entry => PyStr.any_in (snd entry) response_lower)) in Hkeys.
  remember (filter _ vision_analysis.domains_map) as hits eqn:Hhits.
  clear Hhits. induction Hkeys as [| x l Hl IH Hx]; cbn; constructor.
  - exact IH.
  - rewrite Forall_forall in *. intros b Hb.
    apply in_map_iff in Hb. destruct Hb as (y & <- & Hy). now apply Hx.
Qed.

Lemma detect_domain_hints_length (response_lower : string) :
  List.length (vision_analysis.detect_domain_hints response_lower) <= 8.
Proof.
  unfold vision_analysis.detect_domain_hints. rewrite length_map.
  apply (filter_length_le _ vision_analysis.domains_map).
Qed.

(** The claim C9 read on the record does not hold: with four domains
    detected the record keeps three hints and has confidence 1.0, not
    0.25 x 3. *)
Lemma confidence_counts_every_detected_domain :
  let record :=
    vision_analysis._parse_vision_response
      "financial legal research software" in
  visual_domain_hints record = Some ["finance"; "law"; "science"]
  /\ exists confidence,
       va_confidence record = Some confidence
       /\ (confidence == 1)%Q
       /\ ~ (confidence == PyNum.min (PyNum.of_nat 3 * 0.25) 1.0)%Q.
Proof.
  split; [vm_compute; reflexivity |].
  eexists. split; [vm_compute; reflexivity |].
  split; [reflexivity | intros H; discriminate H].
Qed.

(** C9, amended. Without a preview image Classifier A returns at once, with
    no external call, the placeholder of confidence 0.0 and no domain hint.
    For every response text, the domains detected are those of the table
    of 8 one of whose trigger words occurs in the lower-cased response; the
    record holds the first three of them in the order of the table, and its
    confidence is min(0.25 x the number of all detected domains, 1.0),
    where up to 8 domains, not only the three kept, are counted. *)
Theorem vision_record :
  (forall (input_data : VisionInput) (w : World) (s : St),
      vi_preview_images input_data = [] ->
      vision_analysis.process input_data w s
      = (Returned vision_analysis.no_preview, s))
  /\ visual_domain_hints vision_analysis.no_preview = Some []
  /\ va_confidence vision_analysis.no_preview = Some 0.0%Q
  /\ forall response_text : string,
       let response_lower := PyStr.lower response_text in
       let detected := vision_analysis.detect_domain_hints response_lower in
       let record := vision_analysis._parse_vision_response response_text in
       (forall domain,
           In domain detected
           <-> exists words,
                 In (domain, words) vision_analysis.domains_map
                 /\ exists word, In word words /\ occurs word response_lower)
       /\ List.length detected <= 8
       /\ (exists hints,
              visual_domain_hints record = Some hints
              /\ hints = firstn 3 detected
              /\ List.length hints <= 3
              /\ StronglySorted
                   (enumerated_before vision_analysis.domains_map) hints)
       /\ va_confidence record
          = Some (PyNum.min (PyNum.of_nat (List.length detected) * 0.25)
                    1.0)%Q.
Proof.
  split; [| split; [reflexivity | split; [reflexivity |]]].
  - intros input_data w s Hnone. unfold vision_analysis.process.
    now rewrite Hnone.
  - intros response_text response_lower detected record.
    split; [apply detect_domain_hints_spec |].
    split; [apply detect_domain_hints_length |].
    split; [| reflexivity].
    exists (firstn 3 detected). split; [reflexivity |].
    split; [reflexivity |]. split.
    + apply firstn_le_length.
    + apply StronglySorted_firstn, detect_domain_hints_sorted.
Qed.

Lemma vision_record_witness :
  vision_analysis.process
    {| vi_preview_images := []; vi_filename := Some "report.pdf";
       vi_metadata := [] |} offline fresh
  = (Returned vision_analysis.no_preview, fresh).
Proof.
  destruct vision_record as (Hnone & _).
  now apply Hnone.
Defined.

(** ** What the keyword fallback can return *)

Lemma keyword_fallback_cases catalog text filename record :
  text_classification._keyword_based_classification catalog text filename
  = Returned record ->
  record = text_classification.no_matches
  \/ exists top top_score total,
       In top (map fst catalog)
       /\ primary_domain record = Some top
       /\ ta_confidence record
          = Some (PyNum.min (PyNum.of_nat top_score / PyNum.of_nat total)%Q
                    0.85%Q).
Proof.
  intros Hrecord.
  destruct (text_classification.sorted_domains catalog (PyStr.lower text))
    as [| [top top_score] others] eqn:Hranking.
  - unfold text_classification._keyword_based_classification in Hrecord.
    cbv zeta in Hrecord. rewrite Hranking in Hrecord. discriminate Hrecord.
  - destruct (keyword_fallback_on_ranking catalog text filename Hranking)
      as [Hzero Hpos].
    destruct (Nat.eq_dec top_score 0) as [Heq | Hne].
    + left. rewrite (Hzero Heq) in Hrecord. now injection Hrecord.
    + right. destruct (Hpos Hne) as (top_keywords & _ & Hin & Hresult).
      rewrite Hresult in Hrecord. injection Hrecord as <-.
      exists top, top_score. eexists.
      split; [| split; reflexivity].
      apply (in_map fst) in Hin. exact Hin.
Qed.

(** ** What the agents return and emit *)

Section Summaries.

Variable w : World.
Variable E : event -> Prop.
Hypothesis admits : admits_calls E.

Ltac admitted_event := apply admits; reflexivity.

Ltac external_call :=
  first [ apply hoare_call with (Q := fun _ => True);
          [admitted_event | auto]
        | apply hoare_call_raising with (Q := fun _ => True);
          [admitted_event | auto] ].

Lemma vision_process_summary (input_data : VisionInput) :
  hoare w E (vision_analysis.process input_data)
    vision_node_outcome.
Proof.
  unfold vision_analysis.process.
  destruct (vi_preview_images input_data) as [| first_page others].
  - apply hoare_ret. constructor.
  - unfold vision_analysis._analyze_image. apply hoare_catch.
    + eapply hoare_bind; [external_call |].
      intros analysis_text _. apply hoare_ret. constructor.
    + intros e. apply hoare_ret. constructor.
Qed.

Lemma keyword_fallback_summary text filename :
  hoare w E
    (text_classification.lift
       (text_classification._keyword_based_classification
          settings.DOMAIN_KEYWORDS text filename))
    (text_node_outcome w).
Proof.
  apply hoare_lift. intros record Hrecord.
  now apply text_keyword_fallback with (text := text) (filename := filename).
Qed.

Lemma text_process_summary (input_data : TextInput) :
  hoare w E (text_classification.process input_data)
    (text_node_outcome w).
Proof.
  unfold text_classification.process.
  destruct (_ || _).
  - apply keyword_fallback_summary.
  - apply hoare_catch; [| intros e; apply keyword_fallback_summary].
    unfold text_classification._llm_classification.
    apply hoare_catch; [| intros e; apply hoare_raise].
    eapply hoare_bind.
    + apply hoare_call_raising
        with (Q := fun answer =>
                     exists h,
                       text_chain_ainvoke w h
                         (PyStr.take (8 * 1000) (ti_text_content input_data))
                         (ti_filename input_data) = Returned answer).
      * admitted_event.
      * intros h answer Hanswer. now exists h.
    + intros answer (h & Hanswer). apply hoare_ret.
      now apply text_llm with (h := h) (text := PyStr.take (8 * 1000)
                                                 (ti_text_content input_data))
                              (filename := ti_filename input_data).
Qed.

Lemma router_process_summary (input_data : RouterInput) :
  hoare w E (domain_router.process input_data)
    (router_process_outcome w (ri_vision_analysis input_data)
       (ri_text_analysis input_data)).
Proof.
  unfold domain_router.process.
  destruct (_ && _) eqn:Hquick.
  - apply andb_prop in Hquick. destruct Hquick as [Hmem Hgt].
    apply hoare_ret. constructor; [now apply mem_In | now apply gtb_lt].
  - apply hoare_catch.
    + eapply hoare_bind.
      * apply hoare_call_raising
          with (Q := fun answer =>
                       exists h,
                         router_chain_ainvoke w h
                           (domain_router.chain_args input_data)
                         = Returned answer).
        -- admitted_event.
        -- intros h answer Hanswer. now exists h.
      * intros answer (h & Hanswer). apply hoare_ret.
        now apply router_arbitrated
          with (h := h) (args := domain_router.chain_args input_data).
    + intros e. apply hoare_ret. constructor.
Qed.

Lemma intake_process_events (input_data : IntakeInput) :
  hoare w E (document_intake.process input_data) (fun _ => True).
Proof.
  unfold document_intake.process.
  destruct (String.eqb _ _); [apply hoare_raise |].
  eapply hoare_bind; [external_call |]. intros found _.
  destruct (negb found); [apply hoare_raise |].
  eapply hoare_bind; [external_call |]. intros metadata _.
  eapply hoare_bind; [external_call |]. intros text_content _.
  eapply hoare_bind; [external_call |]. intros preview_images _.
  now apply hoare_ret.
Qed.

Lemma organization_process_events (input_data : OrganizationInput) :
  hoare w E (file_organization.process input_data)
    (fun _ => True).
Proof.
  unfold file_organization.process.
  destruct (_ || _); [apply hoare_raise |].
  eapply hoare_bind; [external_call |]. intros found _.
  destruct (negb found); [apply hoare_raise |].
  eapply hoare_bind; [external_call |]. intros folder_result _.
  destruct (negb _); [now apply hoare_ret |].
  eapply hoare_bind.
  - destruct (String.eqb _ _); external_call.
  - intros reply _. destruct (get _ _); now apply hoare_ret.
Qed.

(** ** What the nodes return and emit *)

Lemma intake_node_summary state :
  hoare w E (graph._intake_node state) writes_no_result.
Proof.
  unfold graph._intake_node. apply hoare_catch.
  - eapply hoare_bind;
      [apply hoare_item with (Q := fun _ => True); now destruct (s_file_path state) |].
    intros file_path _.
    eapply hoare_bind.
    + apply hoare_execute; [intros n; admitted_event | apply intake_process_events].
    + intros envelope _. destruct (ar_success envelope).
      * eapply hoare_bind;
          [apply hoare_item with (Q := fun _ => True);
           now destruct (ar_result envelope) |].
        intros data _.
        eapply hoare_bind;
          [apply hoare_item with (Q := fun _ => True);
           now destruct (s_filename state) |].
        intros filename _. apply hoare_ret. repeat split.
      * apply hoare_ret. repeat split.
  - intros e. apply hoare_ret. repeat split.
Qed.

Lemma vision_node_summary state :
  hoare w E (graph._vision_node state)
    (node_summary w graph.n_vision_analysis state).
Proof.
  unfold graph._vision_node. apply hoare_catch.
  - eapply hoare_bind.
    + apply hoare_execute; [intros n; admitted_event | apply vision_process_summary].
    + intros envelope [Hresult _]. destruct (ar_success envelope).
      * eapply hoare_bind; [apply hoare_item; exact Hresult |].
        intros analysis Hanalysis. apply hoare_ret.
        exists analysis. eexists. split; [reflexivity | exact Hanalysis].
      * apply hoare_ret. eexists. eexists.
        split; [reflexivity | constructor].
  - intros e. apply hoare_ret. eexists. eexists.
    split; [reflexivity | constructor].
Qed.

Lemma text_node_summary state :
  hoare w E (graph._text_node state)
    (node_summary w graph.n_text_classification state).
Proof.
  unfold graph._text_node. apply hoare_catch.
  - eapply hoare_bind.
    + apply hoare_execute; [intros n; admitted_event | apply text_process_summary].
    + intros envelope [Hresult _]. destruct (ar_success envelope).
      * eapply hoare_bind; [apply hoare_item; exact Hresult |].
        intros analysis Hanalysis. apply hoare_ret.
        exists analysis. eexists. split; [reflexivity | exact Hanalysis].
      * apply hoare_ret. eexists. eexists.
        split; [reflexivity | constructor].
  - intros e. apply hoare_ret. eexists. eexists.
    split; [reflexivity | constructor].
Qed.

(** The guard of [_router_node]: past it, both results are set. *)
Lemma router_guard state :
  negb (vision_truthy (get (s_vision_analysis state) empty_vision))
  || negb (text_truthy (get (s_text_analysis state) empty_text)) = false ->
  exists v t,
    s_vision_analysis state = Some v /\ s_text_analysis state = Some t
    /\ vision_truthy v = true /\ text_truthy t = true.
Proof.
  intros Hguard. apply orb_false_elim in Hguard.
  destruct Hguard as [Hv Ht].
  apply negb_false_iff in Hv. apply negb_false_iff in Ht.
  destruct (s_vision_analysis state) as [v |]; [| discriminate Hv].
  destruct (s_text_analysis state) as [t |]; [| discriminate Ht].
  exists v, t. auto.
Qed.

Lemma router_node_summary state :
  (forall n v t,
      s_vision_analysis state = Some v -> s_text_analysis state = Some t ->
      vision_truthy v = true -> text_truthy t = true ->
      E (Execute DomainRouterAgent n
           (RouterIn {| ri_filename := s_filename state;
                        ri_vision_analysis := v;
                        ri_text_analysis := t;
                        ri_metadata := get (s_metadata state) [] |}))) ->
  hoare w E (graph._router_node state)
    (node_summary w graph.n_domain_router state).
Proof.
  intros Hstart. unfold graph._router_node.
  destruct (_ || _) eqn:Hguard.
  - apply hoare_ret. now left.
  - destruct (router_guard state Hguard) as (v & t & Hv & Ht & Hvt & Htt).
    rewrite Hv, Ht. cbn [get]. apply hoare_catch.
    + eapply hoare_bind.
      * apply hoare_execute;
          [intros n; now apply Hstart | apply router_process_summary].
      * intros envelope [Hresult _]. cbn in Hresult.
        destruct (ar_success envelope).
        -- eapply hoare_bind; [apply hoare_item; exact Hresult |].
           intros decision Hdecision.
           destruct (dec_confidence decision) as [confidence |] eqn:Hconf;
             [| apply hoare_raise].
           apply hoare_ret. right.
           exists v, t, decision. do 3 eexists.
           split; [exact Hv | split; [exact Ht | split; [reflexivity |]]].
           now constructor.
        -- apply hoare_ret. right.
           exists v, t. do 4 eexists.
           split; [exact Hv | split; [exact Ht | split; [reflexivity |]]].
           apply router_agent_failed.
    + intros e. apply hoare_ret. right.
      exists v, t. do 4 eexists.
      split; [exact Hv | split; [exact Ht | split; [reflexivity |]]].
      apply router_node_failed.
Qed.

Lemma organization_node_summary state :
  hoare w E (graph._organization_node state) writes_no_result.
Proof.
  unfold graph._organization_node. apply hoare_catch.
  - eapply hoare_bind;
      [apply hoare_item with (Q := fun _ => True);
       now destruct (s_file_path state) |].
    intros file_path _.
    eapply hoare_bind;
      [apply hoare_item with (Q := fun _ => True);
       now destruct (s_filename state) |].
    intros filename _.
    eapply hoare_bind.
    + apply hoare_execute;
        [intros n; admitted_event | apply organization_process_events].
    + intros envelope _. destruct (ar_success envelope).
      * eapply hoare_bind;
          [apply hoare_item with (Q := fun _ => True);
           now destruct (ar_result envelope) |].
        intros org_result _. apply hoare_ret. repeat split.
      * apply hoare_ret. repeat split.
  - intros e. apply hoare_ret. repeat split.
Qed.

End Summaries.

(** ** The execution of the graph *)

Lemma new_events_app (s s' : St) (evs : list event) :
  trace s' = (trace s ++ evs)%list -> new_events s s' = evs.
Proof.
  intros Htrace. unfold new_events. rewrite Htrace.
  rewrite skipn_app, skipn_all, Nat.sub_diag. reflexivity.
Qed.

Lemma hoare_events {A} w E (m : M A) (Q : A -> Prop) (s : St) :
  hoare w E m Q -> Forall E (new_events s (snd (m w s))).
Proof.
  intros Hm. destruct (Hm s) as (evs & Htrace & Hevs & _).
  now rewrite (@new_events_app _ _ _ Htrace).
Qed.

Lemma hoare_result {A} w E (m : M A) (Q : A -> Prop) (s s' : St) (a : A) :
  hoare w E m Q -> m w s = (Returned a, s') -> Q a.
Proof.
  intros Hm Hrun. destruct (Hm s) as (_ & _ & _ & Hresult).
  now rewrite Hrun in Hresult.
Qed.

Section Engine.

Variable w : World.
Variable G : field_invariant.
Hypothesis kept : kept_by_nodes w G.

Lemma router_started_on_admits : admits_calls (router_started_on G).
Proof.
  intros e He. destruct e as [[] count input | | | | | | | | | |];
    try exact I; discriminate He.
Qed.

(** What a node returns and emits, on a state that satisfies the
    invariant. *)
Lemma node_summary_holds (n : graph.node) state :
  state_ok G state ->
  hoare w (router_started_on G) (graph.action n state)
    (node_summary w n state).
Proof.
  intros Hstate. pose proof router_started_on_admits as Hadmits.
  destruct n; cbn [graph.action node_summary].
  - now apply intake_node_summary.
  - now apply vision_node_summary.
  - now apply text_node_summary.
  - apply router_node_summary; [exact Hadmits |].
    intros n v t Hv Ht Hvt Htt. destruct Hstate as (Sv & St' & _).
    rewrite Hv in Sv. rewrite Ht in St'. cbn. auto.
  - now apply organization_node_summary.
  - apply hoare_ret. repeat split.
Qed.

(** Writing what a node returns keeps the invariant; the node has read
    [snapshot], and its update is written to [state]. *)
Lemma update_keeps_invariant n snapshot state update :
  state_ok G snapshot -> state_ok G state ->
  node_summary w n snapshot update ->
  state_ok G (graph.apply_update state update).
Proof.
  intros Hsnapshot Hstate Hsummary.
  destruct kept as (Hvision & Htext & Hrouter).
  assert (Hnone : writes_no_result update ->
                  state_ok G (graph.apply_update state update)).
  { intros (Hv & Ht & Hd & Hdom & Hc). unfold state_ok, graph.apply_update.
    cbn. now rewrite Hv, Ht, Hd, Hdom, Hc. }
  destruct Hstate as (Sv & St' & Sd & Sdom & Sc).
  destruct n; cbn [node_summary] in Hsummary; try now apply Hnone.
  - destruct Hsummary as (v & message & -> & Hv).
    unfold state_ok. cbn. auto 10.
  - destruct Hsummary as (t & message & -> & Ht).
    unfold state_ok. cbn. auto 10.
  - destruct Hsummary
      as [-> | (v & t & decision & domain & confidence & message
                & Hv & Ht & -> & Houtcome)].
    + apply Hnone. repeat split.
    + destruct Hsnapshot as (Hv' & Ht' & _).
      rewrite Hv in Hv'. rewrite Ht in Ht'. cbn in Hv', Ht'.
      destruct (Hrouter _ _ _ _ _ Hv' Ht' Houtcome) as (Hd & Hdom & Hc).
      unfold state_ok. cbn. auto 10.
Qed.

Lemma run_tasks_summary active state :
  state_ok G state ->
  hoare w (router_started_on G) (graph.run_tasks active state)
    (Forall (fun task => node_summary w (fst task) state (snd task))).
Proof.
  intros Hstate. induction active as [| n active IH]; cbn [graph.run_tasks].
  - apply hoare_ret. constructor.
  - eapply hoare_bind; [now apply node_summary_holds |].
    intros update Hupdate.
    eapply hoare_bind; [exact IH |].
    intros updates Hupdates. apply hoare_ret. now constructor.
Qed.

Lemma updates_keep_invariant snapshot updates :
  state_ok G snapshot ->
  Forall (fun task => node_summary w (fst task) snapshot (snd task)) updates ->
  forall state,
    state_ok G state ->
    state_ok G (fold_left graph.apply_update (map snd updates) state).
Proof.
  intros Hsnapshot. induction 1 as [| [n update] updates Hn _ IH];
    intros state Hstate; cbn; [exact Hstate |].
  apply IH. now apply update_keeps_invariant with (n := n) (snapshot := snapshot).
Qed.

Lemma superstep_invariant active state :
  state_ok G state ->
  hoare w (router_started_on G) (graph.superstep active state)
    (fun step => state_ok G (fst step)).
Proof.
  intros Hstate. unfold graph.superstep.
  eapply hoare_bind; [now apply run_tasks_summary |].
  intros updates Hupdates. apply hoare_ret. cbn [fst].
  now apply updates_keep_invariant with (snapshot := state).
Qed.

Lemma pregel_loop_invariant limit :
  forall active state,
    state_ok G state ->
    hoare w (router_started_on G) (graph.pregel_loop limit active state) (state_ok G).
Proof.
  induction limit as [| limit IH]; intros [| n active] state Hstate;
    cbn [graph.pregel_loop].
  - now apply hoare_ret.
  - apply hoare_raise.
  - now apply hoare_ret.
  - eapply hoare_bind; [now apply superstep_invariant |].
    intros [state' next] Hstate'. now apply IH.
Qed.

Lemma ainvoke_invariant file_path :
  hoare w (router_started_on G) (graph.ainvoke (graph.initial_state file_path))
    (state_ok G).
Proof.
  apply pregel_loop_invariant. repeat split.
Qed.

End Engine.

(** [process_document] always returns a result. *)
Lemma process_document_returns file_path w s :
  graph.process_document file_path w s
  = (Returned
       match fst (graph.ainvoke (graph.initial_state file_path) w s) with
       | Returned final_state => graph.pipeline_result final_state
       | Raised e => graph.pipeline_failure file_path e
       end,
     snd (graph.ainvoke (graph.initial_state file_path) w s)).
Proof.
  unfold graph.process_document, catch, bind, ret.
  now destruct (graph.ainvoke (graph.initial_state file_path) w s)
    as [[final_state | e] s'].
Qed.

(** Whatever the classifier nodes write is a dict with some key. *)
Lemma vision_outcome_truthy v : vision_node_outcome v -> vision_truthy v = true.
Proof. now destruct 1. Qed.

Lemma text_outcome_truthy w t : text_node_outcome w t -> text_truthy t = true.
Proof.
  destruct 1 as [text filename record Hrecord | |]; try reflexivity.
  destruct (keyword_fallback_cases _ _ _ Hrecord)
    as [-> | (top & _ & _ & _ & Hdomain & _)]; [reflexivity |].
  destruct record. cbn in Hdomain. now subst.
Qed.

Lemma classifier_results_kept w : kept_by_nodes w (classifier_results w).
Proof.
  split; [intros v Hv; exact Hv | split; [intros t Ht; exact Ht |]].
  intros. repeat split.
Qed.

(** ** Closed-world domain *)

Lemma general_declared : declared "general".
Proof. unfold declared, declared_domains. apply in_or_app. right. now left. Qed.

Lemma catalog_declared d :
  In d (map fst settings.DOMAIN_KEYWORDS) -> declared d.
Proof.
  intros Hin. unfold declared, declared_domains. apply in_or_app. now left.
Qed.

Lemma domains_map_declared :
  Forall declared (map fst vision_analysis.domains_map).
Proof.
  assert (Hall : forallb is_declared (map fst vision_analysis.domains_map)
                 = true) by (vm_compute; reflexivity).
  rewrite forallb_forall in Hall. rewrite Forall_forall.
  intros d Hd. apply mem_In. exact (Hall d Hd).
Qed.

Lemma parsed_hints_declared response_text :
  Forall declared
    (firstn 3
       (vision_analysis.detect_domain_hints (PyStr.lower response_text))).
Proof.
  rewrite Forall_forall. intros d Hd. apply In_firstn in Hd.
  apply detect_domain_hints_spec in Hd. destruct Hd as (words & Hin & _).
  pose proof domains_map_declared as Hall. rewrite Forall_forall in Hall.
  apply Hall. now apply (in_map fst) in Hin.
Qed.

Lemma fallback_decision_domain v t :
  exists domain,
    final_domain (domain_router._fallback_decision v t) = Some domain
    /\ (domain = get (primary_domain t) "general"
        \/ In domain (get (visual_domain_hints v) [])
        \/ domain = "general").
Proof.
  unfold domain_router._fallback_decision.
  destruct (PyNum.gtb _ _); cbn; [eauto |].
  destruct (get (visual_domain_hints v) []) as [| first_hint others]; cbn;
    eauto 6.
Qed.

Lemma domains_declared_kept w :
  llm_tags_declared w -> kept_by_nodes w domains_declared.
Proof.
  intros [Htext Harbiter]. split; [| split].
  - intros v Hv. cbn. destruct Hv; cbn; try constructor.
    apply parsed_hints_declared.
  - intros t Ht. cbn. destruct Ht as [text filename record Hrecord | |]; cbn.
    + destruct (keyword_fallback_cases _ _ _ Hrecord)
        as [-> | (top & _ & _ & Htop & Hdomain & _)].
      * apply general_declared.
      * rewrite Hdomain. now apply catalog_declared.
    + specialize (Htext _ _ _ _ H).
      destruct (primary_domain answer); [exact Htext | apply general_declared].
    + apply general_declared.
  - intros v t decision domain confidence Hv Ht Houtcome. cbn in Hv, Ht |- *.
    destruct Houtcome as [decision confidence Hprocess Hconf | e | e];
      cbn; auto using general_declared.
    destruct Hprocess as [Hin Hgt | h args answer Hanswer |].
    + cbn. auto.
    + cbn. specialize (Harbiter _ _ _ Hanswer).
      destruct (final_domain answer); cbn in *; auto using general_declared.
    + destruct (fallback_decision_domain v t) as (d & -> & Hd). cbn.
      assert (declared d); [| auto].
      destruct Hd as [-> | [Hd | ->]]; auto using general_declared.
      rewrite Forall_forall in Hv. now apply Hv.
Qed.

(** The claim C6 does not hold: a tag outside the catalog answered by the
    text classifier becomes the final domain. *)
Lemma undeclared_tag_reaches_final_domain :
  exists result s',
    graph.process_document "/inbox/ward.pdf"
      (text_only_world undeclared_tag_answer) fresh = (Returned result, s')
    /\ pr_domain result = Some "medicine"
    /\ ~ declared "medicine".
Proof.
  eexists. eexists. split; [vm_compute; reflexivity |].
  split; [reflexivity |].
  apply mem_not_In. vm_compute. reflexivity.
Qed.

(** C6, amended. The final domain of a run is one of the ten declared tags
    whenever every tag answered by the language models (the primary domain
    of the text classifier, the final domain of the arbiter) is a declared
    one. The Reconciler coerces nothing: it passes on the tag it is
    given. *)
Theorem final_domain_declared :
  forall (file_path : string) (w : World) (s : St),
    llm_tags_declared w ->
    exists (result : PipelineResult) (s' : St),
      graph.process_document file_path w s = (Returned result, s')
      /\ when_set declared (pr_domain result)
      /\ when_set (fun decision => when_set declared (final_domain decision))
           (pr_final_decision result).
Proof.
  intros file_path w s Hw. rewrite process_document_returns.
  eexists. eexists. split; [reflexivity |].
  destruct (graph.ainvoke (graph.initial_state file_path) w s)
    as [[final_state | e] s'] eqn:Hrun; cbn [fst]; [| cbn; auto].
  eapply hoare_result in Hrun;
    [| apply ainvoke_invariant, domains_declared_kept, Hw].
  destruct Hrun as (_ & _ & Hdecision & Hdomain & _).
  split; [exact Hdomain | exact Hdecision].
Qed.

Lemma final_domain_declared_witness :
  llm_tags_declared (text_only_world sound_answer)
  /\ exists (result : PipelineResult) (s' : St),
       graph.process_document "/inbox/ward.pdf"
         (text_only_world sound_answer) fresh = (Returned result, s')
       /\ when_set declared (pr_domain result)
       /\ when_set (fun decision => when_set declared (final_domain decision))
            (pr_final_decision result).
Proof.
  assert (Hw : llm_tags_declared (text_only_world sound_answer)).
  { split.
    - intros h text filename answer Hanswer. cbn in Hanswer.
      injection Hanswer as <-. cbn. apply catalog_declared. cbn. tauto.
    - intros h args answer Hanswer. discriminate Hanswer. }
  split; [exact Hw |].
  exact (final_domain_declared "/inbox/ward.pdf" fresh Hw).
Defined.

(** ** Confidence bounds *)

Ltac in_unit_interval :=
  unfold PyNum.unit_interval in *; cbn [get when_set] in *;
  repeat match goal with H : _ /\ _ |- _ => destruct H end;
  split; lra.

Lemma of_nat_nonneg (n : nat) : (0 <= PyNum.of_nat n)%Q.
Proof. unfold PyNum.of_nat, Qle. cbn. lia. Qed.

Lemma min_quarter_bounded (n : nat) :
  PyNum.unit_interval (PyNum.min (PyNum.of_nat n * 0.25) 1.0)%Q.
Proof.
  pose proof (of_nat_nonneg n) as Hn.
  destruct (min_spec (PyNum.of_nat n * 0.25) 1.0) as [[Hlt ->] | [Hle ->]];
    in_unit_interval.
Qed.

Lemma min_ratio_bounded (p t : nat) :
  PyNum.unit_interval
    (PyNum.min (PyNum.of_nat p / PyNum.of_nat t) 0.85)%Q.
Proof.
  assert (Hratio : (0 <= PyNum.of_nat p / PyNum.of_nat t)%Q).
  { apply Qmult_le_0_compat; [apply of_nat_nonneg |].
    apply Qinv_le_0_compat, of_nat_nonneg. }
  destruct (min_spec (PyNum.of_nat p / PyNum.of_nat t) 0.85)
    as [[Hlt ->] | [Hle ->]]; in_unit_interval.
Qed.

Lemma mean_bounded (a b : Q) :
  PyNum.unit_interval a -> PyNum.unit_interval b ->
  PyNum.unit_interval ((a + b) / 2)%Q.
Proof.
  intros Ha Hb. unfold Qdiv. change (/ 2)%Q with (1 # 2)%Q.
  in_unit_interval.
Qed.

Lemma fallback_decision_confidence v t :
  PyNum.unit_interval (get (va_confidence v) 0.0%Q) ->
  PyNum.unit_interval (get (ta_confidence t) 0.0%Q) ->
  exists confidence,
    dec_confidence (domain_router._fallback_decision v t) = Some confidence
    /\ PyNum.unit_interval confidence.
Proof.
  intros Hv Ht. unfold domain_router._fallback_decision.
  destruct (PyNum.gtb _ _); cbn.
  - eexists. split; [reflexivity | in_unit_interval].
  - destruct (get (visual_domain_hints v) []); cbn;
      (eexists; split; [reflexivity | in_unit_interval]).
Qed.

Lemma confidences_bounded_kept w :
  llm_confidences_bounded w -> kept_by_nodes w confidences_bounded.
Proof.
  intros [Htext Harbiter]. split; [| split].
  - intros v Hv. cbn. destruct Hv; cbn; try in_unit_interval.
    apply min_quarter_bounded.
  - intros t Ht. cbn. destruct Ht as [text filename record Hrecord | |]; cbn.
    + destruct (keyword_fallback_cases _ _ _ Hrecord)
        as [-> | (top & top_score & total & _ & _ & Hconf)].
      * cbn. in_unit_interval.
      * rewrite Hconf. apply min_ratio_bounded.
    + specialize (Htext _ _ _ _ H).
      destruct (ta_confidence answer); [exact Htext | in_unit_interval].
    + in_unit_interval.
  - intros v t decision domain confidence Hv Ht Houtcome. cbn in Hv, Ht |- *.
    destruct Houtcome as [decision confidence Hprocess Hconf | e | e];
      cbn; [| repeat split; lra ..].
    rewrite Hconf. cbn.
    assert (PyNum.unit_interval confidence); [| auto].
    destruct Hprocess as [Hin Hgt | h args answer Hanswer |].
    + cbn in Hconf. injection Hconf as <-. now apply mean_bounded.
    + cbn in Hconf. specialize (Harbiter _ _ _ Hanswer).
      now rewrite Hconf in Harbiter.
    + destruct (fallback_decision_confidence v t Hv Ht) as (c & Hc & Hunit).
      rewrite Hc in Hconf. now injection Hconf as <-.
Qed.

(** The claim C7 does not hold: a confidence above 1 answered by the text
    classifier is kept, and the confidence of the run exceeds 1. *)
Lemma llm_confidence_is_not_clamped :
  exists result s',
    graph.process_document "/inbox/ward.pdf"
      (text_only_world overconfident_answer) fresh = (Returned result, s')
    /\ exists confidence,
         pr_confidence result = Some confidence
         /\ (confidence == 1.2)%Q
         /\ ~ PyNum.unit_interval confidence.
Proof.
  eexists. eexists. split; [vm_compute; reflexivity |].
  eexists. split; [reflexivity |]. split; [reflexivity |].
  intros [_ Hle]. apply Hle. reflexivity.
Qed.

(** C7, amended. In every run the confidences of the vision result, of the
    text result, of the decision record and of the pipeline result lie in
    [0, 1] whenever every confidence answered by the language models (text
    classifier and arbiter) does. Nothing is clamped: a confidence a
    language model answers is passed on as it is. *)
Theorem confidences_in_unit_interval :
  forall (file_path : string) (w : World) (s : St),
    llm_confidences_bounded w ->
    (forall final_state s',
        graph.ainvoke (graph.initial_state file_path) w s
        = (Returned final_state, s') ->
        when_set
          (fun v => PyNum.unit_interval (get (va_confidence v) 0.0%Q))
          (s_vision_analysis final_state)
        /\ when_set
             (fun t => PyNum.unit_interval (get (ta_confidence t) 0.0%Q))
             (s_text_analysis final_state)
        /\ when_set
             (fun d => when_set PyNum.unit_interval (dec_confidence d))
             (s_final_decision final_state)
        /\ when_set PyNum.unit_interval (s_confidence final_state))
    /\ exists (result : PipelineResult) (s' : St),
         graph.process_document file_path w s = (Returned result, s')
         /\ when_set PyNum.unit_interval (pr_confidence result)
         /\ when_set
              (fun d => when_set PyNum.unit_interval (dec_confidence d))
              (pr_final_decision result).
Proof.
  intros file_path w s Hw.
  assert (Hfinal : forall final_state s',
             graph.ainvoke (graph.initial_state file_path) w s
             = (Returned final_state, s') ->
             state_ok confidences_bounded final_state).
  { intros final_state s' Hrun.
    eapply hoare_result in Hrun;
      [exact Hrun | apply ainvoke_invariant, confidences_bounded_kept, Hw]. }
  split.
  - intros final_state s' Hrun.
    destruct (Hfinal _ _ Hrun) as (Hv & Ht & Hd & _ & Hc). auto.
  - rewrite process_document_returns.
    eexists. eexists. split; [reflexivity |].
    destruct (graph.ainvoke (graph.initial_state file_path) w s)
      as [[final_state | e] s'] eqn:Hrun; cbn [fst]; [| cbn; auto].
    destruct (Hfinal _ _ eq_refl) as (_ & _ & Hd & _ & Hc).
    split; [exact Hc | exact Hd].
Qed.

Lemma confidences_in_unit_interval_witness :
  llm_confidences_bounded (text_only_world sound_answer)
  /\ exists (result : PipelineResult) (s' : St),
       graph.process_document "/inbox/ward.pdf"
         (text_only_world sound_answer) fresh = (Returned result, s')
       /\ when_set PyNum.unit_interval (pr_confidence result)
       /\ when_set
            (fun d => when_set PyNum.unit_interval (dec_confidence d))
            (pr_final_decision result).
Proof.
  assert (Hw : llm_confidences_bounded (text_only_world sound_answer)).
  { split.
    - intros h text filename answer Hanswer. cbn in Hanswer.
      injection Hanswer as <-. cbn. split; lra.
    - intros h args answer Hanswer. discriminate Hanswer. }
  split; [exact Hw |].
  exact (proj2 (confidences_in_unit_interval "/inbox/ward.pdf" fresh Hw)).
Defined.

(** ** The result of a run *)

(** A run in which the Reconciler is executed, once. *)
Lemma router_is_executed_once :
  List.length
    (filter starts_router
       (new_events fresh
          (snd (graph.process_document "/inbox/ward.pdf"
                  (text_only_world sound_answer) fresh)))) = 1.
Proof. vm_compute. reflexivity. Qed.

(** [success] tells whether the final stage is "completed"; an error string
    is reported only when the workflow itself raises, whatever the final
    state holds under "error". *)
Lemma process_document_result :
  forall (file_path : string) (w : World) (s : St),
    exists (result : PipelineResult) (s' : St),
      graph.process_document file_path w s = (Returned result, s')
      /\ match fst (graph.ainvoke (graph.initial_state file_path) w s) with
         | Returned final_state =>
             pr_success result = graph.stage_is final_state "completed"
             /\ pr_error result = None
         | Raised e =>
             pr_success result = false
             /\ pr_error result = Some (str_of_exn e)
         end.
Proof.
  intros file_path w s. rewrite process_document_returns.
  eexists. eexists. split; [reflexivity |].
  now destruct (fst (graph.ainvoke (graph.initial_state file_path) w s)).
Qed.

(** C8, as the code runs. When the file server refuses the folder, the
    filing has failed ([organization_result] says so) and yet the stage is
    "completed" and the run reports [success = True] with an empty output
    path and no error. When the document has been removed before it is
    filed, the filing raises, the final state holds the stage
    "organization_failed" and an error string, and the run reports
    [success = False] without that string. *)
Theorem fatal_error_is_not_reported :
  (exists final_state s',
      graph.ainvoke (graph.initial_state "/inbox/ward.pdf") filing_refused
        fresh = (Returned final_state, s')
      /\ option_map org_success (s_organization_result final_state)
         = Some (Some false)
      /\ option_map org_error (s_organization_result final_state)
         = Some (Some "Failed to create domain folder")
      /\ s_processing_stage final_state = Some "completed"
      /\ exists result,
           graph.process_document "/inbox/ward.pdf" filing_refused fresh
           = (Returned result, s')
           /\ pr_success result = true
           /\ pr_output_path result = Some ""
           /\ pr_error result = None)
  /\ (exists final_state s',
         graph.ainvoke (graph.initial_state "/inbox/ward.pdf")
           removed_before_filing fresh = (Returned final_state, s')
         /\ s_processing_stage final_state = Some "organization_failed"
         /\ s_error final_state = Some "File not found: /inbox/ward.pdf"
         /\ exists result,
              graph.process_document "/inbox/ward.pdf" removed_before_filing
                fresh = (Returned result, s')
              /\ pr_success result = false
              /\ pr_error result = None).
Proof.
  split.
  - eexists. eexists. split; [vm_compute; reflexivity |].
    repeat (split; [reflexivity |]).
    eexists. split; [vm_compute; reflexivity |]. repeat split.
  - eexists. eexists. split; [vm_compute; reflexivity |].
    repeat (split; [reflexivity |]).
    eexists. split; [vm_compute; reflexivity |]. repeat split.
Qed.

(** ** The run of the graph, node after node *)

Lemma bind_run {A B} (m : M A) (k : A -> M B) w s :
  bind m k w s
  = match m w s with
    | (Returned a, s') => k a w s'
    | (Raised e, s') => (Raised e, s')
    end.
Proof. reflexivity. Qed.

Lemma pregel_loop_step limit n active state w s :
  graph.pregel_loop (S limit) (n :: active) state w s
  = match graph.superstep (n :: active) state w s with
    | (Returned step, s') => graph.pregel_loop limit (snd step) (fst step) w s'
    | (Raised e, s') => (Raised e, s')
    end.
Proof. reflexivity. Qed.

Lemma pregel_loop_done limit state w s :
  graph.pregel_loop limit [] state w s = (Returned state, s).
Proof. now destruct limit. Qed.

Lemma superstep_tasks active state w s :
  graph.superstep active state w s
  = match graph.run_tasks active state w s with
    | (Returned updates, s') =>
        (Returned
           (fold_left graph.apply_update (map snd updates) state,
            graph.next_nodes state updates),
         s')
    | (Raised e, s') => (Raised e, s')
    end.
Proof. reflexivity. Qed.

Lemma run_tasks_cons n active state w s :
  graph.run_tasks (n :: active) state w s
  = match graph.action n state w s with
    | (Returned update, s1) =>
        match graph.run_tasks active state w s1 with
        | (Returned updates, s2) => (Returned ((n, update) :: updates), s2)
        | (Raised e, s2) => (Raised e, s2)
        end
    | (Raised e, s1) => (Raised e, s1)
    end.
Proof.
  cbn [graph.run_tasks]. rewrite bind_run.
  destruct (graph.action n state w s) as [[update | e] s1]; [| reflexivity].
  rewrite bind_run.
  now destruct (graph.run_tasks active state w s1) as [[updates | e] s2].
Qed.

Lemma check_intake_success_cases state :
  graph._check_intake_success state = "success"
  \/ graph._check_intake_success state = "error".
Proof.
  unfold graph._check_intake_success.
  destruct (s_error state) as [msg |]; [| now left].
  destruct (String.eqb msg ""); auto.
Qed.

Lemma next_after_intake state update :
  graph.next_nodes state [(graph.n_intake, update)]
  = if String.eqb
         (graph._check_intake_success (graph.apply_update state update))
         "error"
    then [graph.n_vision_analysis; graph.n_text_classification;
          graph.n_error_handler]
    else [graph.n_vision_analysis; graph.n_text_classification].
Proof.
  unfold graph.next_nodes, graph.triggered_by.
  cbn [flat_map fst snd graph.conditional_edges graph.node_eqb app].
  destruct (check_intake_success_cases (graph.apply_update state update))
    as [-> | ->]; reflexivity.
Qed.

Lemma run_tasks_nil state w s :
  graph.run_tasks [] state w s = (Returned [], s).
Proof. reflexivity. Qed.

Lemma next_after_classifiers state vision text :
  graph.next_nodes state
    [(graph.n_vision_analysis, vision); (graph.n_text_classification, text)]
  = [graph.n_domain_router].
Proof. reflexivity. Qed.

Lemma next_after_classifiers_and_handler state vision text handled :
  graph.next_nodes state
    [(graph.n_vision_analysis, vision); (graph.n_text_classification, text);
     (graph.n_error_handler, handled)]
  = [graph.n_domain_router].
Proof. reflexivity. Qed.

Lemma next_after_router state routed :
  graph.next_nodes state [(graph.n_domain_router, routed)]
  = [graph.n_file_organization].
Proof. reflexivity. Qed.

Lemma next_after_filing state filed :
  graph.next_nodes state [(graph.n_file_organization, filed)] = [].
Proof. reflexivity. Qed.

(** The last two supersteps: the Reconciler, then the filing. *)
Lemma route_and_file limit state w s :
  graph.pregel_loop (S (S limit)) [graph.n_domain_router] state w s
  = (routed <- graph._router_node state ;;
     filed <- graph._organization_node (graph.apply_update state routed) ;;
     ret (graph.apply_update (graph.apply_update state routed) filed)) w s.
Proof.
  rewrite pregel_loop_step, superstep_tasks, run_tasks_cons, !bind_run.
  cbn [graph.action].
  destruct (graph._router_node state w s) as [[routed | e] s1];
    [| reflexivity].
  rewrite run_tasks_nil, next_after_router. cbn [map snd fst fold_left].
  rewrite pregel_loop_step, superstep_tasks, run_tasks_cons, !bind_run.
  cbn [graph.action].
  destruct (graph._organization_node (graph.apply_update state routed) w s1)
    as [[filed | e] s2]; [| reflexivity].
  rewrite run_tasks_nil, next_after_filing. cbn [map snd fst fold_left].
  apply pregel_loop_done.
Qed.

(** The run of the graph is the intake, then the two classifiers (and the
    error handler when the intake has failed), then the Reconciler, then
    the filing. *)
Lemma ainvoke_straight_line state0 w s :
  graph.ainvoke state0 w s = straight_line state0 w s.
Proof.
  unfold graph.ainvoke, graph.recursion_limit, graph.entry_point, straight_line.
  change 25 with (S (S (S (S 21)))).
  rewrite pregel_loop_step, superstep_tasks, run_tasks_cons, bind_run.
  cbn [graph.action].
  destruct (graph._intake_node state0 w s) as [[intake | e] s1];
    [| reflexivity].
  rewrite run_tasks_nil, next_after_intake. cbn [map snd fst fold_left].
  set (state1 := graph.apply_update state0 intake).
  unfold error_branch.
  destruct (String.eqb (graph._check_intake_success state1) "error").
  - rewrite pregel_loop_step, superstep_tasks, run_tasks_cons, bind_run.
    cbn [graph.action].
    destruct (graph._vision_node state1 w s1) as [[vision | e] s2];
      [| reflexivity].
    rewrite run_tasks_cons, bind_run. cbn [graph.action].
    destruct (graph._text_node state1 w s2) as [[text | e] s3];
      [| reflexivity].
    rewrite run_tasks_cons, !bind_run. cbn [graph.action].
    destruct (graph._error_node state1 w s3) as [[handled | e] s4];
      [| reflexivity].
    rewrite run_tasks_nil, next_after_classifiers_and_handler.
    cbn [map snd fst fold_left ret]. apply route_and_file.
  - rewrite pregel_loop_step, superstep_tasks, run_tasks_cons, bind_run.
    cbn [graph.action].
    destruct (graph._vision_node state1 w s1) as [[vision | e] s2];
      [| reflexivity].
    rewrite run_tasks_cons, bind_run. cbn [graph.action].
    destruct (graph._text_node state1 w s2) as [[text | e] s3];
      [| reflexivity].
    rewrite run_tasks_nil, next_after_classifiers, bind_run.
    cbn [map snd fst fold_left ret]. apply route_and_file.
Qed.

(** ** The order of the events of a run *)

Lemma hoare_run {A} w E (m : M A) (Q : A -> Prop) (s s' : St)
    (o : outcome A) :
  hoare w E m Q -> m w s = (o, s') ->
  exists evs, trace s' = (trace s ++ evs)%list /\ Forall E evs.
Proof.
  intros Hm Hrun. destruct (Hm s) as (evs & Htrace & Hevs & _).
  rewrite Hrun in Htrace. now exists evs.
Qed.

(** A computation that emits nothing leaves the trace as it is. *)
Lemma silent_run {A} w (m : M A) (Q : A -> Prop) (s s' : St)
    (o : outcome A) :
  hoare w (fun _ => False) m Q -> m w s = (o, s') -> trace s' = trace s.
Proof.
  intros Hm Hrun. eapply hoare_run in Hrun; [| exact Hm].
  destruct Hrun as ([| e evs] & Htrace & Hevs).
  - now rewrite app_nil_r in Htrace.
  - inversion Hevs as [| ? ? Hfalse _]. contradiction.
Qed.

Lemma agent_id_eqb_refl (a : agent_id) : agent_id_eqb a a = true.
Proof. now destruct a. Qed.

Lemma joined_quiet (evs : list event) : Forall not_router evs -> joined evs.
Proof.
  intros Hquiet before e after -> Hrouter.
  rewrite Forall_forall in Hquiet.
  assert (Hnot : not_router e) by (apply Hquiet, in_elt).
  unfold not_router in Hnot. congruence.
Qed.

Lemma joined_after (evs more : list event) :
  Forall not_router evs ->
  existsb (starts VisionAnalysisAgent) evs = true ->
  existsb (starts TextClassificationAgent) evs = true ->
  joined (evs ++ more).
Proof.
  intros Hquiet Hvision Htext before e after Heq Hrouter.
  symmetry in Heq. apply app_eq_app in Heq.
  destruct Heq as (l & [[-> Hmore] | [Hevs Hmore]]).
  - rewrite !existsb_app, Hvision, Htext. auto.
  - destruct l as [| e' l].
    + rewrite app_nil_r in Hevs. subst before. auto.
    + exfalso. injection Hmore as <- _. subst evs.
      rewrite Forall_forall in Hquiet.
      assert (Hnot : not_router e) by (apply Hquiet, in_elt).
      unfold not_router in Hnot. congruence.
Qed.

Section Announced.

Variable w : World.

Lemma not_router_admits : admits_calls not_router.
Proof. intros e He. exact He. Qed.

(** A node that executes an agent other than the Reconciler and then only
    builds its update: its events are the start of the agent and the events
    of [process]. *)
Lemma node_announces {Inp Out} (self : agent_id)
    (as_input : Inp -> agent_input) (process : Inp -> M Out)
    (input_data : Inp) (build : AgentResult Out -> M DocumentState)
    (handler : exn -> M DocumentState) (s s' : St)
    (o : outcome DocumentState) :
  hoare w not_router (process input_data) (fun _ => True) ->
  (forall envelope, hoare w (fun _ => False) (build envelope) (fun _ => True)) ->
  (forall e, hoare w (fun _ => False) (handler e) (fun _ => True)) ->
  (forall n, not_router (Execute self n (as_input input_data))) ->
  (try (envelope <- base.execute self as_input process input_data ;;
        build envelope)
   except handler) w s = (o, s') ->
  exists evs,
    trace s' = (trace s ++ evs)%list
    /\ Forall not_router evs
    /\ existsb (starts self) evs = true.
Proof.
  intros Hprocess Hbuild Hhandler Hself Hrun.
  unfold catch in Hrun. rewrite bind_run, execute_runs in Hrun.
  set (s0 := started self (as_input input_data) s) in *.
  destruct (process input_data w s0) as [op s1] eqn:Hp.
  eapply hoare_run in Hp; [| exact Hprocess].
  destruct Hp as (evs & Htrace & Hquiet).
  cbn [fst snd] in Hrun.
  exists (Execute self (execution_count s self + 1) (as_input input_data)
            :: evs).
  assert (Hs1 : trace s1
                = (trace s
                   ++ Execute self (execution_count s self + 1)
                        (as_input input_data) :: evs)%list).
  { rewrite Htrace. unfold s0, started. cbn [trace].
    now rewrite <- app_assoc. }
  split; [| split].
  - rewrite <- Hs1.
    match type of Hrun with
    | (let (_, _) := build ?env w s1 in _) = _ =>
        destruct (build env w s1) as [[update | e] s2] eqn:Hb
    end.
    + injection Hrun as _ <-.
      eapply silent_run in Hb; [exact Hb | apply Hbuild].
    + eapply silent_run in Hb; [| apply Hbuild]. rewrite <- Hb.
      destruct (handler e w s2) as [oh s3] eqn:Hh.
      injection Hrun as _ <-.
      eapply silent_run in Hh; [exact Hh | apply Hhandler].
  - constructor; [apply Hself | exact Hquiet].
  - cbn [existsb starts]. now rewrite agent_id_eqb_refl.
Qed.

Lemma vision_node_announces state s s' o :
  graph._vision_node state w s = (o, s') ->
  exists evs,
    trace s' = (trace s ++ evs)%list
    /\ Forall not_router evs
    /\ existsb (starts VisionAnalysisAgent) evs = true.
Proof.
  apply node_announces.
  - eapply hoare_weaken;
      [apply vision_process_summary, not_router_admits | auto].
  - intros envelope. destruct (ar_success envelope).
    + eapply hoare_bind;
        [apply hoare_item with (Q := fun _ => True);
         now destruct (ar_result envelope) |].
      intros analysis _. now apply hoare_ret.
    + now apply hoare_ret.
  - intros e. now apply hoare_ret.
  - reflexivity.
Qed.

Lemma text_node_announces state s s' o :
  graph._text_node state w s = (o, s') ->
  exists evs,
    trace s' = (trace s ++ evs)%list
    /\ Forall not_router evs
    /\ existsb (starts TextClassificationAgent) evs = true.
Proof.
  apply node_announces.
  - eapply hoare_weaken;
      [apply text_process_summary, not_router_admits | auto].
  - intros envelope. destruct (ar_success envelope).
    + eapply hoare_bind;
        [apply hoare_item with (Q := fun _ => True);
         now destruct (ar_result envelope) |].
      intros analysis _. now apply hoare_ret.
    + now apply hoare_ret.
  - intros e. now apply hoare_ret.
  - reflexivity.
Qed.

Lemma error_branch_silent state :
  hoare w (fun _ => False) (error_branch state) (fun _ => True).
Proof.
  unfold error_branch, graph._error_node.
  destruct (String.eqb _ _); [| now apply hoare_ret].
  eapply hoare_bind; [now apply hoare_ret with (Q := fun _ => True) |].
  intros update _. now apply hoare_ret.
Qed.

Lemma node_extends_trace (n : graph.node) state s s' o :
  graph.action n state w s = (o, s') ->
  exists evs, trace s' = (trace s ++ evs)%list.
Proof.
  intros Hrun.
  assert (Hadmits : admits_calls (fun _ : event => True))
    by (intros e _; exact I).
  assert (Hn : hoare w (fun _ => True) (graph.action n state)
                 (node_summary w n state)).
  { destruct n; cbn [graph.action node_summary].
    - now apply intake_node_summary.
    - now apply vision_node_summary.
    - now apply text_node_summary.
    - apply router_node_summary; [exact Hadmits | intros; exact I].
    - now apply organization_node_summary.
    - apply hoare_ret. repeat split. }
  eapply hoare_run in Hrun; [| exact Hn].
  destruct Hrun as (evs & Htrace & _). now exists evs.
Qed.

(** In a run of the graph, the Reconciler starts after both classifiers. *)
Lemma straight_line_joined state0 s :
  joined (new_events s (snd (straight_line state0 w s))).
Proof.
  unfold straight_line. rewrite bind_run.
  destruct (graph._intake_node state0 w s) as [[intake | e] s1] eqn:Hintake;
    (eapply hoare_run in Hintake;
     [| apply intake_node_summary, not_router_admits]);
    destruct Hintake as (ev1 & Ht1 & Hq1).
  2: { cbn [snd]. rewrite (@new_events_app _ _ _ Ht1).
       now apply joined_quiet. }
  set (state1 := graph.apply_update state0 intake).
  rewrite bind_run.
  destruct (graph._vision_node state1 w s1) as [[vision | e] s2] eqn:Hvision;
    apply vision_node_announces in Hvision;
    destruct Hvision as (ev2 & Ht2 & Hq2 & Hv).
  2: { cbn [snd]. rewrite Ht1, <- app_assoc in Ht2.
       rewrite (@new_events_app _ _ _ Ht2).
       apply joined_quiet, Forall_app. auto. }
  rewrite bind_run.
  destruct (graph._text_node state1 w s2) as [[text | e] s3] eqn:Htext;
    apply text_node_announces in Htext;
    destruct Htext as (ev3 & Ht3 & Hq3 & Ht).
  2: { cbn [snd]. rewrite Ht2, Ht1, <- !app_assoc in Ht3.
       rewrite (@new_events_app _ _ _ Ht3).
       apply joined_quiet. rewrite !Forall_app. auto. }
  rewrite bind_run.
  destruct (error_branch state1 w s3) as [oh s4] eqn:Hhandled.
  eapply silent_run in Hhandled; [| apply error_branch_silent].
  assert (Hs4 : trace s4 = (trace s ++ (ev1 ++ ev2 ++ ev3))%list).
  { rewrite Hhandled, Ht3, Ht2, Ht1, <- !app_assoc. reflexivity. }
  assert (Hquiet : Forall not_router (ev1 ++ ev2 ++ ev3)).
  { rewrite !Forall_app. auto. }
  assert (Hboth :
            existsb (starts VisionAnalysisAgent) (ev1 ++ ev2 ++ ev3) = true
            /\ existsb (starts TextClassificationAgent) (ev1 ++ ev2 ++ ev3)
               = true).
  { rewrite !existsb_app, Hv, Ht, !orb_true_r. auto. }
  destruct Hboth as [Hvision Htext].
  destruct oh as [handled | e].
  2: { cbn [snd]. rewrite (@new_events_app _ _ _ Hs4). now apply joined_quiet. }
  match goal with
  | |- joined (new_events s (snd (?rest w s4))) =>
      assert (Hmore : exists more,
                 trace (snd (rest w s4)) = (trace s4 ++ more)%list)
  end.
  { rewrite bind_run.
    match goal with
    | |- context [graph._router_node ?st w s4] =>
        destruct (graph._router_node st w s4) as [[routed | e] s5] eqn:Hrouted;
        apply (node_extends_trace graph.n_domain_router) in Hrouted;
        destruct Hrouted as (ev5 & Ht5)
    end; [| now exists ev5].
    rewrite bind_run.
    match goal with
    | |- context [graph._organization_node ?st w s5] =>
        destruct (graph._organization_node st w s5)
          as [[filed | e] s6] eqn:Hfiled;
        apply (node_extends_trace graph.n_file_organization) in Hfiled;
        destruct Hfiled as (ev6 & Ht6)
    end; exists (ev5 ++ ev6)%list; cbn [snd ret];
      now rewrite Ht6, Ht5, app_assoc. }
  destruct Hmore as (more & Hmore).
  rewrite Hs4, <- app_assoc in Hmore.
  rewrite (@new_events_app _ _ _ Hmore).
  now apply joined_after.
Qed.

End Announced.

(** ** The join before the Reconciler *)

Lemma process_document_joined file_path w s :
  joined (new_events s (snd (graph.process_document file_path w s))).
Proof.
  rewrite process_document_returns. cbn [snd].
  rewrite ainvoke_straight_line. apply straight_line_joined.
Qed.

(** C5. In every run of the pipeline, whenever the Reconciler
    ([DomainRouterAgent]) is executed, the vision result and the text result
    it is given are both set (neither is the empty value of the initial
    state), and each is a result its classifier branch has written: the
    record of the agent or the placeholder of a degraded branch. In the
    order of the events of the run, every start of the Reconciler comes
    after a start of the vision agent and a start of the text agent. *)
Theorem router_runs_after_both_classifiers :
  forall (file_path : string) (w : World) (s : St),
    let evs := new_events s (snd (graph.process_document file_path w s)) in
    Forall (router_started_on (classifier_results w)) evs
    /\ forall before e after,
         evs = (before ++ e :: after)%list ->
         starts_router e = true ->
         existsb (starts VisionAnalysisAgent) before = true
         /\ existsb (starts TextClassificationAgent) before = true.
Proof.
  intros file_path w s evs. split.
  - subst evs. rewrite process_document_returns. cbn [snd].
    apply hoare_events with (Q := state_ok (classifier_results w)).
    apply ainvoke_invariant, classifier_results_kept.
  - apply process_document_joined.
Qed.

Lemma router_runs_after_both_classifiers_witness :
  let evs :=
    new_events fresh
      (snd (graph.process_document "/inbox/ward.pdf"
              (text_only_world sound_answer) fresh)) in
  starts_router (nth 9 evs (PathExists "")) = true
  /\ existsb (starts VisionAnalysisAgent) (firstn 9 evs) = true
  /\ existsb (starts TextClassificationAgent) (firstn 9 evs) = true.
Proof.
  intros evs. split; [vm_compute; reflexivity |].
  destruct (router_runs_after_both_classifiers "/inbox/ward.pdf"
              (text_only_world sound_answer) fresh) as [_ Hjoined].
  apply (Hjoined (firstn 9 evs) (nth 9 evs (PathExists "")) (skipn 10 evs)).
  - vm_compute. reflexivity.
  - vm_compute. reflexivity.
Defined.

(** * Further properties of the code *)

(** ** Further properties of Classifier A *)

(** X1. [VisionAnalysisAgent.process] never raises and consults the vision
    model at most once, on the first preview image only: the other images
    are not looked at. When the model raises, the record carries the
    message of the exception, no hint and confidence 0.0. *)
Theorem vision_process_one_call :
  forall (input_data : VisionInput) (w : World) (s : St),
    exists (record : VisionAnalysis) (s' : St),
      vision_analysis.process input_data w s = (Returned record, s')
      /\ execution_count s' = execution_count s
      /\ match vi_preview_images input_data with
         | [] => record = vision_analysis.no_preview /\ new_events s s' = []
         | first_page :: _ =>
             new_events s s' = [VisionLLM first_page]
             /\ match vision_llm_ainvoke w (trace s) first_page with
                | Returned analysis_text =>
                    record
                    = vision_analysis._parse_vision_response analysis_text
                | Raised e =>
                    va_error record = Some (str_of_exn e)
                    /\ visual_domain_hints record = Some []
                    /\ va_confidence record = Some 0.0%Q
                    /\ layout_type record = Some "text-heavy"
                end
         end.
Proof.
  intros input_data w s. unfold vision_analysis.process.
  destruct (vi_preview_images input_data) as [| first_page others].
  - exists vision_analysis.no_preview, s. repeat split.
    unfold new_events. apply skipn_all.
  - unfold vision_analysis._analyze_image, catch, bind, call_raising, ret.
    destruct (vision_llm_ainvoke w (trace s) first_page)
      as [analysis_text | e]; eexists; eexists;
      (split; [reflexivity |]); cbn [execution_count];
      (split; [reflexivity |]);
      (split; [now apply new_events_app |]).
    + reflexivity.
    + repeat split.
Qed.

Lemma find_first {A} (p : A -> bool) (l : list A) :
  match find p l with
  | Some x =>
      exists before after,
        l = (before ++ x :: after)%list /\ p x = true
        /\ forall y, In y before -> p y = false
  | None => forall y, In y l -> p y = false
  end.
Proof.
  induction l as [| a l IH]; cbn [find]; [intros y [] |].
  destruct (p a) eqn:Ha.
  - exists [], l. repeat split; [exact Ha | intros y []].
  - destruct (find p l) as [x |].
    + destruct IH as (before & after & -> & Hx & Hbefore).
      exists (a :: before), after. repeat split; [exact Hx |].
      intros y [<- | Hy]; [exact Ha | now apply Hbefore].
    + intros y [<- | Hy]; [exact Ha | now apply IH].
Qed.

Lemma any_in_occurs (words : list string) (text : string) :
  PyStr.any_in words text = true
  <-> exists word, In word words /\ occurs word text.
Proof.
  unfold PyStr.any_in. rewrite existsb_exists.
  split; intros (word & Hword & Hocc); exists word;
    (split; [exact Hword | now apply contains_occurs]).
Qed.

(** X2. [_extract_document_type] answers the first type of its table, in
    the order of the table, one of whose patterns occurs in the text, and
    "document" exactly when no pattern of the table occurs. *)
Theorem document_type_first_match :
  forall text : string,
    let result := vision_analysis._extract_document_type text in
    let matches (entry : string * list string) :=
      exists pattern, In pattern (snd entry) /\ occurs pattern text in
    (result = "document"
     <-> forall entry, In entry vision_analysis.doc_types -> ~ matches entry)
    /\ (result <> "document" ->
        exists before patterns after,
          vision_analysis.doc_types
          = (before ++ (result, patterns) :: after)%list
          /\ matches (result, patterns)
          /\ forall entry, In entry before -> ~ matches entry).
Proof.
  intros text result matches.
  assert (Hmatches : forall entry,
             PyStr.any_in (snd entry) text = true <-> matches entry).
  { intros entry. apply any_in_occurs. }
  assert (Hnot : forall entry,
             PyStr.any_in (snd entry) text = false <-> ~ matches entry).
  { intros entry. rewrite <- Hmatches.
    destruct (PyStr.any_in (snd entry) text); split; congruence. }
  subst result. unfold vision_analysis._extract_document_type.
  pose proof (find_first (fun entry => PyStr.any_in (snd entry) text)
                vision_analysis.doc_types) as Hfind.
  destruct (find _ vision_analysis.doc_types) as [[doc_type patterns] |].
  - destruct Hfind as (before & after & Htable & Hhit & Hbefore).
    assert (Hin : In (doc_type, patterns) vision_analysis.doc_types).
    { rewrite Htable. apply in_elt. }
    assert (Hname : doc_type <> "document").
    { apply (in_map fst) in Hin. cbn in Hin.
      intros ->. repeat (destruct Hin as [Hin | Hin]; [discriminate Hin |]).
      exact Hin. }
    split.
    + split; [intros Heq; contradiction |].
      intros Hnone. exfalso. apply (Hnone _ Hin). now apply Hmatches.
    + intros _. exists before, patterns, after.
      split; [exact Htable | split; [now apply Hmatches |]].
      intros entry Hentry. now apply Hnot, Hbefore.
  - split.
    + split; [| reflexivity].
      intros _ entry Hentry. now apply Hnot, Hfind.
    + intros Hne. now contradiction Hne.
Qed.

Lemma NoDup_firstn {A} (n : nat) (l : list A) : NoDup l -> NoDup (firstn n l).
Proof.
  intros H. revert n. induction H as [| x l Hx Hl IH]; intros [| n]; cbn;
    try constructor.
  - intros Hin. apply Hx. now apply In_firstn in Hin.
  - apply IH.
Qed.

(** The keys of the items of a dict that pass a test are distinct. *)
Lemma filter_keys_distinct {V} (keep : string * V -> bool)
    (items : list (string * V)) :
  NoDup (map fst items) -> NoDup (map fst (filter keep items)).
Proof.
  intros Hdistinct.
  induction items as [| [k v] items IH]; cbn [filter map]; [constructor |].
  inversion Hdistinct as [| ? ? Hk Hrest]; subst.
  destruct (keep (k, v)); [| now apply IH].
  cbn [map fst]. constructor; [| now apply IH].
  intros Hin. apply Hk. apply in_map_iff in Hin.
  destruct Hin as (entry & Hkey & Hin). apply filter_In in Hin.
  apply in_map_iff. exists entry. tauto.
Qed.

(** The hints of a parsed response are distinct keys of [domains_map]. *)
Lemma parsed_hints_of_table (response_text : string) :
  exists hints,
    visual_domain_hints (vision_analysis._parse_vision_response response_text)
    = Some hints
    /\ NoDup hints
    /\ forall domain,
         In domain hints -> In domain (map fst vision_analysis.domains_map).
Proof.
  eexists. split; [reflexivity |]. split.
  - apply NoDup_firstn. unfold vision_analysis.detect_domain_hints.
    apply filter_keys_distinct, domains_map_keys_distinct.
  - intros domain Hin. apply In_firstn in Hin.
    apply detect_domain_hints_spec in Hin.
    destruct Hin as (words & Hin & _). now apply (in_map fst) in Hin.
Qed.

(** X3. Classifier A can hint at eight domains only: whatever the vision
    model answers, the hints are distinct, and "arts" and "general" are
    never among them. The Reconciler therefore never agrees quickly on a
    text result in one of these two domains (or without a domain): it
    consults the arbiter. *)
Theorem vision_never_hints_arts :
  forall response_text : string,
    let record := vision_analysis._parse_vision_response response_text in
    (exists hints,
        visual_domain_hints record = Some hints
        /\ NoDup hints /\ ~ In "arts" hints /\ ~ In "general" hints)
    /\ forall (input_data : RouterInput) (w : World) (s : St),
         ri_vision_analysis input_data = record ->
         In (primary_domain (ri_text_analysis input_data))
           [Some "arts"; Some "general"; None] ->
         new_events s (snd (domain_router.process input_data w s))
         = [RouterChain (domain_router.chain_args input_data)].
Proof.
  intros response_text record.
  destruct (parsed_hints_of_table response_text)
    as (hints & Hhints & Hnodup & Htable).
  fold record in Hhints.
  assert (Harts : ~ In "arts" hints).
  { intros Hin. apply Htable in Hin. cbn in Hin.
    repeat (destruct Hin as [Hin | Hin]; [discriminate Hin |]). exact Hin. }
  assert (Hgeneral : ~ In "general" hints).
  { intros Hin. apply Htable in Hin. cbn in Hin.
    repeat (destruct Hin as [Hin | Hin]; [discriminate Hin |]). exact Hin. }
  split; [exists hints; auto |].
  intros input_data w s Hvision Hdomain.
  unfold domain_router.process. rewrite Hvision, Hhints. cbn [get].
  assert (Hmem : PyStr.mem
                   (get (primary_domain (ri_text_analysis input_data))
                      "general") hints = false).
  { apply mem_not_In.
    destruct Hdomain as [<- | [<- | [<- | []]]]; cbn [get]; assumption. }
  rewrite Hmem. cbn [andb].
  unfold catch, bind, call_raising, ret.
  destruct (router_chain_ainvoke w (trace s)
              (domain_router.chain_args input_data));
    cbn [snd]; now apply new_events_app.
Qed.

(** ** Further properties of Classifier B *)

Lemma take_length (n : nat) (s : string) : String.length (PyStr.take n s) <= n.
Proof.
  unfold PyStr.take. revert s.
  induction n as [| n IH]; intros [| c s]; cbn; try lia.
  specialize (IH s). lia.
Qed.

Lemma take_prefix (n : nat) (s : string) : prefix (PyStr.take n s) s = true.
Proof.
  unfold PyStr.take. revert s.
  induction n as [| n IH]; intros [| c s]; cbn; try reflexivity.
  destruct (ascii_dec c c) as [_ | Hne]; [apply IH | now contradiction Hne].
Qed.

(** On the catalog of [settings], the ranking has a first entry. *)
Lemma catalog_ranking (text_lower : string) :
  exists top top_score second third others,
    text_classification.sorted_domains settings.DOMAIN_KEYWORDS text_lower
    = (top, top_score) :: second :: third :: others.
Proof.
  pose proof (sorted_domains_length settings.DOMAIN_KEYWORDS text_lower)
    as Hlength.
  destruct (text_classification.sorted_domains _ _)
    as [| [top top_score] [| second [| third others]]];
    try discriminate Hlength.
  now exists top, top_score, second, third, others.
Qed.

(** With the catalog of [settings] the keyword fallback returns a record:
    the subscripts [sorted_domains[0]] and [domain_keywords[primary_domain]]
    do not raise. *)
Lemma keyword_fallback_returns (text : string) (filename : option string) :
  exists record,
    text_classification._keyword_based_classification
      settings.DOMAIN_KEYWORDS text filename = Returned record
    /\ ta_method record = Some "keyword_fallback".
Proof.
  destruct (catalog_ranking (PyStr.lower text))
    as (top & top_score & second & third & others & Hranking).
  destruct (keyword_fallback_on_ranking settings.DOMAIN_KEYWORDS text filename
              Hranking) as [Hzero Hpos].
  destruct (Nat.eq_dec top_score 0) as [Heq | Hne].
  - rewrite (Hzero Heq). eexists. split; reflexivity.
  - destruct (Hpos Hne) as (top_keywords & _ & _ & ->).
    eexists. split; reflexivity.
Qed.

Lemma strip_empty_short (text : string) :
  String.eqb text "" || (String.length (PyStr.strip text) <? 50)
  = (String.length (PyStr.strip text) <? 50).
Proof.
  destruct (String.eqb text "") eqn:Hempty; [| reflexivity].
  apply String.eqb_eq in Hempty. now subst.
Qed.

(** X4. [TextClassificationAgent.process] never raises. On a text of fewer
    than 50 characters once stripped (the empty text is one) it calls
    nothing and returns the keyword classification. Otherwise it invokes
    its chain once, on the first 8000 characters of the text; when the
    chain answers it returns the record built from the answer, and when
    the chain raises it returns the keyword classification of the whole
    text, not of the 8000 characters. *)
Theorem text_process_cases :
  forall (input_data : TextInput) (w : World) (s : St),
    let text := ti_text_content input_data in
    let filename := ti_filename input_data in
    let sample := PyStr.take (8 * 1000) text in
    let by_keywords :=
      text_classification._keyword_based_classification
        settings.DOMAIN_KEYWORDS text filename in
    exists (record : TextAnalysis) (s' : St),
      text_classification.process input_data w s = (Returned record, s')
      /\ execution_count s' = execution_count s
      /\ (String.length (PyStr.strip text) < 50 ->
          s' = s /\ by_keywords = Returned record)
      /\ (50 <= String.length (PyStr.strip text) ->
          new_events s s' = [TextChain sample filename]
          /\ match text_chain_ainvoke w (trace s) sample filename with
             | Returned answer =>
                 record = text_classification.llm_record answer
             | Raised _ => by_keywords = Returned record
             end)
      /\ String.length sample <= 8 * 1000
      /\ prefix sample text = true.
Proof.
  intros input_data w s text filename sample by_keywords.
  destruct (keyword_fallback_returns text filename) as (fallback & Hfb & _).
  fold by_keywords in Hfb.
  unfold text_classification.process. fold text filename.
  rewrite strip_empty_short.
  destruct (String.length (PyStr.strip text) <? 50) eqn:Hshort.
  - apply Nat.ltb_lt in Hshort. exists fallback, s.
    unfold text_classification.lift. fold by_keywords. rewrite Hfb.
    split; [reflexivity |]. split; [reflexivity |].
    split; [auto |]. split; [lia |].
    split; [apply take_length | apply take_prefix].
  - apply Nat.ltb_ge in Hshort. fold sample.
    unfold text_classification._llm_classification, catch, bind,
      call_raising, ret, raise, text_classification.lift.
    fold by_keywords. rewrite Hfb.
    destruct (text_chain_ainvoke w (trace s) sample filename)
      as [answer | e]; eexists; eexists;
      (split; [reflexivity |]); cbn [execution_count];
      (split; [reflexivity |]);
      (split; [lia |]);
      (split; [| split; [apply take_length | apply take_prefix]]);
      intros _; (split; [now apply new_events_app | reflexivity]).
Qed.

(** The first entry of the ranking has the largest score. *)
Lemma ranking_top_is_max catalog text_lower top top_score others :
  NoDup (map fst catalog) ->
  text_classification.sorted_domains catalog text_lower
  = (top, top_score) :: others ->
  Forall (fun entry => snd entry <= top_score) others.
Proof.
  intros Hnd Hranking.
  pose proof (sorted_domains_ranked catalog text_lower Hnd) as Hsorted.
  rewrite Hranking in Hsorted.
  inversion Hsorted as [| ? ? _ Htop]; subst.
  eapply Forall_impl; [| exact Htop].
  intros entry Hentry. unfold ranks_before in Hentry. cbn in Hentry. lia.
Qed.

Lemma list_sum_bound (m : nat) (l : list nat) :
  Forall (fun x => x <= m) l -> list_sum l <= List.length l * m.
Proof. unfold list_sum. induction 1; cbn; lia. Qed.

Lemma ratio_lower_bound (p t n : nat) :
  0 < t -> t <= n * p ->
  (1 # Pos.of_nat n <= PyNum.of_nat p / PyNum.of_nat t)%Q.
Proof.
  intros Ht Hle.
  assert (Hn : 0 < n) by (destruct n; [cbn in Hle; lia | lia]).
  apply Qle_shift_div_l.
  - unfold PyNum.of_nat, Qlt. cbn. lia.
  - unfold PyNum.of_nat, Qle, Qmult, inject_Z.
    cbn [Qnum Qden]. rewrite Z.mul_1_l, Pos.mul_1_r, Z.mul_1_r.
    rewrite <- positive_nat_Z, Nat2Pos.id by lia.
    rewrite <- Nat2Z.inj_mul. apply Nat2Z.inj_le. lia.
Qed.

(** X5. The confidence of the keyword fallback lies between 1/9 and 0.85:
    the top score is at least the ninth part of the sum of the nine scores.
    It is 0.3 when no keyword of the catalog occurs. *)
Theorem keyword_confidence_bounds :
  forall (text : string) (filename : option string),
    exists (record : TextAnalysis) (confidence : Q),
      text_classification._keyword_based_classification
        settings.DOMAIN_KEYWORDS text filename = Returned record
      /\ ta_confidence record = Some confidence
      /\ (1 # 9 <= confidence)%Q
      /\ (confidence <= 0.85)%Q
      /\ (primary_domain record = Some "general" -> confidence = 0.3%Q).
Proof.
  intros text filename.
  destruct (catalog_ranking (PyStr.lower text))
    as (top & top_score & second & third & others & Hranking).
  destruct (keyword_fallback_on_ranking settings.DOMAIN_KEYWORDS text filename
              Hranking) as [Hzero Hpos].
  destruct (Nat.eq_dec top_score 0) as [Heq | Hne].
  - rewrite (Hzero Heq). eexists. eexists. split; [reflexivity |].
    split; [reflexivity |]. cbn.
    split; [unfold Qle; cbn; lia |]. split; [unfold Qle; cbn; lia | auto].
  - destruct (Hpos Hne) as (top_keywords & _ & Hentry & ->).
    eexists. eexists. split; [reflexivity |]. split; [reflexivity |].
    cbn [primary_domain].
    assert (Htop : top <> "general").
    { intros ->. apply (in_map fst) in Hentry. cbn in Hentry.
      repeat (destruct Hentry as [Hentry | Hentry]; [discriminate Hentry |]).
      exact Hentry. }
    rewrite <- sorted_domains_total, Hranking.
    pose proof (@ranking_top_is_max _ _ _ _ _ catalog_keys_distinct Hranking)
      as Hmax.
    assert (Hlength : List.length (second :: third :: others) = 8).
    { pose proof (sorted_domains_length settings.DOMAIN_KEYWORDS
                    (PyStr.lower text)) as Hl.
      rewrite Hranking in Hl. cbn in Hl. cbn. lia. }
    set (rest := second :: third :: others) in *.
    assert (Hsum : list_sum (map snd rest) <= 8 * top_score).
    { rewrite <- Hlength, <- (length_map snd). apply list_sum_bound.
      apply Forall_map. exact Hmax. }
    cbn [map snd list_sum fold_right].
    change (fold_right Nat.add 0 (map snd rest)) with (list_sum (map snd rest)).
    pose proof (@ratio_lower_bound top_score
                  (top_score + list_sum (map snd rest)) 9) as Hratio.
    change (Pos.of_nat 9) with 9%positive in Hratio.
    destruct (min_spec
                (PyNum.of_nat top_score
                 / PyNum.of_nat (top_score + list_sum (map snd rest))) 0.85)
      as [[Hlt ->] | [Hle ->]].
    + split; [unfold Qle; cbn; lia |].
      split; [unfold Qle; cbn; lia |]. intros Heq. congruence.
    + split; [apply Hratio; lia |]. split; [exact Hle |].
      intros Heq. congruence.
Qed.

Lemma lookup_entry {V} (k : string) (v : V) (items : list (string * V)) :
  NoDup (map fst items) -> In (k, v) items -> PyList.lookup k items = Some v.
Proof.
  induction items as [| [k' v'] items IH]; cbn; intros Hnd Hin;
    [contradiction |].
  inversion Hnd as [| ? ? Hk Hnd']; subst.
  destruct Hin as [Heq | Hin].
  - injection Heq as -> ->. now rewrite String.eqb_refl.
  - destruct (String.eqb k k') eqn:Hkk; [| now apply IH].
    apply String.eqb_eq in Hkk. subst k'. exfalso. apply Hk.
    now apply (in_map fst) in Hin.
Qed.

(** X6. In the record of the keyword fallback, either nothing matched: the
    domain is "general", with no keyword and no alternative; or the
    primary domain and the two alternatives are three distinct domains of
    the catalog, and at least one keyword is reported. *)
Theorem keyword_alternatives_distinct :
  forall (text : string) (filename : option string),
    exists (record : TextAnalysis) (primary : string)
           (alternatives matched : list string),
      text_classification._keyword_based_classification
        settings.DOMAIN_KEYWORDS text filename = Returned record
      /\ primary_domain record = Some primary
      /\ alternative_domains record = Some alternatives
      /\ keywords record = Some matched
      /\ ((primary = "general" /\ alternatives = [] /\ matched = [])
          \/ (exists second third,
                 alternatives = [second; third]
                 /\ NoDup [primary; second; third]
                 /\ incl [primary; second; third]
                      (map fst settings.DOMAIN_KEYWORDS)
                 /\ matched <> [])).
Proof.
  intros text filename.
  destruct (catalog_ranking (PyStr.lower text))
    as (top & top_score & second & third & others & Hranking).
  destruct (keyword_fallback_on_ranking settings.DOMAIN_KEYWORDS text filename
              Hranking) as [Hzero Hpos].
  destruct (Nat.eq_dec top_score 0) as [Heq | Hne].
  - rewrite (Hzero Heq). do 4 eexists. repeat (split; [reflexivity |]).
    left. auto.
  - destruct (Hpos Hne) as (top_keywords & Hlookup & Hentry & ->).
    do 4 eexists. repeat (split; [reflexivity |]).
    right. exists (fst second), (fst third). split; [reflexivity |].
    pose proof (sorted_domains_perm settings.DOMAIN_KEYWORDS (PyStr.lower text))
      as Hperm.
    assert (Hkeys : Permutation
                      (top :: fst second :: fst third :: map fst others)
                      (map fst settings.DOMAIN_KEYWORDS)).
    { rewrite <- (domain_scores_keys settings.DOMAIN_KEYWORDS
                    (PyStr.lower text)).
      rewrite <- Hperm, Hranking. reflexivity. }
    split; [| split].
    + apply (@NoDup_firstn _ 3
               (top :: fst second :: fst third :: map fst others)).
      eapply Permutation_NoDup;
        [apply Permutation_sym, Hkeys | apply catalog_keys_distinct].
    + intros d Hd. eapply Permutation_in; [exact Hkeys |].
      destruct Hd as [<- | [<- | [<- | []]]]; cbn [In]; auto.
    + (* the top score counts the keywords that are reported *)
      assert (Hscore : In (top, top_score)
                         (text_classification.domain_scores
                            settings.DOMAIN_KEYWORDS (PyStr.lower text))).
      { eapply Permutation_in; [exact Hperm |]. rewrite Hranking. now left. }
      unfold text_classification.domain_scores in Hscore.
      apply in_map_iff in Hscore.
      destruct Hscore as ([top' keywords'] & Heq & Hin).
      cbn [fst snd] in Heq. injection Heq as -> Hcount.
      pose proof (@lookup_entry _ _ _ _ catalog_keys_distinct Hin) as Hlookup'.
      rewrite Hlookup in Hlookup'. injection Hlookup' as ->.
      rewrite keyword_score_length in Hcount.
      destruct (filter _ keywords'); [cbn in Hcount; lia | discriminate].
Qed.

(** ** Further properties of the Reconciler *)



(** ** Further properties of the intake and of the filing *)




(** ** Computations that return *)

Lemma keeps_ret {A} (a : A) : keeps_counts (ret a).
Proof. intros w s. reflexivity. Qed.

Lemma keeps_raise {A} (e : exn) : keeps_counts (@raise A e).
Proof. intros w s. reflexivity. Qed.

Lemma keeps_lift {A} (o : outcome A) : keeps_counts (text_classification.lift o).
Proof. intros w s. reflexivity. Qed.

Lemma keeps_call {A} (answer : World -> list event -> A) (e : event) :
  keeps_counts (call answer e).
Proof. intros w s. reflexivity. Qed.

Lemma keeps_call_raising {A} (answer : World -> list event -> outcome A)
    (e : event) :
  keeps_counts (call_raising answer e).
Proof. intros w s. reflexivity. Qed.

Lemma keeps_bind {A B} (m : M A) (k : A -> M B) :
  keeps_counts m -> (forall a, keeps_counts (k a)) -> keeps_counts (bind m k).
Proof.
  intros Hm Hk w s. unfold bind. specialize (Hm w s).
  destruct (m w s) as [[a | e] s1]; cbn [snd] in *; [| exact Hm].
  now rewrite Hk.
Qed.

Lemma keeps_catch {A} (m : M A) (h : exn -> M A) :
  keeps_counts m -> (forall e, keeps_counts (h e)) -> keeps_counts (catch m h).
Proof.
  intros Hm Hh w s. unfold catch. specialize (Hm w s).
  destruct (m w s) as [[a | e] s1]; cbn [snd] in *; [exact Hm |].
  now rewrite Hh.
Qed.

Ltac keeps_walk :=
  repeat first
    [ apply keeps_ret
    | apply keeps_raise
    | apply keeps_lift
    | apply keeps_call
    | apply keeps_call_raising
    | apply keeps_catch; [| intros ?]
    | apply keeps_bind; [| intros ?]
    | match goal with
      | |- keeps_counts (if ?b then _ else _) => destruct b
      | |- keeps_counts (match ?x with _ => _ end) => destruct x
      end ].

Lemma intake_keeps_counts input_data :
  keeps_counts (document_intake.process input_data).
Proof. unfold document_intake.process. cbv zeta. keeps_walk. Qed.

Lemma vision_keeps_counts input_data :
  keeps_counts (vision_analysis.process input_data).
Proof.
  unfold vision_analysis.process, vision_analysis._analyze_image. cbv zeta.
  keeps_walk.
Qed.

Lemma text_keeps_counts input_data :
  keeps_counts (text_classification.process input_data).
Proof.
  unfold text_classification.process, text_classification._llm_classification.
  cbv zeta. keeps_walk.
Qed.

Lemma router_keeps_counts input_data :
  keeps_counts (domain_router.process input_data).
Proof. unfold domain_router.process. cbv zeta. keeps_walk. Qed.

Lemma organization_keeps_counts input_data :
  keeps_counts (file_organization.process input_data).
Proof. unfold file_organization.process. cbv zeta. keeps_walk. Qed.

Section Runs.

Variable w : World.

Lemma pure_ret {A} (a : A) (Q : A -> Prop) : Q a -> pure w (ret a) Q.
Proof. intros HQ s. now split. Qed.

Lemma pure_raise {A} (e : exn) (Q : A -> Prop) : pure w (raise e) Q.
Proof. intros s. now split. Qed.

Lemma pure_item {A} key (field : option A) (Q : A -> Prop) :
  when_set Q field -> pure w (graph.item key field) Q.
Proof.
  intros H. destruct field; cbn in *; [now apply pure_ret | apply pure_raise].
Qed.

Lemma pure_bind {A B} (m : M A) (k : A -> M B) (P : A -> Prop)
    (Q : B -> Prop) :
  pure w m P -> (forall a, P a -> pure w (k a) Q) -> pure w (bind m k) Q.
Proof.
  intros Hm Hk s. unfold bind. destruct (Hm s) as [Hs Ha].
  destruct (m w s) as [[a | e] s1]; cbn [fst snd] in *; subst s1.
  - now apply Hk.
  - now split.
Qed.

Lemma runs_ret {A} E (a : A) (Q : A -> Prop) :
  Q a -> runs w E (fun count => count) (ret a) Q.
Proof.
  intros HQ [events count]. exists a, []. cbn. rewrite app_nil_r. auto.
Qed.

Lemma runs_bind {A B} E f g (m : M A) (k : A -> M B) (P : A -> Prop)
    (Q : B -> Prop) :
  runs w E f m P -> (forall a, P a -> runs w E g (k a) Q) ->
  runs w E (fun count => g (f count)) (bind m k) Q.
Proof.
  intros Hm Hk s. destruct (Hm s) as (a & evs & Hrun & Hevs & Ha).
  destruct (Hk a Ha {| trace := (trace s ++ evs)%list;
                       execution_count := f (execution_count s) |})
    as (b & evs' & Hrun' & Hevs' & Hb).
  exists b, (evs ++ evs')%list. unfold bind. rewrite Hrun, Hrun'.
  cbn [trace execution_count]. rewrite app_assoc.
  split; [reflexivity | split; [now apply Forall_app | exact Hb]].
Qed.

(** A node that executes an agent and then only builds its update: it
    returns, the agent has been executed once, and its events are the start
    of the agent and the events of [process]. *)
Lemma node_runs {Inp Out B} E (self : agent_id)
    (as_input : Inp -> agent_input) (process : Inp -> M Out)
    (input_data : Inp) (build : AgentResult Out -> M B)
    (handler : exn -> M B) (P : Out -> Prop) (Q : B -> Prop) :
  hoare w E (process input_data) (fun _ => True) ->
  hoare w (fun _ => True) (process input_data) P ->
  keeps_counts (process input_data) ->
  (forall n, E (Execute self n (as_input input_data))) ->
  (forall envelope, when_set P (ar_result envelope) ->
                    pure w (build envelope) Q) ->
  (forall e s, exists b, handler e w s = (Returned b, s) /\ Q b) ->
  runs w E (counted self)
    (try (envelope <- base.execute self as_input process input_data ;;
          build envelope)
     except handler) Q.
Proof.
  intros Hevents Hpost Hcounts Hself Hbuild Hhandler s.
  unfold catch. rewrite bind_run, execute_runs.
  set (s0 := started self (as_input input_data) s).
  destruct (process input_data w s0) as [op s1] eqn:Hp.
  destruct (@hoare_run _ _ _ _ _ _ _ _ Hevents Hp) as (evs & Htrace & Hevs).
  specialize (Hcounts w s0). rewrite Hp in Hcounts.
  cbn [fst snd] in *.
  assert (Hs1 : s1 = {| trace :=
                          (trace s
                           ++ Execute self (execution_count s self + 1)
                                (as_input input_data) :: evs)%list;
                        execution_count := counted self (execution_count s) |}).
  { destruct s1 as [events count]. cbn [trace execution_count] in *.
    subst events count. unfold s0, started. cbn [trace execution_count].
    now rewrite <- app_assoc. }
  assert (Hall : Forall E (Execute self (execution_count s self + 1)
                             (as_input input_data) :: evs)).
  { constructor; [apply Hself | exact Hevs]. }
  match goal with
  | |- context [build ?env w s1] =>
      assert (Henv : when_set P (ar_result env));
      [| destruct (Hbuild env Henv s1) as [Hstate Hvalue];
         destruct (build env w s1) as [[b | e] s2]; cbn [fst snd] in *;
         subst s2 ]
  end.
  - cbn [ar_result]. destruct op as [value | e]; [| exact I].
    cbn [when_set]. exact (@hoare_result _ _ _ _ _ _ _ _ Hpost Hp).
  - exists b. eexists. rewrite <- Hs1. split; [reflexivity | auto].
  - destruct (Hhandler e s1) as (b & Hrun & Hb). rewrite Hrun.
    exists b. eexists. rewrite <- Hs1. split; [reflexivity | auto].
Qed.

End Runs.

(** ** The requests of a run *)

Ltac hoare_walk :=
  repeat first
    [ apply hoare_ret; exact I
    | apply hoare_raise
    | apply hoare_lift; intros; exact I
    | apply hoare_call with (Q := fun _ => True);
      [cbn; auto | intros; exact I]
    | apply hoare_call_raising with (Q := fun _ => True);
      [cbn; auto | intros; exact I]
    | apply hoare_catch; [| intros ?]
    | eapply hoare_bind with (P := fun _ => True); [| intros ? _]
    | match goal with
      | |- hoare _ _ (if ?b then _ else _) _ => destruct b
      | |- hoare _ _ (match ?x with _ => _ end) _ => destruct x
      end ].

Section Requests.

Variable w : World.
Variable file_path filename : string.

Let E := concerns file_path filename.

Lemma intake_requests :
  hoare w E (document_intake.process {| ii_file_path := file_path |})
    (fun _ => True).
Proof.
  unfold document_intake.process. cbv zeta. cbn [ii_file_path].
  subst E. hoare_walk.
Qed.

Lemma vision_requests input_data :
  hoare w E (vision_analysis.process input_data) (fun _ => True).
Proof.
  unfold vision_analysis.process, vision_analysis._analyze_image. cbv zeta.
  subst E. hoare_walk.
Qed.

Lemma text_requests input_data :
  hoare w E (text_classification.process input_data) (fun _ => True).
Proof.
  unfold text_classification.process, text_classification._llm_classification.
  cbv zeta. subst E. hoare_walk.
Qed.

Lemma router_requests input_data :
  hoare w E (domain_router.process input_data) (fun _ => True).
Proof.
  unfold domain_router.process. cbv zeta. subst E. hoare_walk.
Qed.

(** With the operation "copy", the filing requests no move. *)
Lemma organization_requests domain :
  hoare w E
    (file_organization.process
       {| oi_file_path := file_path; oi_filename := filename;
          oi_domain := domain; oi_operation := "copy" |})
    (fun _ => True).
Proof.
  unfold file_organization.process. cbv zeta.
  cbn [oi_file_path oi_filename oi_domain oi_operation].
  change (String.eqb "copy" "move") with false. cbv iota.
  subst E. hoare_walk.
Qed.

Lemma true_admits : admits_calls (fun _ : event => True).
Proof. intros e _. exact I. Qed.

Lemma any_result {A} E' (m : M A) :
  hoare w E' m (fun _ => True) -> hoare w (fun _ => True) m (fun _ => True).
Proof.
  intros Hm s. destruct (Hm s) as (evs & Htrace & _ & _).
  exists evs. split; [exact Htrace | split].
  - rewrite Forall_forall. auto.
  - now destruct (fst (m w s)).
Qed.

(** *** The nodes *)

Lemma intake_node_runs state :
  s_file_path state = Some file_path ->
  runs w E (counted DocumentIntakeAgent) (graph._intake_node state)
    keeps_input.
Proof.
  intros Hpath. unfold graph._intake_node. rewrite Hpath.
  cbn [graph.item].
  apply node_runs
    with (process := document_intake.process)
         (input_data := {| ii_file_path := file_path |})
         (P := fun _ => True).
  - apply intake_requests.
  - eapply any_result, intake_requests.
  - apply intake_keeps_counts.
  - intros n. exact I.
  - intros envelope _. destruct (ar_success envelope).
    + eapply pure_bind; [apply pure_item with (Q := fun _ => True);
                         now destruct (ar_result envelope) |].
      intros data _.
      eapply pure_bind; [apply pure_item with (Q := fun _ => True);
                         now destruct (s_filename state) |].
      intros name _. now apply pure_ret.
    + now apply pure_ret.
  - intros e s. eexists. split; [reflexivity | now split].
Qed.

Lemma vision_node_runs state :
  runs w E (counted VisionAnalysisAgent) (graph._vision_node state)
    (fun update =>
       keeps_input update
       /\ s_text_analysis update = None
       /\ exists v, s_vision_analysis update = Some v
                    /\ vision_truthy v = true).
Proof.
  unfold graph._vision_node.
  apply node_runs with (P := vision_node_outcome).
  - apply vision_requests.
  - apply vision_process_summary, true_admits.
  - apply vision_keeps_counts.
  - intros n. exact I.
  - intros envelope Hresult. destruct (ar_success envelope).
    + eapply pure_bind; [apply pure_item; exact Hresult |].
      intros analysis Hanalysis. apply pure_ret.
      repeat split. exists analysis.
      split; [reflexivity | now apply vision_outcome_truthy].
    + apply pure_ret. repeat split. eexists. split; reflexivity.
  - intros e s. eexists. split; [reflexivity |].
    repeat split. eexists. split; reflexivity.
Qed.

Lemma text_node_runs state :
  runs w E (counted TextClassificationAgent) (graph._text_node state)
    (fun update =>
       keeps_input update
       /\ s_vision_analysis update = None
       /\ exists t, s_text_analysis update = Some t
                    /\ text_truthy t = true).
Proof.
  unfold graph._text_node.
  apply node_runs with (P := text_node_outcome w).
  - apply text_requests.
  - apply text_process_summary, true_admits.
  - apply text_keeps_counts.
  - intros n. exact I.
  - intros envelope Hresult. destruct (ar_success envelope).
    + eapply pure_bind; [apply pure_item; exact Hresult |].
      intros analysis Hanalysis. apply pure_ret.
      repeat split. exists analysis.
      split; [reflexivity | now apply text_outcome_truthy with (w := w)].
    + apply pure_ret. repeat split. eexists. split; reflexivity.
  - intros e s. eexists. split; [reflexivity |].
    repeat split. eexists. split; reflexivity.
Qed.

Lemma error_branch_runs state :
  runs w E (fun count => count) (error_branch state)
    (Forall (fun update =>
               keeps_input update
               /\ s_vision_analysis update = None
               /\ s_text_analysis update = None)).
Proof.
  unfold error_branch, graph._error_node.
  destruct (String.eqb _ _).
  - eapply runs_bind
      with (f := fun count => count) (g := fun count => count)
           (P := fun update =>
                   keeps_input update
                   /\ s_vision_analysis update = None
                   /\ s_text_analysis update = None).
    + apply runs_ret. repeat split.
    + intros update Hupdate. apply runs_ret.
      constructor; [exact Hupdate | constructor].
  - apply runs_ret. constructor.
Qed.

Lemma router_node_runs state :
  (exists v, s_vision_analysis state = Some v /\ vision_truthy v = true) ->
  (exists t, s_text_analysis state = Some t /\ text_truthy t = true) ->
  runs w E (counted DomainRouterAgent) (graph._router_node state)
    keeps_input.
Proof.
  intros (v & Hv & Hvt) (t & Ht & Htt). unfold graph._router_node.
  rewrite Hv, Ht. cbn [get]. rewrite Hvt, Htt. cbn [negb orb].
  apply node_runs with (P := fun _ => True).
  - apply router_requests.
  - eapply any_result, router_requests.
  - apply router_keeps_counts.
  - intros n. exact I.
  - intros envelope _. destruct (ar_success envelope).
    + eapply pure_bind; [apply pure_item with (Q := fun _ => True);
                         now destruct (ar_result envelope) |].
      intros decision _.
      destruct (dec_confidence decision);
        [now apply pure_ret | apply pure_raise].
    + now apply pure_ret.
  - intros e s. eexists. split; [reflexivity | now split].
Qed.

Lemma organization_node_runs state :
  s_file_path state = Some file_path ->
  s_filename state = Some filename ->
  runs w E (counted FileOrganizationAgent) (graph._organization_node state)
    (fun update =>
       keeps_input update /\ filing_stage (s_processing_stage update)).
Proof.
  intros Hpath Hname. unfold graph._organization_node.
  rewrite Hpath, Hname. cbn [graph.item].
  apply node_runs
    with (process := file_organization.process)
         (input_data :=
            {| oi_file_path := file_path; oi_filename := filename;
               oi_domain := get (s_final_domain state) "general";
               oi_operation := "copy" |})
         (P := fun _ => True).
  - apply organization_requests.
  - eapply any_result, organization_requests.
  - apply organization_keeps_counts.
  - intros n. exact I.
  - intros envelope _. destruct (ar_success envelope).
    + eapply pure_bind; [apply pure_item with (Q := fun _ => True);
                         now destruct (ar_result envelope) |].
      intros org_result _. apply pure_ret.
      split; [now split | now left].
    + apply pure_ret. split; [now split | now right].
  - intros e s. eexists. split; [reflexivity |].
    split; [now split | now right].
Qed.

(** *** The run *)

(** Updates that write none of the four keys leave them as they are. *)
Lemma fold_keeps_inputs updates :
  Forall (fun update =>
            keeps_input update
            /\ s_vision_analysis update = None
            /\ s_text_analysis update = None) updates ->
  forall state,
    let state' := fold_left graph.apply_update updates state in
    s_file_path state' = s_file_path state
    /\ s_filename state' = s_filename state
    /\ s_vision_analysis state' = s_vision_analysis state
    /\ s_text_analysis state' = s_text_analysis state.
Proof.
  induction 1 as [| update updates Hupdate _ IH]; intros state; cbn;
    [auto |].
  destruct Hupdate as ([Hpath Hname] & Hv & Ht).
  destruct (IH (graph.apply_update state update)) as (-> & -> & -> & ->).
  cbn. now rewrite Hpath, Hname, Hv, Ht.
Qed.

Lemma straight_line_runs state0 :
  s_file_path state0 = Some file_path ->
  s_filename state0 = Some filename ->
  runs w E
    (fun count =>
       counted FileOrganizationAgent
         (counted DomainRouterAgent
            (counted TextClassificationAgent
               (counted VisionAnalysisAgent
                  (counted DocumentIntakeAgent count)))))
    (straight_line state0)
    (fun final_state =>
       s_file_path final_state = Some file_path
       /\ s_filename final_state = Some filename
       /\ filing_stage (s_processing_stage final_state)).
Proof.
  intros Hpath Hname. unfold straight_line.
  eapply runs_bind
    with (f := counted DocumentIntakeAgent)
         (g := fun count =>
                 counted FileOrganizationAgent
                   (counted DomainRouterAgent
                      (counted TextClassificationAgent
                         (counted VisionAnalysisAgent count))));
    [now apply intake_node_runs |].
  intros intake [Hi1 Hi2]. cbv zeta.
  set (state1 := graph.apply_update state0 intake).
  assert (Hpath1 : s_file_path state1 = Some file_path)
    by (subst state1; cbn; now rewrite Hi1).
  assert (Hname1 : s_filename state1 = Some filename)
    by (subst state1; cbn; now rewrite Hi2).
  clearbody state1.
  eapply runs_bind
    with (f := counted VisionAnalysisAgent)
         (g := fun count =>
                 counted FileOrganizationAgent
                   (counted DomainRouterAgent
                      (counted TextClassificationAgent count)));
    [apply vision_node_runs |].
  intros vision ([Hv1 Hv2] & Hv3 & v & Hv & Hvt).
  eapply runs_bind
    with (f := counted TextClassificationAgent)
         (g := fun count =>
                 counted FileOrganizationAgent
                   (counted DomainRouterAgent count));
    [apply text_node_runs |].
  intros text ([Ht1 Ht2] & Ht3 & t & Ht & Htt).
  eapply runs_bind
    with (f := fun count => count)
         (g := fun count =>
                 counted FileOrganizationAgent
                   (counted DomainRouterAgent count));
    [apply error_branch_runs |].
  intros handled Hhandled.
  set (state2 := fold_left graph.apply_update (vision :: text :: handled)
                   state1).
  assert (Hstate2 : s_file_path state2 = Some file_path
                    /\ s_filename state2 = Some filename
                    /\ s_vision_analysis state2 = Some v
                    /\ s_text_analysis state2 = Some t).
  { subst state2. cbn [fold_left].
    destruct (fold_keeps_inputs Hhandled
                (graph.apply_update (graph.apply_update state1 vision) text))
      as (-> & -> & -> & ->).
    cbn. rewrite Hv1, Hv2, Ht1, Ht2, Hv, Ht3, Ht, Hpath1, Hname1.
    cbn. auto. }
  destruct Hstate2 as (Hpath2 & Hname2 & Hvision2 & Htext2).
  clearbody state2.
  eapply runs_bind
    with (f := counted DomainRouterAgent)
         (g := counted FileOrganizationAgent);
    [apply router_node_runs; eauto |].
  intros routed [Hr1 Hr2].
  set (state3 := graph.apply_update state2 routed).
  assert (Hpath3 : s_file_path state3 = Some file_path)
    by (subst state3; cbn; now rewrite Hr1).
  assert (Hname3 : s_filename state3 = Some filename)
    by (subst state3; cbn; now rewrite Hr2).
  clearbody state3.
  eapply runs_bind
    with (f := counted FileOrganizationAgent) (g := fun count => count);
    [now apply organization_node_runs |].
  intros filed ([Hf1 Hf2] & Hstage).
  apply runs_ret. cbn. rewrite Hf1, Hf2. cbn.
  split; [exact Hpath3 | split; [exact Hname3 |]].
  destruct Hstage as [-> | ->]; [now left | now right].
Qed.

End Requests.

(** The run of the workflow on a document. *)
Lemma ainvoke_runs file_path w :
  runs w (concerns file_path (graph.path_name file_path))
    (fun count =>
       counted FileOrganizationAgent
         (counted DomainRouterAgent
            (counted TextClassificationAgent
               (counted VisionAnalysisAgent
                  (counted DocumentIntakeAgent count)))))
    (graph.ainvoke (graph.initial_state file_path))
    (fun final_state =>
       s_file_path final_state = Some file_path
       /\ s_filename final_state = Some (graph.path_name file_path)
       /\ filing_stage (s_processing_stage final_state)).
Proof.
  intros s. rewrite ainvoke_straight_line.
  now apply straight_line_runs.
Qed.

(** X11. Every run of the pipeline executes each of the five agents exactly
    once, whatever the document and whatever the backends answer, also when
    the intake fails: afterwards [get_stats] reports for every agent an
    execution count one higher than before. *)
Theorem every_agent_runs_once :
  forall (file_path : string) (w : World) (s : St) (a : agent_id)
         (model_name : string),
    exists (result : PipelineResult) (s' : St),
      graph.process_document file_path w s = (Returned result, s')
      /\ execution_count s' a = execution_count s a + 1
      /\ fst (base.get_stats a model_name w s')
         = Returned {| stats_name := name a;
                       stats_model := model_name;
                       stats_execution_count := execution_count s a + 1 |}.
Proof.
  intros file_path w s a model_name.
  destruct (ainvoke_runs file_path w s) as (final_state & evs & Hrun & _ & _).
  rewrite process_document_returns, Hrun. cbn [fst snd].
  eexists. eexists. split; [reflexivity |].
  assert (Hcount :
            counted FileOrganizationAgent
              (counted DomainRouterAgent
                 (counted TextClassificationAgent
                    (counted VisionAnalysisAgent
                       (counted DocumentIntakeAgent (execution_count s))))) a
            = execution_count s a + 1).
  { unfold counted. now destruct a. }
  cbn [execution_count base.get_stats fst]. rewrite Hcount. auto.
Qed.

(** X12. The workflow never raises, and a run always ends with the filing
    node: the final stage is "completed" or "organization_failed", never
    "failed" or "intake_failed", also when the intake has failed and the
    error handler has run. The result of [process_document] therefore never
    has the key "error"; its filename is the name of the given path, and it
    reports success exactly when the final stage is "completed". *)
Theorem run_ends_with_the_filing :
  forall (file_path : string) (w : World) (s : St),
    exists (final_state : DocumentState) (s' : St),
      graph.ainvoke (graph.initial_state file_path) w s
      = (Returned final_state, s')
      /\ (s_processing_stage final_state = Some "completed"
          \/ s_processing_stage final_state = Some "organization_failed")
      /\ s_file_path final_state = Some file_path
      /\ s_filename final_state = Some (graph.path_name file_path)
      /\ exists result : PipelineResult,
           graph.process_document file_path w s = (Returned result, s')
           /\ pr_error result = None
           /\ pr_filename result = Some (graph.path_name file_path)
           /\ (pr_success result = true
               <-> s_processing_stage final_state = Some "completed").
Proof.
  intros file_path w s.
  destruct (ainvoke_runs file_path w s)
    as (final_state & evs & Hrun & _ & Hpath & Hname & Hstage).
  rewrite process_document_returns, Hrun. cbn [fst snd].
  eexists. eexists. split; [reflexivity |].
  split; [exact Hstage |]. split; [exact Hpath |]. split; [exact Hname |].
  eexists. split; [reflexivity |]. cbn [graph.pipeline_result pr_error
                                       pr_filename pr_success].
  split; [reflexivity |]. split; [exact Hname |].
  unfold graph.stage_is.
  destruct Hstage as [-> | ->]; split; intros H; try reflexivity;
    discriminate H.
Qed.

(** X13. In a run of the pipeline on a document, every request to the file
    system and every read of the PDF is on the path of that document, every
    file the file server is asked to copy is that document, under its own
    name, and the file server is never asked to move a file: the original
    stays where it is. *)
Theorem run_requests_concern_the_document :
  forall (file_path : string) (w : World) (s : St),
    Forall (concerns file_path (graph.path_name file_path))
      (new_events s (snd (graph.process_document file_path w s))).
Proof.
  intros file_path w s.
  destruct (ainvoke_runs file_path w s) as (final_state & evs & Hrun & Hevs & _).
  rewrite process_document_returns, Hrun. cbn [snd].
  rewrite (@new_events_app s _ evs); [exact Hevs | reflexivity].
Qed.

(** X10. The requests of [FileOrganizationAgent.process], in order. Without
    a path or a name it raises [ValueError] and requests nothing. Otherwise
    it looks for the file and raises [FileNotFoundError] when it is absent,
    before any request to the file server. It then asks for the domain
    folder, and only when that has succeeded asks for the transfer: a move
    exactly when the operation is "move", a copy for every other operation.
    The result has [success = True] exactly when the transfer has
    succeeded, and then carries the destination the file server answered;
    when the folder or the transfer is refused, it has [success = False]
    and the reply of the file server as details. *)
Theorem organization_process_requests :
  forall (input_data : OrganizationInput) (w : World) (s : St),
    let file_path := oi_file_path input_data in
    let filename := oi_filename input_data in
    let domain := oi_domain input_data in
    let moves := String.eqb (oi_operation input_data) "move" in
    let transfer :=
      if moves then McpMoveFile file_path domain filename
      else McpCopyFile file_path domain filename in
    let run := file_organization.process input_data w s in
    let evs := new_events s (snd run) in
    let h1 := (trace s ++ [PathExists file_path])%list in
    let h2 := (h1 ++ [McpCreateDomainFolder domain])%list in
    let folder := mcp_create_domain_folder w h1 domain in
    let reply :=
      if moves then mcp_move_file w h2 file_path domain filename
      else mcp_copy_file w h2 file_path domain filename in
    (file_path = "" \/ filename = "" ->
     run = (Raised (Exception "ValueError"
                      "file_path and filename are required"), s))
    /\ (file_path <> "" -> filename <> "" ->
        if os_path_exists w (trace s) file_path then
          if get (mcp_success folder) false then
            evs = [PathExists file_path; McpCreateDomainFolder domain;
                   transfer]
            /\ exists result,
                 fst run = Returned result
                 /\ org_success result = Some (get (mcp_success reply) false)
                 /\ (get (mcp_success reply) false = true ->
                     org_destination result = Some (mcp_destination reply)
                     /\ org_domain result = Some domain
                     /\ org_source result = Some file_path
                     /\ org_operation result
                        = Some (oi_operation input_data))
                 /\ (get (mcp_success reply) false = false ->
                     org_error result = mcp_message reply
                     /\ org_details result = Some reply)
          else
            evs = [PathExists file_path; McpCreateDomainFolder domain]
            /\ exists result,
                 fst run = Returned result
                 /\ org_success result = Some false
                 /\ org_error result = Some "Failed to create domain folder"
                 /\ org_details result = Some folder
        else
          evs = [PathExists file_path]
          /\ fst run
             = Raised (Exception "FileNotFoundError"
                         ("File not found: " ++ file_path))).
Proof.
  intros input_data w s file_path filename domain moves transfer run evs
    h1 h2 folder reply.
  subst evs run. unfold file_organization.process.
  fold file_path filename domain moves. split.
  - intros [Hpath | Hname].
    + rewrite Hpath. reflexivity.
    + rewrite Hname, String.eqb_refl, orb_true_r. reflexivity.
  - intros Hpath Hname.
    apply String.eqb_neq in Hpath. apply String.eqb_neq in Hname.
    rewrite Hpath, Hname. cbn [orb].
    unfold bind, call, ret. cbn [trace].
    destruct (os_path_exists w (trace s) file_path);
      cbn [negb fst snd trace execution_count].
    2: { split; [now apply new_events_app | reflexivity]. }
    fold h1 folder.
    destruct (get (mcp_success folder) false);
      cbn [negb fst snd trace execution_count].
    2: { split; [apply new_events_app; cbn [trace]; unfold h1;
                 now rewrite <- app_assoc |].
         eexists. split; [reflexivity |]. cbn. auto. }
    fold h2. subst transfer reply.
    destruct moves; cbn [negb fst snd trace execution_count];
      match goal with
      | |- context [get (mcp_success ?r) false] =>
          destruct (get (mcp_success r) false) eqn:Hok
      end; cbn [fst snd trace];
      (split; [apply new_events_app; cbn [trace]; unfold h2, h1;
               now rewrite <- !app_assoc |]);
      (eexists; split; [reflexivity |]); cbn;
      (split; [reflexivity |]);
      (split; [intros H; try discriminate H; auto
              | intros H; try discriminate H; auto]).
Qed.

(** ** [DocumentIntakeAgent.batch_process] *)



(** ** [_extract_key_phrases] *)

(** The count a counter holds for a key: 0 for a key it does not have. *)
Lemma count_into_lookup (x k : string) (items : list (string * nat)) :
  get (PyList.lookup k (PyList.count_into x items)) 0
  = get (PyList.lookup k items) 0 + (if String.eqb k x then 1 else 0).
Proof.
  induction items as [| [k' n] items IH]; cbn [PyList.count_into PyList.lookup].
  - destruct (String.eqb k x); reflexivity.
  - destruct (String.eqb x k') eqn:Hx; cbn [PyList.lookup].
    + apply String.eqb_eq in Hx. subst k'.
      destruct (String.eqb k x); cbn [get]; lia.
    + destruct (String.eqb k k') eqn:Hk.
      * apply String.eqb_eq in Hk. subst k'.
        rewrite String.eqb_sym, Hx. cbn [get]. lia.
      * exact IH.
Qed.

Lemma count_into_keys (x : string) (items : list (string * nat)) :
  NoDup (map fst items) ->
  NoDup (map fst (PyList.count_into x items))
  /\ forall k, In k (map fst (PyList.count_into x items))
               <-> k = x \/ In k (map fst items).
Proof.
  induction items as [| [k' n] items IH]; cbn [PyList.count_into map fst];
    intros Hdistinct.
  - split; [repeat constructor; intros [] |].
    intros k. cbn. intuition congruence.
  - inversion Hdistinct as [| ? ? Hk' Hrest]; subst.
    destruct (String.eqb x k') eqn:Hx; cbn [map fst].
    + apply String.eqb_eq in Hx. subst k'.
      split; [now constructor |]. intros k. cbn. intuition congruence.
    + apply String.eqb_neq in Hx.
      destruct (IH Hrest) as [Hnodup Hkeys]. split.
      * constructor; [| exact Hnodup].
        intros Hin. apply Hkeys in Hin. destruct Hin as [-> | Hin];
          [now apply Hx | now apply Hk'].
      * intros k. cbn. rewrite Hkeys. intuition congruence.
Qed.

(** The items of a counter: one for each distinct element, holding the
    number of its occurrences. *)
Lemma counter_fold (xs : list string) :
  forall acc : list (string * nat),
    NoDup (map fst acc) ->
    let counted := fold_left (fun items x => PyList.count_into x items) xs acc in
    NoDup (map fst counted)
    /\ (forall k, In k (map fst counted) <-> In k xs \/ In k (map fst acc))
    /\ forall k, get (PyList.lookup k counted) 0
                 = count_occ string_dec xs k + get (PyList.lookup k acc) 0.
Proof.
  induction xs as [| x xs IH]; intros acc Hacc; cbn [fold_left].
  - split; [exact Hacc |]. split; [cbn; tauto | reflexivity].
  - destruct (@count_into_keys x acc Hacc) as [Hnodup Hkeys].
    destruct (IH _ Hnodup) as (Hd & Hk & Hc). split; [exact Hd |]. split.
    + intros k. rewrite Hk, Hkeys. cbn. intuition congruence.
    + intros k. rewrite Hc, count_into_lookup. cbn [count_occ].
      destruct (string_dec x k) as [-> | Hne].
      * rewrite String.eqb_refl. lia.
      * assert (Hkx : String.eqb k x = false)
          by (apply String.eqb_neq; congruence).
        rewrite Hkx. lia.
Qed.

Lemma counter_spec (xs : list string) :
  NoDup (map fst (PyList.Counter xs))
  /\ (forall k, In k (map fst (PyList.Counter xs)) <-> In k xs)
  /\ forall k n, In (k, n) (PyList.Counter xs) -> n = count_occ string_dec xs k.
Proof.
  destruct (@counter_fold xs [] (NoDup_nil _)) as (Hd & Hk & Hc).
  fold (PyList.Counter xs) in Hd, Hk, Hc.
  split; [exact Hd |]. split.
  - intros k. rewrite Hk. cbn. tauto.
  - intros k n Hin. specialize (Hc k).
    rewrite (@lookup_entry _ _ _ _ Hd Hin) in Hc. cbn [get PyList.lookup] in Hc.
    lia.
Qed.

Lemma count_occ_filter (keep : string -> bool) (xs : list string) (x : string) :
  keep x = true ->
  count_occ string_dec (filter keep xs) x = count_occ string_dec xs x.
Proof.
  intros Hx. induction xs as [| y xs IH]; cbn [filter count_occ];
    [reflexivity |].
  destruct (string_dec y x) as [-> | Hne].
  - rewrite Hx. cbn [count_occ].
    destruct (string_dec x x) as [_ | Hxx]; [now rewrite IH | now contradiction Hxx].
  - destruct (keep y); [| exact IH]. cbn [count_occ].
    destruct (string_dec y x) as [Heq | _]; [contradiction | exact IH].
Qed.

Lemma StronglySorted_images {A B} (f : A -> B) (R : B -> B -> Prop)
    (l : list A) :
  StronglySorted (fun a b => R (f a) (f b)) l -> StronglySorted R (map f l).
Proof.
  induction 1 as [| x l Hsorted IH Hx]; cbn [map]; constructor;
    [exact IH |].
  rewrite Forall_forall in *. intros b Hb.
  apply in_map_iff in Hb. destruct Hb as (a & <- & Ha). now apply Hx.
Qed.

(** In a sorted list, what comes in a first part is before what comes in
    the rest. *)
Lemma StronglySorted_parts {A} (R : A -> A -> Prop) (first rest : list A) :
  StronglySorted R (first ++ rest) ->
  forall a b, In a first -> In b rest -> R a b.
Proof.
  induction first as [| x first IH]; cbn [app]; intros Hsorted a b Ha Hb;
    [contradiction |].
  inversion Hsorted as [| ? ? Hrest Hx]; subst.
  destruct Ha as [<- | Ha].
  - rewrite Forall_forall in Hx. apply Hx, in_or_app. now right.
  - now apply IH.
Qed.

(** The items of a counter, by decreasing count. *)
Lemma counter_ranked (items : list (string * nat)) :
  NoDup (map fst items) ->
  StronglySorted (fun a b => snd b <= snd a) (PyList.sorted_desc snd items).
Proof.
  intros Hdistinct.
  apply StronglySorted_weaken
    with (R := fun a b =>
                 snd b < snd a
                 \/ (snd a = snd b
                     /\ PyList.index_of (fst a) items
                        < PyList.index_of (fst b) items)).
  - apply sorted_desc_sorted
      with (position := fun a => PyList.index_of (fst a) items).
    apply StronglySorted_map with (f := fst)
      (R := fun a b => PyList.index_of a items < PyList.index_of b items).
    now apply keys_sorted.
  - intros a b _ _ Hab. lia.
Qed.

(** X14. [_extract_key_phrases] returns the most frequent eligible words of
    the lower-cased text, an eligible word being a maximal run of
    characters other than whitespace, longer than 3 characters and not one
    of the eleven common words. It returns at most [top_n] of them (none
    for [top_n <= 0]), each once, by decreasing number of occurrences; a
    word it leaves out occurs no more often than any word it returns, and
    is left out only when [top_n] words are returned. *)
Theorem key_phrases_most_frequent :
  forall (text : string) (top_n : Z),
    let words := PyStr.split (PyStr.lower text) in
    let eligible (word : string) :=
      In word words /\ 3 < String.length word
      /\ ~ In word text_classification.common_words in
    let frequency (word : string) := count_occ string_dec words word in
    let phrases := text_classification._extract_key_phrases text top_n in
    (Z.of_nat (List.length phrases) <= Z.max 0 top_n)%Z
    /\ NoDup phrases
    /\ (forall phrase, In phrase phrases -> eligible phrase)
    /\ StronglySorted (fun a b => frequency b <= frequency a) phrases
    /\ (forall phrase word,
           In phrase phrases -> eligible word -> ~ In word phrases ->
           frequency word <= frequency phrase)
    /\ (forall word,
           eligible word -> ~ In word phrases ->
           Z.of_nat (List.length phrases) = Z.max 0 top_n).
Proof.
  intros text top_n words eligible frequency phrases.
  set (keep := fun w : string =>
                 negb (PyStr.mem w text_classification.common_words)
                 && (3 <? String.length w)).
  set (filtered := filter keep words).
  set (ranked := PyList.sorted_desc snd (PyList.Counter filtered)).
  set (n := Z.to_nat top_n).
  assert (Hphrases : phrases = map fst (firstn n ranked)) by reflexivity.
  clearbody phrases. subst phrases.
  assert (Hkeep : forall word, keep word = true
                               <-> 3 < String.length word
                                   /\ ~ In word text_classification.common_words).
  { intros word. unfold keep. rewrite andb_true_iff, negb_true_iff,
      Nat.ltb_lt, mem_not_In. tauto. }
  assert (Heligible : forall word, eligible word <-> In word filtered).
  { intros word. unfold eligible, filtered. rewrite filter_In, Hkeep. tauto. }
  destruct (counter_spec filtered) as (Hdistinct & Hkeys & Hcounts).
  assert (Hperm : Permutation ranked (PyList.Counter filtered))
    by apply sorted_desc_perm.
  assert (Hfrequency : forall entry,
             In entry ranked ->
             eligible (fst entry) /\ snd entry = frequency (fst entry)).
  { intros [word count] Hin. cbn [fst snd].
    apply (Permutation_in _ Hperm) in Hin.
    assert (Hword : In word filtered).
    { apply Hkeys. now apply (in_map fst) in Hin. }
    split; [now apply Heligible |].
    rewrite (Hcounts _ _ Hin). unfold frequency, filtered.
    apply count_occ_filter. unfold filtered in Hword.
    now apply filter_In in Hword. }
  assert (Hsorted : StronglySorted (fun a b => snd b <= snd a) ranked)
    by now apply counter_ranked.
  assert (Hsplit : ranked = (firstn n ranked ++ skipn n ranked)%list)
    by (symmetry; apply firstn_skipn).
  assert (Hleft : forall word,
             eligible word -> ~ In word (map fst (firstn n ranked)) ->
             exists count, In (word, count) (skipn n ranked)).
  { intros word Hword Hout. apply Heligible, Hkeys in Hword.
    apply in_map_iff in Hword. destruct Hword as ([word' count] & Heq & Hin).
    cbn [fst] in Heq. subst word'. exists count.
    apply (Permutation_in _ (Permutation_sym Hperm)) in Hin.
    rewrite Hsplit in Hin. apply in_app_or in Hin.
    destruct Hin as [Hin | Hin]; [| exact Hin].
    exfalso. apply Hout. now apply (in_map fst) in Hin. }
  split; [| split; [| split; [| split; [| split]]]].
  - rewrite length_map. pose proof (firstn_le_length n ranked). lia.
  - rewrite <- firstn_map. apply NoDup_firstn.
    eapply Permutation_NoDup;
      [apply Permutation_sym, Permutation_map, Hperm | exact Hdistinct].
  - intros phrase Hin. apply in_map_iff in Hin.
    destruct Hin as (entry & <- & Hin). apply In_firstn in Hin.
    now apply Hfrequency.
  - apply StronglySorted_images.
    apply StronglySorted_weaken with (R := fun a b => snd b <= snd a).
    + now apply StronglySorted_firstn.
    + intros a b Ha Hb Hab. apply In_firstn in Ha. apply In_firstn in Hb.
      destruct (Hfrequency a Ha) as [_ <-].
      destruct (Hfrequency b Hb) as [_ <-]. exact Hab.
  - intros phrase word Hin Hword Hout.
    destruct (Hleft word Hword Hout) as (count & Hrest).
    apply in_map_iff in Hin. destruct Hin as (entry & <- & Hin).
    rewrite Hsplit in Hsorted.
    pose proof (@StronglySorted_parts _ _ _ _ Hsorted _ _ Hin Hrest) as Hle.
    cbn [snd] in Hle.
    assert (Hentry : In entry ranked) by now apply In_firstn in Hin.
    assert (Hother : In (word, count) ranked).
    { rewrite Hsplit. apply in_or_app. now right. }
    destruct (Hfrequency _ Hentry) as [_ <-].
    destruct (Hfrequency _ Hother) as [_ Hcount]. cbn [fst snd] in Hcount.
    lia.
  - intros word Hword Hout.
    destruct (Hleft word Hword Hout) as (count & Hrest).
    rewrite length_map, length_firstn.
    assert (Hlong : n < List.length ranked).
    { destruct (Nat.lt_ge_cases n (List.length ranked)) as [Hlt | Hge];
        [exact Hlt |].
      rewrite skipn_all2 in Hrest by exact Hge. contradiction. }
    lia.
Qed.

(** ** [utils/helpers.py] *)

Lemma range_from_done (fuel start stop step : nat) :
  stop <= start -> helpers.range_from fuel start stop step = [].
Proof.
  intros Hdone. destruct fuel as [| fuel]; cbn [helpers.range_from];
    [reflexivity |].
  apply Nat.ltb_ge in Hdone. now rewrite Hdone.
Qed.

Section Batches.

Variable A : Type.
Variable items : list A.
Variable size : nat.
Hypothesis size_positive : 0 < size.

Let batches_from (fuel start : nat) : list (list A) :=
  map (fun i => helpers.slice i size items)
    (helpers.range_from fuel start (List.length items) size).

(** The batches cut from a position on: they make up the rest of the list,
    none is empty or longer than [size], and all but the last are full. *)
Lemma batches_from_spec (fuel : nat) :
  forall start,
    start <= List.length items ->
    List.length items - start <= fuel ->
    concat (batches_from fuel start) = skipn start items
    /\ Forall (fun batch => 0 < List.length batch <= size)
         (batches_from fuel start)
    /\ Forall (fun batch => List.length batch = size)
         (removelast (batches_from fuel start)).
Proof.
  unfold batches_from.
  induction fuel as [| fuel IH]; intros start Hstart Hfuel;
    cbn [helpers.range_from map concat].
  - replace start with (List.length items) by lia.
    rewrite skipn_all. repeat split; constructor.
  - destruct (start <? List.length items) eqn:Hlt; cbn [map concat].
    2: { apply Nat.ltb_ge in Hlt.
         replace start with (List.length items) by lia.
         rewrite skipn_all. repeat split; constructor. }
    apply Nat.ltb_lt in Hlt.
    assert (Hrest : List.length (skipn start items)
                    = List.length items - start) by apply length_skipn.
    destruct (Nat.le_gt_cases (List.length items) (start + size))
      as [Hlast | Hmore].
    + (* the last batch *)
      rewrite range_from_done by exact Hlast. cbn [map concat removelast].
      unfold helpers.slice. rewrite app_nil_r.
      rewrite firstn_all2 by lia.
      split; [reflexivity |]. split; [| constructor].
      constructor; [lia | constructor].
    + destruct (IH (start + size)) as (Hconcat & Hsizes & Hfull); [lia.. |].
      rewrite Hconcat. unfold helpers.slice at 1 2 3.
      assert (Hbatch : List.length (firstn size (skipn start items)) = size).
      { rewrite length_firstn. lia. }
      split; [| split].
      * rewrite <- (firstn_skipn size (skipn start items)) at 2.
        rewrite skipn_skipn. f_equal. f_equal. lia.
      * constructor; [lia | exact Hsizes].
      * destruct (helpers.range_from fuel (start + size)
                    (List.length items) size) as [| i others] eqn:Hrange.
        -- (* cannot be: there is more to cut *)
           destruct fuel as [| fuel']; [lia |].
           cbn [helpers.range_from] in Hrange.
           apply Nat.ltb_lt in Hmore. rewrite Hmore in Hrange.
           discriminate Hrange.
        -- cbn [map removelast] in *.
           constructor; [exact Hbatch | exact Hfull].
Qed.

End Batches.

(** X15. [batch_items] with a positive batch size cuts the list into
    consecutive batches: put end to end they are the list, none is empty
    or longer than the batch size, and all but the last have exactly the
    batch size. With the batch size 0 it raises [ValueError]; with a
    negative batch size it returns no batch at all, whatever the list. *)
Theorem batch_items_partition :
  forall (A : Type) (items : list A) (batch_size : Z),
    ((0 < batch_size)%Z ->
     exists batches,
       helpers.batch_items items batch_size = Returned batches
       /\ concat batches = items
       /\ Forall (fun batch =>
                    0 < List.length batch
                    /\ (Z.of_nat (List.length batch) <= batch_size)%Z)
            batches
       /\ Forall (fun batch => Z.of_nat (List.length batch) = batch_size)
            (removelast batches))
    /\ (batch_size = 0%Z ->
        exists e,
          helpers.batch_items items batch_size = Raised e
          /\ exn_class e = "ValueError")
    /\ ((batch_size < 0)%Z ->
        helpers.batch_items items batch_size = Returned []).
Proof.
  intros A items batch_size. unfold helpers.batch_items, helpers.range.
  split; [| split].
  - intros Hpositive.
    assert (Hz : (batch_size =? 0)%Z = false) by lia.
    assert (Hn : (batch_size <? 0)%Z = false) by lia.
    rewrite Hz, Hn. eexists. split; [reflexivity |].
    assert (Hsize : 0 < Z.to_nat batch_size) by lia.
    destruct (@batches_from_spec A items (Z.to_nat batch_size) Hsize
                (List.length items) 0)
      as (Hconcat & Hsizes & Hfull); [lia.. |].
    split; [exact Hconcat |]. split.
    + eapply Forall_impl; [| exact Hsizes]. cbn beta. intros batch Hb. lia.
    + eapply Forall_impl; [| exact Hfull]. cbn beta. intros batch Hb. lia.
  - intros ->. cbn. eexists. split; reflexivity.
  - intros Hnegative.
    assert (Hz : (batch_size =? 0)%Z = false) by lia.
    assert (Hn : (batch_size <? 0)%Z = true) by lia.
    now rewrite Hz, Hn.
Qed.

Lemma append_length (s1 s2 : string) :
  String.length (s1 ++ s2) = String.length s1 + String.length s2.
Proof.
  induction s1 as [| c s1 IH]; cbn; [reflexivity | now rewrite IH].
Qed.

Lemma take_length_exact (n : nat) (s : string) :
  String.length (PyStr.take n s) = Nat.min n (String.length s).
Proof.
  unfold PyStr.take. revert s.
  induction n as [| n IH]; intros [| c s]; cbn; try reflexivity.
  now rewrite IH.
Qed.

(** X16. [truncate_text] leaves alone a text that fits [max_length]. A
    longer text is cut and the suffix is added; the result has exactly
    [max_length] characters when the suffix fits [max_length], and is
    longer than [max_length] when the suffix does not fit. *)
Theorem truncate_text_length :
  forall (text : string) (max_length : Z) (suffix : string),
    let result := helpers.truncate_text text max_length suffix in
    let length_of (s : string) := Z.of_nat (String.length s) in
    ((length_of text <= max_length)%Z -> result = text)
    /\ ((max_length < length_of text)%Z ->
        exists kept,
          result = kept ++ suffix /\ prefix kept text = true)
    /\ ((max_length < length_of text)%Z ->
        (length_of suffix <= max_length)%Z ->
        length_of result = max_length)
    /\ ((max_length < length_of text)%Z ->
        (max_length < length_of suffix)%Z ->
        (max_length < length_of result)%Z).
Proof.
  intros text max_length suffix result length_of.
  subst result. unfold helpers.truncate_text, length_of.
  destruct (Z.of_nat (String.length text) <=? max_length)%Z eqn:Hfits.
  - apply Z.leb_le in Hfits. repeat split; try reflexivity; intros; lia.
  - apply Z.leb_gt in Hfits. split; [intros; lia |].
    unfold PyStr.slice_to. split; [| split].
    + intros _. eexists. split; [reflexivity |].
      destruct (0 <=? _)%Z; apply take_prefix.
    + intros _ Hsuffix. rewrite append_length.
      destruct (0 <=? max_length - Z.of_nat (String.length suffix))%Z
        eqn:Hsign; [| lia].
      rewrite take_length_exact. lia.
    + intros _ Hsuffix. rewrite append_length. lia.
Qed.

Lemma max_spec (x y : Q) :
  ((x < y)%Q /\ PyNum.max x y = y) \/ ((y <= x)%Q /\ PyNum.max x y = x).
Proof.
  unfold PyNum.max. destruct (PyNum.ltb x y) eqn:H.
  - left. split; [now apply ltb_lt | reflexivity].
  - right. split; [| reflexivity].
    apply Qnot_lt_le. intros Hlt. apply ltb_lt in Hlt. congruence.
Qed.

Lemma ltb_ge (x y : Q) : PyNum.ltb x y = false <-> (y <= x)%Q.
Proof.
  split.
  - intros H. apply Qnot_lt_le. intros Hlt. apply ltb_lt in Hlt. congruence.
  - intros Hle. destruct (PyNum.ltb x y) eqn:H; [| reflexivity].
    apply ltb_lt in H. exfalso. now apply (Qlt_not_le _ _ H).
Qed.

(** X17. [validate_confidence] clamps: its result lies in [0, 1] and is
    equal to the confidence when that lies in [0, 1]; it is 0.0 for a
    negative confidence and 1.0 for one above 1; clamping twice is
    clamping once. *)
Theorem validate_confidence_clamps :
  forall confidence : Q,
    let clamped := helpers.validate_confidence confidence in
    PyNum.unit_interval clamped
    /\ (PyNum.unit_interval confidence -> (clamped == confidence)%Q)
    /\ ((confidence < 0)%Q -> clamped = 0.0%Q)
    /\ ((1 < confidence)%Q -> clamped = 1.0%Q)
    /\ helpers.validate_confidence clamped = clamped.
Proof.
  intros confidence clamped. subst clamped.
  unfold helpers.validate_confidence, PyNum.max, PyNum.min,
    PyNum.unit_interval.
  destruct (PyNum.ltb confidence 1.0) eqn:Hone.
  - apply ltb_lt in Hone.
    destruct (PyNum.ltb 0.0 confidence) eqn:Hzero.
    + apply ltb_lt in Hzero.
      assert (H1 : PyNum.ltb confidence 1.0 = true) by now apply ltb_lt.
      assert (H0 : PyNum.ltb 0.0 confidence = true) by now apply ltb_lt.
      rewrite H1, H0.
      repeat split; try reflexivity; try lra; intros; lra.
    + apply ltb_ge in Hzero.
      change (PyNum.ltb 0.0 1.0) with true. cbv iota.
      change (PyNum.ltb 0.0 0.0) with false. cbv iota.
      repeat split; try reflexivity; try lra; try (intros; lra).
  - apply ltb_ge in Hone.
    change (PyNum.ltb 0.0 1.0) with true. cbv iota.
    change (PyNum.ltb 1.0 1.0) with false. cbv iota.
    change (PyNum.ltb 0.0 1.0) with true. cbv iota.
    repeat split; try reflexivity; try lra; try (intros; lra).
Qed.

(** ** [normalize_domain_name] *)

(** The three steps of [normalize_domain_name], read on the list of the
    characters of the string. *)
Lemma chars_lower (s : string) :
  list_ascii_of_string (PyStr.lower s)
  = map PyStr.lower_char (list_ascii_of_string s).
Proof. induction s as [| c s IH]; cbn; [reflexivity | now rewrite <- IH]. Qed.

Lemma chars_replace (s : string) :
  list_ascii_of_string (PyStr.replace_char " " "_" s)
  = map underscore (list_ascii_of_string s).
Proof.
  induction s as [| c s IH]; cbn; [reflexivity |].
  unfold underscore at 1. destruct (Ascii.eqb c " "); cbn; now rewrite <- IH.
Qed.

Lemma chars_lstrip (s : string) :
  list_ascii_of_string (PyStr.lstrip s) = drop_spaces (list_ascii_of_string s).
Proof.
  induction s as [| c s IH]; cbn; [reflexivity |].
  now destruct (PyStr.is_space c).
Qed.

Lemma chars_reverse (s : string) :
  list_ascii_of_string (PyStr.reverse s) = rev (list_ascii_of_string s).
Proof.
  unfold PyStr.reverse.
  apply list_ascii_of_string_of_list_ascii.
Qed.

Lemma chars_strip (s : string) :
  list_ascii_of_string (PyStr.strip s)
  = rev (drop_spaces (rev (drop_spaces (list_ascii_of_string s)))).
Proof.
  unfold PyStr.strip.
  now rewrite chars_reverse, chars_lstrip, chars_reverse, chars_lstrip.
Qed.

Lemma chars_inj (s t : string) :
  list_ascii_of_string s = list_ascii_of_string t -> s = t.
Proof.
  intros H. rewrite <- (string_of_list_ascii_of_string s),
    <- (string_of_list_ascii_of_string t). now rewrite H.
Qed.

Lemma drop_spaces_begins (l : list ascii) : begins (drop_spaces l).
Proof.
  induction l as [| c l IH]; cbn; [exact I |].
  destruct (PyStr.is_space c) eqn:Hc; [exact IH | exact Hc].
Qed.

Lemma begins_drop_spaces (l : list ascii) : begins l -> drop_spaces l = l.
Proof. destruct l as [| c l]; cbn; [reflexivity | now intros ->]. Qed.

Lemma drop_spaces_suffix (l : list ascii) :
  exists spaces, l = (spaces ++ drop_spaces l)%list.
Proof.
  induction l as [| c l [spaces IH]]; cbn; [now exists [] |].
  destruct (PyStr.is_space c).
  - exists (c :: spaces). cbn. now rewrite <- IH.
  - now exists [].
Qed.

Lemma drop_spaces_In (l : list ascii) (c : ascii) :
  In c (drop_spaces l) -> In c l.
Proof.
  destruct (drop_spaces_suffix l) as [spaces Hl]. intros Hin.
  rewrite Hl. apply in_or_app. now right.
Qed.

(** A stripped list neither begins nor ends with a space. *)
Lemma strip_begins (l : list ascii) :
  let stripped := rev (drop_spaces (rev (drop_spaces l))) in
  begins stripped /\ begins (rev stripped).
Proof.
  intros stripped. subst stripped. rewrite rev_involutive.
  split; [| apply drop_spaces_begins].
  pose proof (drop_spaces_begins l) as Hfirst.
  destruct (drop_spaces_suffix (rev (drop_spaces l))) as [spaces Hrev].
  set (inner := drop_spaces (rev (drop_spaces l))) in *.
  assert (Hl : drop_spaces l = (rev inner ++ rev spaces)%list).
  { rewrite <- rev_app_distr, <- Hrev. now rewrite rev_involutive. }
  rewrite Hl in Hfirst.
  destruct (rev inner) as [| c rest]; [exact I | exact Hfirst].
Qed.

Lemma begins_strip (l : list ascii) :
  begins l -> begins (rev l) ->
  rev (drop_spaces (rev (drop_spaces l))) = l.
Proof.
  intros Hfirst Hlast.
  rewrite (begins_drop_spaces l Hfirst), (begins_drop_spaces _ Hlast).
  apply rev_involutive.
Qed.

Lemma space_is_space (c : ascii) :
  Ascii.eqb c " " = true -> PyStr.is_space c = true.
Proof. intros H. apply Ascii.eqb_eq in H. now subst c. Qed.

Lemma begins_underscore (l : list ascii) :
  begins l -> begins (map underscore l).
Proof.
  destruct l as [| c l]; cbn; [trivial |]. intros Hc. unfold underscore.
  destruct (Ascii.eqb c " ") eqn:Hspace; [| exact Hc].
  apply space_is_space in Hspace. congruence.
Qed.

Lemma underscore_twice (c : ascii) : underscore (underscore c) = underscore c.
Proof.
  unfold underscore. destruct (Ascii.eqb c " ") eqn:Hc; [reflexivity |].
  now rewrite Hc.
Qed.

Lemma underscore_no_space (c : ascii) : underscore c <> " "%char.
Proof.
  unfold underscore. destruct (Ascii.eqb c " ") eqn:Hc; [discriminate |].
  intros ->. discriminate Hc.
Qed.

Lemma lower_char_twice (c : ascii) :
  PyStr.lower_char (PyStr.lower_char c) = PyStr.lower_char c.
Proof.
  destruct c as [[] [] [] [] [] [] [] []]; vm_compute; reflexivity.
Qed.

Lemma lower_underscore (c : ascii) :
  PyStr.lower_char c = c -> PyStr.lower_char (underscore c) = underscore c.
Proof.
  unfold underscore. destruct (Ascii.eqb c " "); [reflexivity | trivial].
Qed.

Lemma map_fixed {A} (f : A -> A) (l : list A) :
  (forall x, In x l -> f x = x) -> map f l = l.
Proof.
  induction l as [| a l IH]; cbn; intros H; [reflexivity |].
  rewrite H by now left. rewrite IH; [reflexivity |].
  intros x Hx. apply H. now right.
Qed.

Lemma chars_normalize (domain : string) :
  list_ascii_of_string (helpers.normalize_domain_name domain)
  = map underscore
      (rev (drop_spaces
              (rev (drop_spaces
                      (map PyStr.lower_char (list_ascii_of_string domain)))))).
Proof.
  unfold helpers.normalize_domain_name.
  now rewrite chars_replace, chars_strip, chars_lower.
Qed.

Lemma normal_name_chars (domain : string) :
  let name := list_ascii_of_string (helpers.normalize_domain_name domain) in
  (forall c, In c name -> PyStr.lower_char c = c)
  /\ begins name /\ begins (rev name)
  /\ (forall c, In c name -> c <> " "%char).
Proof.
  intros name. subst name. rewrite chars_normalize.
  set (lowered := map PyStr.lower_char (list_ascii_of_string domain)).
  destruct (strip_begins lowered) as [Hfirst Hlast].
  set (stripped := rev (drop_spaces (rev (drop_spaces lowered)))) in *.
  split; [| split; [| split]].
  - intros c Hc. apply in_map_iff in Hc. destruct Hc as (c0 & <- & Hc0).
    apply lower_underscore.
    apply in_rev, drop_spaces_In, in_rev in Hc0.
    apply drop_spaces_In, in_map_iff in Hc0.
    destruct Hc0 as (c1 & <- & _). apply lower_char_twice.
  - now apply begins_underscore.
  - rewrite <- map_rev. now apply begins_underscore.
  - intros c Hc. apply in_map_iff in Hc. destruct Hc as (c0 & <- & _).
    apply underscore_no_space.
Qed.

Lemma contains_space (s : string) :
  PyStr.contains " " s = false
  <-> forall c, In c (list_ascii_of_string s) -> c <> " "%char.
Proof.
  induction s as [| c s IH].
  - cbn. split; [intros _ c [] | reflexivity].
  - cbn [PyStr.contains prefix list_ascii_of_string In].
    destruct (ascii_dec " " c) as [<- | Hne].
    + replace (prefix "" s) with true by now destruct s.
      split; [discriminate |]. intros H. exfalso.
      apply (H " "%char); [now left | reflexivity].
    + rewrite IH. split.
      * intros H x [<- | Hx]; [congruence | now apply H].
      * intros H x Hx. apply H. now right.
Qed.

(** X18. [normalize_domain_name] is idempotent: a normalized name is in
    lower case, has no whitespace at either end and no space inside, and
    normalizing it again gives the same name. The ten declared domain tags
    are normalized names. *)
Theorem normalize_domain_name_idempotent :
  forall domain : string,
    let name := helpers.normalize_domain_name domain in
    helpers.normalize_domain_name name = name
    /\ PyStr.lower name = name
    /\ PyStr.strip name = name
    /\ PyStr.contains " " name = false
    /\ (declared domain -> name = domain).
Proof.
  intros domain name.
  destruct (normal_name_chars domain)
    as (Hlower & Hfirst & Hlast & Hspace).
  fold name in Hlower, Hfirst, Hlast, Hspace.
  assert (Hl : PyStr.lower name = name).
  { apply chars_inj. rewrite chars_lower. now apply map_fixed. }
  assert (Hs : PyStr.strip name = name).
  { apply chars_inj. rewrite chars_strip. now apply begins_strip. }
  assert (Hr : PyStr.replace_char " " "_" name = name).
  { apply chars_inj. rewrite chars_replace. apply map_fixed.
    intros c Hc. apply Hspace in Hc.
    unfold underscore. destruct (Ascii.eqb c " ") eqn:Heq; [| reflexivity].
    apply Ascii.eqb_eq in Heq. contradiction. }
  split; [| split; [exact Hl | split; [exact Hs | split]]].
  - unfold helpers.normalize_domain_name at 1. now rewrite Hl, Hs.
  - now apply contains_space.
  - intros Hdeclared. subst name. unfold declared in Hdeclared.
    cbn in Hdeclared.
    repeat (destruct Hdeclared as [<- | Hdeclared]; [reflexivity |]).
    contradiction.
Qed.

(** ** The database: [models.py] and [crud.py] *)

(** The values of the members of [DocumentDomain] are the ten declared
    tags, in the order of the catalog. *)
Lemma member_values : map models.value models.members = declared_domains.
Proof. reflexivity. Qed.

Lemma member_declared (member : models.DocumentDomain) :
  declared (models.value member).
Proof.
  unfold declared. rewrite <- member_values. apply in_map.
  destruct member; cbn; tauto.
Qed.

Lemma value_injective (a b : models.DocumentDomain) :
  models.value a = models.value b -> a = b.
Proof. destruct a, b; cbn; intros H; try reflexivity; discriminate H. Qed.

(** [DocumentDomain(tag)] is the member of value [tag], and raises exactly
    for what is not a declared tag. *)
Lemma domain_of_tag (tag : option string) :
  match models.DocumentDomain_of tag with
  | Returned member => tag = Some (models.value member)
  | Raised e =>
      exn_class e = "ValueError"
      /\ forall t, tag = Some t -> ~ declared t
  end.
Proof.
  destruct tag as [t |]; cbn [models.DocumentDomain_of];
    [| split; [reflexivity | intros t Ht; discriminate Ht]].
  pose proof (find_first (fun member => String.eqb (models.value member) t)
                models.members) as Hfind.
  destruct (find _ models.members) as [member |].
  - destruct Hfind as (_ & _ & _ & Heq & _).
    apply String.eqb_eq in Heq. now rewrite Heq.
  - split; [reflexivity |]. intros t' Ht Hdeclared. injection Ht as <-.
    unfold declared in Hdeclared. rewrite <- member_values in Hdeclared.
    apply in_map_iff in Hdeclared. destruct Hdeclared as (member & Hv & Hin).
    specialize (Hfind member Hin). cbn beta in Hfind.
    rewrite Hv, String.eqb_refl in Hfind. discriminate Hfind.
Qed.

Lemma write_row_found (doc' : models.Document) (table : Session)
    (doc : models.Document) (id : Z) :
  models.doc_id doc' = id ->
  row_of table id = Some doc ->
  row_of (crud.write_row doc' table) id = Some doc'.
Proof.
  intros <-. unfold row_of. induction table as [| row rest IH];
    cbn [find crud.write_row]; [discriminate |].
  destruct (models.doc_id row =? models.doc_id doc')%Z eqn:Hrow.
  - intros _. cbn [find]. now rewrite Z.eqb_refl.
  - intros Hfound. cbn [find]. rewrite Hrow. now apply IH.
Qed.

Lemma write_row_frame (doc' : models.Document) (table : Session) (id : Z) :
  id <> models.doc_id doc' ->
  row_of (crud.write_row doc' table) id = row_of table id.
Proof.
  intros Hid. unfold row_of. induction table as [| row rest IH];
    cbn [find crud.write_row]; [reflexivity |].
  destruct (models.doc_id row =? models.doc_id doc')%Z eqn:Hrow.
  - apply Z.eqb_eq in Hrow. cbn [find].
    assert (H1 : (models.doc_id doc' =? id)%Z = false) by lia.
    assert (H2 : (models.doc_id row =? id)%Z = false) by lia.
    now rewrite H1, H2.
  - cbn [find]. destruct (models.doc_id row =? id)%Z; [reflexivity | exact IH].
Qed.

Lemma lookup_id (table : Session) (id : Z) (doc : models.Document) :
  row_of table id = Some doc -> models.doc_id doc = id.
Proof.
  unfold row_of. intros Hfound. apply find_some in Hfound.
  destruct Hfound as [_ Heq]. now apply Z.eqb_eq in Heq.
Qed.

(** What [update_document_status] does to a row that exists. *)
Lemma update_status_run (document_id : Z) (status : models.ProcessingStatus)
    (error_message : option string) (w : World) (db : Session) (s : St)
    (doc : models.Document) :
  row_of db document_id = Some doc ->
  exists doc',
    crud.update_document_status document_id status error_message w (db, s)
    = (Returned (Some doc'), (crud.write_row doc' db, s))
    /\ row_of (crud.write_row doc' db) document_id = Some doc'
    /\ (forall id, id <> document_id ->
                   row_of (crud.write_row doc' db) id = row_of db id)
    /\ models.doc_status doc' = status
    /\ models.doc_error_message doc'
       = (if crud.truthy error_message then error_message
          else models.doc_error_message doc)
    /\ models.doc_original_path doc' = models.doc_original_path doc
    /\ models.doc_predicted_domain doc' = models.doc_predicted_domain doc
    /\ models.doc_confidence_score doc' = models.doc_confidence_score doc
    /\ models.doc_output_path doc' = models.doc_output_path doc
    /\ models.doc_vision_analysis doc' = models.doc_vision_analysis doc
    /\ models.doc_text_analysis doc' = models.doc_text_analysis doc.
Proof.
  intros Hfound. pose proof (lookup_id _ _ Hfound) as Hid.
  unfold crud.update_document_status, dbind, crud.get_document.
  cbn [fst snd]. fold (row_of db document_id). rewrite Hfound.
  unfold crud.now, session_free, read, crud.commit, dret. cbn [fst snd].
  destruct status; cbn [fst snd];
    (eexists; split; [reflexivity |]);
    (split; [apply write_row_found with (doc := doc);
             [exact Hid | exact Hfound] |]);
    (split; [intros id Hne; apply write_row_frame; cbn [models.doc_id];
             congruence |]);
    cbn; auto 12.
Qed.

(** What [update_document_classification] does to a row that exists. *)
Lemma update_classification_run (document_id : Z) (domain : option string)
    (confidence : option Q) (output_path : option string)
    (final_decision : option Decision)
    (vision_analysis : option VisionAnalysis)
    (text_analysis : option TextAnalysis) (w : World) (db : Session)
    (s : St) (doc : models.Document) :
  row_of db document_id = Some doc ->
  exists doc' member,
    crud.update_document_classification document_id domain confidence
      output_path final_decision vision_analysis text_analysis w (db, s)
    = (Returned (Some doc'), (crud.write_row doc' db, s))
    /\ row_of (crud.write_row doc' db) document_id = Some doc'
    /\ (forall id, id <> document_id ->
                   row_of (crud.write_row doc' db) id = row_of db id)
    /\ models.doc_predicted_domain doc' = Some member
    /\ (forall tag, domain = Some tag -> declared tag ->
                    models.value member = tag)
    /\ ((domain = None \/ exists tag, domain = Some tag /\ ~ declared tag) ->
        member = models.GENERAL)
    /\ models.doc_confidence_score doc' = confidence
    /\ models.doc_output_path doc' = output_path
    /\ models.doc_final_decision doc' = final_decision
    /\ models.doc_vision_analysis doc' = vision_analysis
    /\ models.doc_text_analysis doc' = text_analysis
    /\ models.doc_status doc' = models.doc_status doc
    /\ models.doc_error_message doc' = models.doc_error_message doc
    /\ models.doc_original_path doc' = models.doc_original_path doc.
Proof.
  intros Hfound. pose proof (lookup_id _ _ Hfound) as Hid.
  unfold crud.update_document_classification, dbind, crud.get_document.
  cbn [fst snd]. fold (row_of db document_id). rewrite Hfound.
  unfold crud.now, session_free, read, crud.commit, dret. cbn [fst snd].
  eexists. eexists. split; [reflexivity |].
  split; [apply write_row_found with (doc := doc);
          [exact Hid | exact Hfound] |].
  split; [intros id Hne; apply write_row_frame; cbn [models.doc_id];
          congruence |].
  cbn [models.doc_predicted_domain models.doc_confidence_score
       models.doc_output_path models.doc_final_decision
       models.doc_vision_analysis models.doc_text_analysis
       models.doc_status models.doc_error_message models.doc_original_path].
  split; [reflexivity |].
  pose proof (domain_of_tag domain) as Htag.
  destruct (models.DocumentDomain_of domain) as [member | e].
  - split; [intros tag Hdomain _; congruence |].
    split; [| auto 10].
    intros [Hnone | (tag & Hdomain & Hundeclared)]; [congruence |].
    exfalso. apply Hundeclared.
    assert (tag = models.value member) as -> by congruence.
    apply member_declared.
  - destruct Htag as [_ Hundeclared].
    split; [| auto 10].
    intros tag Hdomain Hdeclared. exfalso.
    now apply (Hundeclared tag).
Qed.

(** X19. [update_document_classification] on a document that exists
    commits one row: reading the document back gives the updated row, and
    every other row is as before. The domain it stores is always a member
    of [DocumentDomain], whose values are the ten declared tags: the member
    of the given tag when the tag is declared, and [GENERAL] for every
    other tag and for [None]. The confidence is stored as given. On a
    document that does not exist it changes nothing and returns [None]. *)
Theorem classification_is_stored_coerced :
  forall (document_id : Z) (domain : option string) (confidence : option Q)
         (output_path : option string) (final_decision : option Decision)
         (vision_analysis : option VisionAnalysis)
         (text_analysis : option TextAnalysis)
         (w : World) (db : Session) (s : St),
    let run :=
      crud.update_document_classification document_id domain confidence
        output_path final_decision vision_analysis text_analysis w (db, s) in
    match row_of db document_id with
    | None => run = (Returned None, (db, s))
    | Some doc =>
        exists doc' member,
          run = (Returned (Some doc'), (crud.write_row doc' db, s))
          /\ row_of (crud.write_row doc' db) document_id = Some doc'
          /\ (forall id, id <> document_id ->
                         row_of (crud.write_row doc' db) id = row_of db id)
          /\ models.doc_predicted_domain doc' = Some member
          /\ declared (models.value member)
          /\ (forall tag, domain = Some tag -> declared tag ->
                          models.value member = tag)
          /\ ((domain = None
               \/ exists tag, domain = Some tag /\ ~ declared tag) ->
              member = models.GENERAL)
          /\ models.doc_confidence_score doc' = confidence
          /\ models.doc_output_path doc' = output_path
          /\ models.doc_status doc' = models.doc_status doc
          /\ models.doc_error_message doc' = models.doc_error_message doc
    end.
Proof.
  intros document_id domain confidence output_path final_decision
    vision_analysis text_analysis w db s run.
  destruct (row_of db document_id) as [doc |] eqn:Hfound.
  - destruct (@update_classification_run document_id domain confidence
                output_path final_decision vision_analysis text_analysis
                w db s doc Hfound)
      as (doc' & member & Hrun & Hback & Hframe & Hmember & Hdeclared
          & Hgeneral & Hconfidence & Hpath & _ & _ & _ & Hstatus & Herror & _).
    exists doc', member.
    split; [exact Hrun |]. split; [exact Hback |]. split; [exact Hframe |].
    split; [exact Hmember |]. split; [apply member_declared |]. auto 10.
  - subst run. unfold crud.update_document_classification, dbind,
      crud.get_document. cbn [fst snd].
    fold (row_of db document_id). now rewrite Hfound.
Qed.

(** The workflow returns a result, without an error. *)
Lemma process_document_succeeds file_path w s :
  exists result s',
    graph.process_document file_path w s = (Returned result, s')
    /\ pr_error result = None.
Proof.
  destruct (ainvoke_runs file_path w s) as (final_state & evs & Hrun & _ & _).
  rewrite process_document_returns, Hrun. cbn [fst snd].
  eexists. eexists. split; reflexivity.
Qed.

(** X20. The route [process_document_sync]. For an unknown document it
    raises the HTTP error 404 and runs nothing. For a document of the table
    it runs the workflow on the path of the document and answers; the row
    of the document then has the status COMPLETED or FAILED as the workflow
    has or has not succeeded, and every other row is as before. On success
    the row holds a member of [DocumentDomain] (the member of the
    workflow's domain when that is a declared tag), the confidence and the
    output path of the workflow, and no vision or text analysis. On failure
    the stored domain and confidence are left as they were. The error
    message of the row is left as it was in both cases: the reason of a
    failure is not recorded. *)
Theorem sync_route_records_the_run :
  forall (document_id : Z) (w : World) (db : Session) (s : St),
    let run := documents.process_document_sync document_id w (db, s) in
    match row_of db document_id with
    | None =>
        run = (Raised (documents.HTTPException "404" "Document not found"),
               (db, s))
    | Some doc =>
        exists response db' s' row result,
          run = (Returned response, (db', s'))
          /\ graph.process_document (models.doc_original_path doc) w s
             = (Returned result, s')
          /\ sr_success response = pr_success result
          /\ sr_domain response = pr_domain result
          /\ row_of db' document_id = Some row
          /\ (forall id, id <> document_id -> row_of db' id = row_of db id)
          /\ models.doc_status row
             = (if pr_success result then models.COMPLETED
                else models.FAILED)
          /\ models.doc_error_message row = models.doc_error_message doc
          /\ (pr_success result = true ->
              (exists member,
                  models.doc_predicted_domain row = Some member
                  /\ declared (models.value member)
                  /\ forall tag, pr_domain result = Some tag ->
                                 declared tag -> models.value member = tag)
              /\ models.doc_confidence_score row = pr_confidence result
              /\ models.doc_output_path row = pr_output_path result
              /\ models.doc_vision_analysis row = None
              /\ models.doc_text_analysis row = None)
          /\ (pr_success result = false ->
              models.doc_predicted_domain row
              = models.doc_predicted_domain doc
              /\ models.doc_confidence_score row
                 = models.doc_confidence_score doc)
    end.
Proof.
  intros document_id w db s run. subst run.
  assert (Hroute : documents.process_document_sync document_id w (db, s)
                   = match row_of db document_id with
                     | None =>
                         (Raised (documents.HTTPException "404"
                                    "Document not found"), (db, s))
                     | Some doc =>
                         (crud.update_document_status document_id
                            models.PROCESSING None ;;~
                          dcatch
                            (result <~ session_free
                                         (graph.process_document
                                            (models.doc_original_path doc)) ;;
                             (if pr_success result then
                                crud.update_document_classification
                                  document_id (pr_domain result)
                                  (pr_confidence result)
                                  (pr_output_path result)
                                  (pr_final_decision result) None None ;;~
                                crud.update_document_status document_id
                                  models.COMPLETED None
                              else
                                crud.update_document_status document_id
                                  models.FAILED (pr_error result)) ;;~
                             dret {| sr_success := pr_success result;
                                     sr_document_id := document_id;
                                     sr_filename := pr_filename result;
                                     sr_domain := pr_domain result;
                                     sr_confidence := pr_confidence result;
                                     sr_output_path :=
                                       pr_output_path result |})
                            (fun e =>
                               crud.update_document_status document_id
                                 models.FAILED (Some (str_of_exn e)) ;;~
                               draise (documents.HTTPException "500"
                                         (str_of_exn e)))) w (db, s)
                     end).
  { unfold documents.process_document_sync.
    unfold dbind at 1. unfold crud.get_document at 1. cbn [fst snd].
    fold (row_of db document_id).
    now destruct (row_of db document_id). }
  rewrite Hroute. clear Hroute.
  destruct (row_of db document_id) as [doc |] eqn:Hfound; [| reflexivity].
  destruct (@update_status_run document_id models.PROCESSING None w db s doc
              Hfound)
    as (doc1 & Hrun1 & Hback1 & Hframe1 & _ & Herror1 & Hpath1 & Hdomain1
        & Hconfidence1 & _).
  unfold dbind at 1. rewrite Hrun1.
  destruct (process_document_succeeds (models.doc_original_path doc) w s)
    as (result & s' & Hworkflow & Hnoerror).
  unfold dcatch, dbind at 1, session_free. cbn [fst snd].
  rewrite Hworkflow.
  set (db1 := crud.write_row doc1 db) in *.
  destruct (pr_success result) eqn:Hsuccess.
  - destruct (@update_classification_run document_id (pr_domain result)
                (pr_confidence result) (pr_output_path result)
                (pr_final_decision result) None None w db1 s' doc1 Hback1)
      as (doc2 & member & Hrun2 & Hback2 & Hframe2 & Hmember & Hdeclared & _
          & Hconfidence2 & Houtput2 & _ & Hvision2 & Htext2 & _ & Herror2 & _).
    set (db2 := crud.write_row doc2 db1) in *.
    destruct (@update_status_run document_id models.COMPLETED None w db2 s'
                doc2 Hback2)
      as (doc3 & Hrun3 & Hback3 & Hframe3 & Hstatus3 & Herror3 & _ & Hdomain3
          & Hconfidence3 & Houtput3 & Hvision3 & Htext3).
    unfold dbind. rewrite Hrun2, Hrun3. unfold dret.
    eexists. exists (crud.write_row doc3 db2), s', doc3, result.
    split; [reflexivity |].
    split; [reflexivity |]. cbn [sr_success sr_domain].
    rewrite Hsuccess.
    split; [reflexivity |]. split; [reflexivity |].
    split; [exact Hback3 |].
    split; [intros id Hne;
            now rewrite Hframe3, Hframe2, Hframe1 by exact Hne |].
    split; [exact Hstatus3 |].
    split; [rewrite Herror3, Herror2, Herror1; reflexivity |].
    split; [| intros H; discriminate H].
    intros _. split.
    + exists member. rewrite Hdomain3.
      split; [exact Hmember | split; [apply member_declared | exact Hdeclared]].
    + rewrite Hconfidence3, Houtput3, Hvision3, Htext3. auto.
  - destruct (@update_status_run document_id models.FAILED (pr_error result)
                w db1 s' doc1 Hback1)
      as (doc2 & Hrun2 & Hback2 & Hframe2 & Hstatus2 & Herror2 & _ & Hdomain2
          & Hconfidence2 & _).
    unfold dbind. rewrite Hrun2. unfold dret.
    eexists. exists (crud.write_row doc2 db1), s', doc2, result.
    split; [reflexivity |].
    split; [reflexivity |]. cbn [sr_success sr_domain].
    rewrite Hsuccess.
    split; [reflexivity |]. split; [reflexivity |].
    split; [exact Hback2 |].
    split; [intros id Hne;
            now rewrite Hframe2, Hframe1 by exact Hne |].
    split; [exact Hstatus2 |].
    split; [rewrite Herror2, Hnoerror, Herror1; reflexivity |].
    split; [intros H; discriminate H |].
    intros _. rewrite Hdomain2, Hdomain1, Hconfidence2, Hconfidence1. auto.
Qed.
